(** * Specification filters of [backbone]: parser, evaluator and translators

    A shallow embedding of the specification/filter subsystem of the
    [backbone] package:

    - [backbone/domain/specifications/base_specification.py]
    - [backbone/domain/specifications/filter_specification.py]
    - [backbone/domain/specifications/filter_parser.py]
    - [backbone/domain/specifications/sort_specification.py]
    - [backbone/infrastructure/persistence/adapters/mongodb_adapter.py]
    - [backbone/infrastructure/persistence/adapters/sqlalchemy_adapter.py]
    - [backbone/domain/exceptions/base_kernel_exception.py]
    - [backbone/domain/exceptions/domain_exceptions.py]
    - [backbone/domain/repositories/query_builder.py]
    - [backbone/domain/repositories/base_repository.py]
    - [backbone/infrastructure/testing/mock_repository.py]

    Python values are modelled by the inductive type [pyval]; a Python [str]
    is a Rocq [string] whose characters are read as the code points U+0000
    to U+00FF (one [ascii] per code point, not per UTF-8 byte); a Python
    [float] is an IEEE 754 binary64 number ([spec_float] with precision 53
    and maximal exponent 1024); raising is modelled by the [Raise] branch of
    the [result] type. *)

From Stdlib Require Import String Ascii List ZArith Bool Lia.
From Stdlib Require Import Floats.SpecFloat.
Import ListNotations.

Set Warnings "-register-all".

Open Scope string_scope.
Open Scope Z_scope.

(** ** Exceptions and the result monad *)

Inductive exn : Type :=
| InvalidValueObjectException
    (message value_object_type invalid_value : string) (code : Z)
| ValueError (message : string)
| TypeError
| AttributeError
| KeyError (key : string)
| IndexError.

Inductive result (A : Type) : Type :=
| Ok (a : A)
| Raise (e : exn).

Arguments Ok {A} a.
Arguments Raise {A} e.

Definition bind {A B : Type} (m : result A) (k : A -> result B) : result B :=
  match m with
  | Ok a => k a
  | Raise e => Raise e
  end.

Notation "x <- m ;; k" := (bind m (fun x => k))
  (at level 61, m at next level, right associativity).

Notation "m ;;; k" := (bind m (fun _ => k))
  (at level 61, right associativity).

Fixpoint mapM {A B : Type} (f : A -> result B) (l : list A)
  : result (list B) :=
  match l with
  | [] => Ok []
  | a :: l' => b <- f a ;; bs <- mapM f l' ;; Ok (b :: bs)
  end.

(** ** Python [str] builtins on code points U+0000..U+00FF *)

Module PyStr.

Definition code (c : ascii) : nat := nat_of_ascii c.

Definition in_range (lo hi : nat) (c : ascii) : bool :=
  (Nat.leb lo (code c) && Nat.leb (code c) hi)%bool.

(** [str.isspace] on one character: the characters [str.strip] removes. *)
Definition isspace (c : ascii) : bool :=
  (in_range 9 13 c || in_range 28 32 c
   || Nat.eqb (code c) 133 || Nat.eqb (code c) 160)%bool.

(** The characters of Unicode category Nd: those [int] and [float] read. *)
Definition isdecimal_char (c : ascii) : bool := in_range 48 57 c.

(** [str.isdigit] on one character: the decimal digits and the superscript
    digits U+00B2, U+00B3 and U+00B9. *)
Definition isdigit_char (c : ascii) : bool :=
  (isdecimal_char c
   || Nat.eqb (code c) 178 || Nat.eqb (code c) 179
   || Nat.eqb (code c) 185)%bool.

Definition lower_char (c : ascii) : ascii :=
  if (in_range 65 90 c || in_range 192 214 c || in_range 216 222 c)%bool
  then ascii_of_nat (code c + 32)
  else c.

Fixpoint lower (s : string) : string :=
  match s with
  | EmptyString => EmptyString
  | String c s' => String (lower_char c) (lower s')
  end.

Fixpoint forallb_str (p : ascii -> bool) (s : string) : bool :=
  match s with
  | EmptyString => true
  | String c s' => (p c && forallb_str p s')%bool
  end.

Definition is_empty (s : string) : bool :=
  match s with EmptyString => true | _ => false end.

(** [s.isdigit()]: at least one character, all of them digits. *)
Definition isdigit (s : string) : bool :=
  (negb (is_empty s) && forallb_str isdigit_char s)%bool.


Fixpoint lstrip (s : string) : string :=
  match s with
  | EmptyString => EmptyString
  | String c s' => if isspace c then lstrip s' else s
  end.

Fixpoint rstrip (s : string) : string :=
  match s with
  | EmptyString => EmptyString
  | String c s' =>
      let r := rstrip s' in
      if (isspace c && is_empty r)%bool then EmptyString else String c r
  end.

Definition strip (s : string) : string := rstrip (lstrip s).

Definition startswith (s pre : string) : bool := prefix pre s.

(** [sub in s] for strings. *)
Fixpoint contains (sub s : string) : bool :=
  (prefix sub s
   || match s with
      | EmptyString => false
      | String _ s' => contains sub s'
      end)%bool.

(** [s[1:]] *)
Definition tail (s : string) : string :=
  match s with
  | EmptyString => EmptyString
  | String _ s' => s'
  end.

Fixpoint rev_acc (s acc : string) : string :=
  match s with
  | EmptyString => acc
  | String c s' => rev_acc s' (String c acc)
  end.

Definition rev (s : string) : string := rev_acc s EmptyString.

Definition can_split (maxsplit : option nat) : bool :=
  match maxsplit with
  | Some O => false
  | _ => true
  end.

Definition after_split (maxsplit : option nat) : option nat :=
  match maxsplit with
  | Some n => Some (Nat.pred n)
  | None => None
  end.

(** The scan behind [s.split(sep, maxsplit)] for a non-empty [sep]: the
    occurrences of [sep] are taken leftmost first and do not overlap;
    [skip] counts the characters of a separator still to be dropped and
    [cur] holds the current piece, reversed. *)
Fixpoint split_scan (sep : string) (maxsplit : option nat) (skip : nat)
  (cur : string) (s : string) : list string :=
  match s with
  | EmptyString => [rev cur]
  | String c s' =>
      match skip with
      | S k => split_scan sep maxsplit k cur s'
      | O =>
          if (can_split maxsplit && prefix sep s)%bool
          then rev cur
               :: split_scan sep (after_split maxsplit)
                    (Nat.pred (String.length sep)) EmptyString s'
          else split_scan sep maxsplit O (String c cur) s'
      end
  end.

(** [s.split(sep)] *)
Definition split (sep s : string) : list string :=
  split_scan sep None O EmptyString s.

(** [s.split(sep, maxsplit)] *)
Definition split_max (sep : string) (maxsplit : nat) (s : string)
  : list string :=
  split_scan sep (Some maxsplit) O EmptyString s.

Definition mem (s : string) (l : list string) : bool :=
  existsb (String.eqb s) l.

Fixpoint join (sep : string) (l : list string) : string :=
  match l with
  | [] => EmptyString
  | [s] => s
  | s :: l' => s ++ sep ++ join sep l'
  end.

Fixpoint repeat_char (c : ascii) (n : nat) : string :=
  match n with
  | O => EmptyString
  | S n' => String c (repeat_char c n')
  end.

End PyStr.

(** ** Python numbers: [int] and [float] conversions to and from [str] *)

Module PyNum.

Definition prec : Z := 53.
Definition emax : Z := 1024.

Definition digit_of (c : ascii) : Z := Z.of_nat (PyStr.code c) - 48.

Definition digit_char (d : Z) : ascii := ascii_of_nat (Z.to_nat (d + 48)).

(** [str(n)] for a natural number, [fuel] bounding the number of digits. *)
Fixpoint digits_of_pos (fuel : nat) (n : Z) (acc : string) : string :=
  match fuel with
  | O => acc
  | S fuel' =>
      let acc' := String (digit_char (n mod 10)) acc in
      if n <? 10 then acc' else digits_of_pos fuel' (n / 10) acc'
  end.

Definition string_of_nonneg (n : Z) : string :=
  digits_of_pos (S (Z.to_nat (Z.log2 n))) n EmptyString.

(** [str(n)] for an [int]. *)
Definition string_of_Z (n : Z) : string :=
  if n <? 0 then String "-" (string_of_nonneg (- n)) else string_of_nonneg n.

(** What [_PyUnicode_TransformDecimalAndSpaceToASCII] leaves of a string
    before [int] or [float] read it: the Unicode spaces become a blank and
    any other character from U+007F on becomes a question mark. *)
Definition to_ascii_char (c : ascii) : ascii :=
  if Nat.ltb (PyStr.code c) 127 then c
  else if PyStr.isspace c then " "%char else "?"%char.

Fixpoint to_ascii (s : string) : string :=
  match s with
  | EmptyString => EmptyString
  | String c s' => String (to_ascii_char c) (to_ascii s')
  end.

(** The C-level blanks ([Py_ISSPACE]). *)
Definition c_isspace (c : ascii) : bool :=
  (PyStr.in_range 9 13 c || Nat.eqb (PyStr.code c) 32)%bool.

Fixpoint c_lstrip (s : string) : string :=
  match s with
  | EmptyString => EmptyString
  | String c s' => if c_isspace c then c_lstrip s' else s
  end.

Fixpoint c_rstrip (s : string) : string :=
  match s with
  | EmptyString => EmptyString
  | String c s' =>
      let r := c_rstrip s' in
      if (c_isspace c && PyStr.is_empty r)%bool then EmptyString
      else String c r
  end.

(** An underscore is accepted only between two digits; the accepted ones
    are dropped ([_Py_string_to_number_with_underscores]). [prev] is the
    character before [s], if any. *)
Fixpoint drop_underscores (prev : option ascii) (s : string)
  : option string :=
  let is_dec (o : option ascii) :=
    match o with Some c => PyStr.isdecimal_char c | None => false end in
  match s with
  | EmptyString =>
      match prev with
      | Some "_"%char => None
      | _ => Some EmptyString
      end
  | String c s' =>
      if Ascii.eqb c "_" then
        if is_dec prev then drop_underscores (Some c) s' else None
      else
        match prev with
        | Some "_"%char =>
            if PyStr.isdecimal_char c then
              option_map (String c) (drop_underscores (Some c) s')
            else None
        | _ => option_map (String c) (drop_underscores (Some c) s')
        end
  end.

(** An optional sign: [true] for a minus. *)
Definition take_sign (s : string) : bool * string :=
  match s with
  | String "-"%char s' => (true, s')
  | String "+"%char s' => (false, s')
  | _ => (false, s)
  end.

(** A run of decimal digits read onto [acc]: the value, the number of
    digits read and what follows. *)
Fixpoint take_digits (s : string) (acc : Z) (n : nat) : Z * nat * string :=
  match s with
  | EmptyString => (acc, n, s)
  | String c s' =>
      if PyStr.isdecimal_char c
      then take_digits s' (10 * acc + digit_of c) (S n)
      else (acc, n, s)
  end.

(** [int(s)] in base ten; [None] is Python's [ValueError]. *)
Definition int_of_string (s : string) : option Z :=
  match drop_underscores None (to_ascii s) with
  | None => None
  | Some s1 =>
      let (neg, s2) := take_sign (c_rstrip (c_lstrip s1)) in
      match take_digits s2 0 O with
      | (_, O, _) => None
      | (v, _, EmptyString) => Some (if neg then - v else v)
      | _ => None
      end
  end.

(** The binary64 number nearest to [m * 10 ^ e10] (ties to even). *)
Definition binary64_of_decimal (neg : bool) (m e10 : Z) : spec_float :=
  match m with
  | Zpos p =>
      if 0 <=? e10
      then binary_round prec emax neg (Z.to_pos (Zpos p * 10 ^ e10)) 0
      else SFdiv prec emax (S754_finite neg p 0)
             (S754_finite false (Z.to_pos (10 ^ (- e10))) 0)
  | _ => S754_zero neg
  end.

(** The decimal forms [float] reads: digits with an optional point and an
    optional exponent, at least one digit in the mantissa. The result is
    the mantissa and the power of ten. *)
Definition decimal_of_string (s : string) : option (Z * Z) :=
  let '(ip, ni, r1) := take_digits s 0 O in
  let '(m, nf, r2) :=
    match r1 with
    | String "."%char r => take_digits r ip O
    | _ => (ip, O, r1)
    end in
  match (ni + nf)%nat with
  | O => None
  | _ =>
      match r2 with
      | EmptyString => Some (m, - Z.of_nat nf)
      | String c r3 =>
          if (Ascii.eqb c "e" || Ascii.eqb c "E")%bool then
            let (eneg, r4) := take_sign r3 in
            match take_digits r4 0 O with
            | (_, O, _) => None
            | (ev, _, EmptyString) =>
                Some (m, (if eneg then - ev else ev) - Z.of_nat nf)
            | _ => None
            end
          else None
      end
  end.

(** [float(s)]; [None] is Python's [ValueError]. *)
Definition float_of_string (s : string) : option spec_float :=
  match drop_underscores None (to_ascii s) with
  | None => None
  | Some s1 =>
      let (neg, s2) := take_sign (c_rstrip (c_lstrip s1)) in
      let w := PyStr.lower s2 in
      if (String.eqb w "inf" || String.eqb w "infinity")%bool
      then Some (S754_infinity neg)
      else if String.eqb w "nan" then Some S754_nan
      else
        match decimal_of_string s2 with
        | Some (m, e10) => Some (binary64_of_decimal neg m e10)
        | None => None
        end
  end.

(** *** [repr] of a float: the shortest decimal that reads back *)

(** [10 ^ k <= num / den], for [den > 0]. *)
Definition pow10_le (k num den : Z) : bool :=
  if 0 <=? k then 10 ^ k * den <=? num else den <=? num * 10 ^ (- k).

Fixpoint log10_up (fuel : nat) (k num den : Z) : Z :=
  match fuel with
  | O => k
  | S fuel' =>
      if pow10_le (k + 1) num den then log10_up fuel' (k + 1) num den else k
  end.

(** The [k] with [10 ^ k <= num / den < 10 ^ (k + 1)]. *)
Definition floor_log10 (num den : Z) : Z :=
  let k0 := ((Z.log2 num - Z.log2 den) * 30103) / 100000 - 2 in
  log10_up 6 k0 num den.

Fixpoint strip_zeros (fuel : nat) (d q : Z) : Z * Z :=
  match fuel with
  | O => (d, q)
  | S fuel' =>
      if ((d mod 10 =? 0) && (0 <? d))%bool
      then strip_zeros fuel' (d / 10) (q + 1)
      else (d, q)
  end.

(** The shortest digits [d] and power [q] with [d * 10 ^ q] reading back as
    [x = num / den]; of two such with the same number of digits, the nearer
    to [x]. [n] is the number of digits tried. *)
Fixpoint shortest (fuel : nat) (n : Z) (x : spec_float) (k num den : Z)
  : Z * Z :=
  let q := k - n + 1 in
  let a := if 0 <=? q then num else num * 10 ^ (- q) in
  let b := if 0 <=? q then den * 10 ^ q else den in
  let lo := a / b in
  let r := a mod b in
  let back d :=
    match SFcompare (binary64_of_decimal false d q) x with
    | Some Eq => true
    | _ => false
    end in
  let pick :=
    match back lo, back (lo + 1) with
    | true, true =>
        match 2 * r ?= b with
        | Lt => Some lo
        | Gt => Some (lo + 1)
        | Eq => Some (if Z.even lo then lo else lo + 1)
        end
    | true, false => Some lo
    | false, true => Some (lo + 1)
    | false, false => None
    end in
  match pick, fuel with
  | Some d, _ => (d, q)
  | None, S fuel' => shortest fuel' (n + 1) x k num den
  | None, O => (lo, q)
  end.

(** The digits and the position of the decimal point of a positive finite
    float, as [repr] prints them. *)
Definition repr_digits (m : positive) (e : Z) : string * Z :=
  let num := if 0 <=? e then Zpos m * 2 ^ e else Zpos m in
  let den := if 0 <=? e then 1 else 2 ^ (- e) in
  let k := floor_log10 num den in
  let (d, q) := shortest 17 1 (S754_finite false m e) k num den in
  let (d', q') := strip_zeros 18 d q in
  let ds := string_of_nonneg d' in
  (ds, Z.of_nat (String.length ds) + q').

Definition exponent_text (e : Z) : string :=
  let a := string_of_nonneg (Z.abs e) in
  let sg := if e <? 0 then "-"%char else "+"%char in
  String sg (if Z.abs e <? 10 then String "0" a else a).

(** [repr(x)], which is also [str(x)], for a float. *)
Definition string_of_float (x : spec_float) : string :=
  match x with
  | S754_nan => "nan"
  | S754_infinity s => if s then "-inf" else "inf"
  | S754_zero s => if s then "-0.0" else "0.0"
  | S754_finite s m e =>
      let (ds, decpt) := repr_digits m e in
      let n := Z.of_nat (String.length ds) in
      let body :=
        if ((decpt <=? -4) || (16 <? decpt))%bool then
          match ds with
          | String c EmptyString => String c (String "e" (exponent_text (decpt - 1)))
          | String c rest =>
              String c (String "." rest) ++ String "e" (exponent_text (decpt - 1))
          | EmptyString => EmptyString
          end
        else if decpt <=? 0 then
          "0." ++ PyStr.repeat_char "0" (Z.to_nat (- decpt)) ++ ds
        else if decpt <? n then
          substring 0 (Z.to_nat decpt) ds ++ "."
            ++ substring (Z.to_nat decpt) (Z.to_nat (n - decpt)) ds
        else ds ++ PyStr.repeat_char "0" (Z.to_nat (decpt - n)) ++ ".0" in
      if s then String "-" body else body
  end.

(** Exact comparison of an [int] with a float, as Python does it; [None]
    when the float is a NaN. *)
Definition compare_Z_float (n : Z) (x : spec_float) : option comparison :=
  match x with
  | S754_nan => None
  | S754_infinity s => Some (if s then Gt else Lt)
  | S754_zero _ => Some (n ?= 0)
  | S754_finite s m e =>
      let v := if s then Zneg m else Zpos m in
      Some (if 0 <=? e then n ?= v * 2 ^ e else n * 2 ^ (- e) ?= v)
  end.

End PyNum.

(** ** Python values *)

(** The values a filter or a candidate's field can hold. [VObj] stands for
    any object without value semantics (a bound method, a type): it is
    described by the text [str] gives for it, equals only itself, is not
    ordered and is not a container. Values are compared by value: the
    shortcut Python takes for one and the same object, which only a NaN
    can tell from [==], is not modelled. *)
Inductive pyval : Type :=
| VNone
| VBool (b : bool)
| VInt (n : Z)
| VFloat (x : spec_float)
| VStr (s : string)
| VList (l : list pyval)
| VTuple (l : list pyval)
| VObj (text : string).

Module PyVal.

(** The numbers: [bool] is a subclass of [int]. *)
Inductive num : Type :=
| NInt (n : Z)
| NFloat (x : spec_float).

Definition as_num (v : pyval) : option num :=
  match v with
  | VBool b => Some (NInt (if b then 1 else 0))
  | VInt n => Some (NInt n)
  | VFloat x => Some (NFloat x)
  | _ => None
  end.

(** The order of two numbers; [None] when one of them is a NaN. *)
Definition num_compare (a b : num) : option comparison :=
  match a, b with
  | NInt m, NInt n => Some (m ?= n)
  | NInt m, NFloat y => PyNum.compare_Z_float m y
  | NFloat x, NInt n => option_map CompOpp (PyNum.compare_Z_float n x)
  | NFloat x, NFloat y => SFcompare x y
  end.

(** [a == b] *)
Fixpoint py_eq (a b : pyval) {struct a} : bool :=
  let list_eq :=
    fix list_eq (l m : list pyval) {struct l} : bool :=
      match l, m with
      | [], [] => true
      | x :: l', y :: m' => (py_eq x y && list_eq l' m')%bool
      | _, _ => false
      end in
  match a, b with
  | VNone, VNone => true
  | VBool x, _ =>
      match as_num b with
      | Some n =>
          match num_compare (NInt (if x then 1 else 0)) n with
          | Some Eq => true
          | _ => false
          end
      | None => false
      end
  | VInt x, _ =>
      match as_num b with
      | Some n =>
          match num_compare (NInt x) n with Some Eq => true | _ => false end
      | None => false
      end
  | VFloat x, _ =>
      match as_num b with
      | Some n =>
          match num_compare (NFloat x) n with Some Eq => true | _ => false end
      | None => false
      end
  | VStr s, VStr t => String.eqb s t
  | VList l, VList m => list_eq l m
  | VTuple l, VTuple m => list_eq l m
  | VObj s, VObj t => String.eqb s t
  | _, _ => false
  end.

(** [a != b] *)
Definition py_ne (a b : pyval) : bool := negb (py_eq a b).

(** The four ordering operators. *)
Inductive order_op : Type := OpLt | OpLe | OpGt | OpGe.

Definition test_comparison (op : order_op) (c : option comparison) : bool :=
  match op, c with
  | OpLt, Some Lt => true
  | OpLe, Some (Lt | Eq) => true
  | OpGt, Some Gt => true
  | OpGe, Some (Gt | Eq) => true
  | _, _ => false
  end.

(** [a < b], [a <= b], [a > b], [a >= b]: numbers with numbers, strings
    with strings by code point, lists with lists and tuples with tuples at
    their first differing item; anything else raises [TypeError]. *)
Fixpoint py_order (op : order_op) (a b : pyval) {struct a} : result bool :=
  let seq_order :=
    fix seq_order (l m : list pyval) {struct l} : result bool :=
      match l, m with
      | x :: l', y :: m' =>
          if py_eq x y then seq_order l' m' else py_order op x y
      | _, _ =>
          Ok (test_comparison op
                (Some (Nat.compare (List.length l) (List.length m))))
      end in
  match a, b with
  | VStr s, VStr t => Ok (test_comparison op (Some (String.compare s t)))
  | VList l, VList m => seq_order l m
  | VTuple l, VTuple m => seq_order l m
  | _, _ =>
      match as_num a, as_num b with
      | Some x, Some y => Ok (test_comparison op (num_compare x y))
      | _, _ => Raise TypeError
      end
  end.

(** [x in c] *)
Definition py_in (x c : pyval) : result bool :=
  match c with
  | VList l | VTuple l => Ok (existsb (py_eq x) l)
  | VStr s =>
      match x with
      | VStr t => Ok (PyStr.contains t s)
      | _ => Raise TypeError
      end
  | _ => Raise TypeError
  end.

Definition hex_digit (n : nat) : ascii :=
  if Nat.ltb n 10 then ascii_of_nat (48 + n) else ascii_of_nat (87 + n).

Definition printable (c : ascii) : bool :=
  let n := PyStr.code c in
  negb (Nat.ltb n 32 || (Nat.leb 127 n && Nat.leb n 160) || Nat.eqb n 173).

(** The characters of [repr(s)] between the quotes. *)
Fixpoint escape (quote : ascii) (s : string) : string :=
  match s with
  | EmptyString => EmptyString
  | String c s' =>
      let n := PyStr.code c in
      let e :=
        if (Ascii.eqb c quote || Ascii.eqb c "\")%bool
        then String "\" (String c EmptyString)
        else if Nat.eqb n 9 then "\t"
        else if Nat.eqb n 10 then "\n"
        else if Nat.eqb n 13 then "\r"
        else if printable c then String c EmptyString
        else String "\" (String "x" (String (hex_digit (Nat.div n 16))
                          (String (hex_digit (Nat.modulo n 16)) EmptyString)))
      in e ++ escape quote s'
  end.

(** [repr(s)] for a string. *)
Definition repr_string (s : string) : string :=
  let double_quote := ascii_of_nat 34 in
  let quote :=
    if (PyStr.contains "'" s
        && negb (PyStr.contains (String double_quote EmptyString) s))%bool
    then double_quote else "'"%char in
  String quote (escape quote s ++ String quote EmptyString).

(** [repr(v)] *)
Fixpoint py_repr (v : pyval) : string :=
  match v with
  | VNone => "None"
  | VBool b => if b then "True" else "False"
  | VInt n => PyNum.string_of_Z n
  | VFloat x => PyNum.string_of_float x
  | VStr s => repr_string s
  | VList l => "[" ++ PyStr.join ", " (map py_repr l) ++ "]"
  | VTuple [x] => "(" ++ py_repr x ++ ",)"
  | VTuple l => "(" ++ PyStr.join ", " (map py_repr l) ++ ")"
  | VObj text => text
  end.

(** [str(v)] *)
Definition py_str (v : pyval) : string :=
  match v with
  | VStr s => s
  | _ => py_repr v
  end.

(** [v[i]] for an index [i >= 0] *)
Definition py_getitem (v : pyval) (i : nat) : result pyval :=
  match v with
  | VList l | VTuple l =>
      match nth_error l i with
      | Some x => Ok x
      | None => Raise IndexError
      end
  | VStr s =>
      match String.get i s with
      | Some c => Ok (VStr (String c EmptyString))
      | None => Raise IndexError
      end
  | _ => Raise TypeError
  end.

End PyVal.

(** [try: m except TypeError: return False] *)
Definition except_TypeError (m : result bool) : result bool :=
  match m with
  | Raise TypeError => Ok false
  | _ => m
  end.

(** [try: m except AttributeError: return False] *)
Definition except_AttributeError (m : result bool) : result bool :=
  match m with
  | Raise AttributeError => Ok false
  | _ => m
  end.

(** ** Candidates

    A candidate is what [getattr] sees of an entity, its attributes, and
    what subscripting sees of it, its mapping entries. An ordinary entity
    has attributes and no entries; a plain [dict] has entries, and for
    attributes only those of the [dict] type. *)

Record candidate : Type := {
  attributes : list (string * pyval);
  entries : list (pyval * pyval)
}.

Fixpoint assoc {A : Type} (key : string) (l : list (string * A)) : option A :=
  match l with
  | [] => None
  | (k, v) :: l' => if String.eqb k key then Some v else assoc key l'
  end.

(** [getattr(candidate, name)] *)
Definition getattr (c : candidate) (name : string) : result pyval :=
  match assoc name (attributes c) with
  | Some v => Ok v
  | None => Raise AttributeError
  end.

(** An entity with the given attributes. *)
Definition py_object (attrs : list (string * pyval)) : candidate :=
  {| attributes := attrs; entries := [] |}.

Module PyDict.

Definition builtin_method (addr name : string) : string * pyval :=
  (name,
   VObj ("<built-in method " ++ name ++ " of dict object at 0x" ++ addr ++ ">")).

Definition method_wrapper (addr name : string) : string * pyval :=
  (name,
   VObj ("<method-wrapper '" ++ name ++ "' of dict object at 0x" ++ addr ++ ">")).

Definition type_method (type_addr name : string) : string * pyval :=
  (name,
   VObj ("<built-in method " ++ name ++ " of type object at 0x"
         ++ type_addr ++ ">")).

Definition __doc__ : string :=
"dict() -> new empty dictionary
dict(mapping) -> new dictionary initialized from a mapping object's
    (key, value) pairs
dict(iterable) -> new dictionary initialized as if via:
    d = {}
    for k, v in iterable:
        d[k] = v
dict(**kwargs) -> new dictionary initialized with the name=value pairs
    in the keyword argument list.  For example:  dict(one=1, two=2)".

(** The attributes of a [dict] object (CPython 3.11, [dir({})]): the
    methods of the object at address [addr], those of its type at address
    [type_addr], its docstring, and [__hash__], which is [None]. *)
Definition dict_attributes (addr type_addr : string)
  : list (string * pyval) :=
  [ ("__class__", VObj "<class 'dict'>");
    type_method type_addr "__class_getitem__";
    builtin_method addr "__contains__";
    method_wrapper addr "__delattr__";
    method_wrapper addr "__delitem__";
    builtin_method addr "__dir__";
    ("__doc__", VStr __doc__);
    method_wrapper addr "__eq__";
    builtin_method addr "__format__";
    method_wrapper addr "__ge__";
    method_wrapper addr "__getattribute__";
    builtin_method addr "__getitem__";
    builtin_method addr "__getstate__";
    method_wrapper addr "__gt__";
    ("__hash__", VNone);
    method_wrapper addr "__init__";
    type_method type_addr "__init_subclass__";
    method_wrapper addr "__ior__";
    method_wrapper addr "__iter__";
    method_wrapper addr "__le__";
    method_wrapper addr "__len__";
    method_wrapper addr "__lt__";
    method_wrapper addr "__ne__";
    type_method type_addr "__new__";
    method_wrapper addr "__or__";
    builtin_method addr "__reduce__";
    builtin_method addr "__reduce_ex__";
    method_wrapper addr "__repr__";
    builtin_method addr "__reversed__";
    method_wrapper addr "__ror__";
    method_wrapper addr "__setattr__";
    method_wrapper addr "__setitem__";
    builtin_method addr "__sizeof__";
    method_wrapper addr "__str__";
    type_method type_addr "__subclasshook__";
    builtin_method addr "clear";
    builtin_method addr "copy";
    type_method type_addr "fromkeys";
    builtin_method addr "get";
    builtin_method addr "items";
    builtin_method addr "keys";
    builtin_method addr "pop";
    builtin_method addr "popitem";
    builtin_method addr "setdefault";
    builtin_method addr "update";
    builtin_method addr "values" ].

(** The names [getattr] finds on a plain [dict]. *)
Definition attribute_names : list string :=
  map fst (dict_attributes "" "").

End PyDict.

(** A plain [dict] with the given entries, living at address [addr]. *)
Definition py_dict (addr type_addr : string) (items : list (pyval * pyval))
  : candidate :=
  {| attributes := PyDict.dict_attributes addr type_addr; entries := items |}.

(** ** Dictionaries *)

(** A dictionary with [str] keys, in insertion order. *)
Definition pydict : Type := list (string * pyval).

(** [d[key] = v] *)
Fixpoint setitem (key : string) (v : pyval) (d : pydict) : pydict :=
  match d with
  | [] => [(key, v)]
  | (k, x) :: d' =>
      if String.eqb k key then (k, v) :: d' else (k, x) :: setitem key v d'
  end.

(** [d.update(other)] *)
Definition update (d other : pydict) : pydict :=
  fold_left (fun acc kv => setitem (fst kv) (snd kv) acc) other d.

(** ** [filter_specification.py]: the leaf specifications *)

(** One constructor per concrete class; [PlainFilterSpecification] is the
    base class [FilterSpecification] instantiated directly. The attributes
    [field], [operator] and [value] are those [__init__] stores. *)
Inductive FilterSpecification : Type :=
| PlainFilterSpecification (field operator : string) (value : pyval)
| EqualSpecification (field : string) (value : pyval)
| NotEqualSpecification (field : string) (value : pyval)
| LessThanSpecification (field : string) (value : pyval)
| LessThanOrEqualSpecification (field : string) (value : pyval)
| GreaterThanSpecification (field : string) (value : pyval)
| GreaterThanOrEqualSpecification (field : string) (value : pyval)
| LikeSpecification (field : string) (value : pyval)
| InSpecification (field : string) (values : pyval)
| BetweenSpecification (field : string) (min_value max_value : pyval)
| IsNullSpecification (field : string)
| IsNotNullSpecification (field : string).

Definition field (f : FilterSpecification) : string :=
  match f with
  | PlainFilterSpecification field _ _
  | EqualSpecification field _
  | NotEqualSpecification field _
  | LessThanSpecification field _
  | LessThanOrEqualSpecification field _
  | GreaterThanSpecification field _
  | GreaterThanOrEqualSpecification field _
  | LikeSpecification field _
  | InSpecification field _
  | BetweenSpecification field _ _
  | IsNullSpecification field
  | IsNotNullSpecification field => field
  end.

Definition operator (f : FilterSpecification) : string :=
  match f with
  | PlainFilterSpecification _ operator _ => operator
  | EqualSpecification _ _ => "eq"
  | NotEqualSpecification _ _ => "ne"
  | LessThanSpecification _ _ => "lt"
  | LessThanOrEqualSpecification _ _ => "lte"
  | GreaterThanSpecification _ _ => "gt"
  | GreaterThanOrEqualSpecification _ _ => "gte"
  | LikeSpecification _ _ => "like"
  | InSpecification _ _ => "in"
  | BetweenSpecification _ _ _ => "between"
  | IsNullSpecification _ => "is_null"
  | IsNotNullSpecification _ => "is_not_null"
  end.

Definition value (f : FilterSpecification) : pyval :=
  match f with
  | PlainFilterSpecification _ _ value
  | EqualSpecification _ value
  | NotEqualSpecification _ value
  | LessThanSpecification _ value
  | LessThanOrEqualSpecification _ value
  | GreaterThanSpecification _ value
  | GreaterThanOrEqualSpecification _ value
  | LikeSpecification _ value
  | InSpecification _ value => value
  | BetweenSpecification _ min_value max_value =>
      VList [min_value; max_value]
  | IsNullSpecification _
  | IsNotNullSpecification _ => VNone
  end.

(** [self._compare_values(field_value, filter_value)], as each class
    overrides it. *)
Definition _compare_values (self : FilterSpecification)
  (field_value filter_value : pyval) : result bool :=
  match self with
  | PlainFilterSpecification _ _ _
  | EqualSpecification _ _ => Ok (PyVal.py_eq field_value filter_value)
  | NotEqualSpecification _ _ => Ok (PyVal.py_ne field_value filter_value)
  | LessThanSpecification _ _ =>
      except_TypeError (PyVal.py_order PyVal.OpLt field_value filter_value)
  | LessThanOrEqualSpecification _ _ =>
      except_TypeError (PyVal.py_order PyVal.OpLe field_value filter_value)
  | GreaterThanSpecification _ _ =>
      except_TypeError (PyVal.py_order PyVal.OpGt field_value filter_value)
  | GreaterThanOrEqualSpecification _ _ =>
      except_TypeError (PyVal.py_order PyVal.OpGe field_value filter_value)
  | LikeSpecification _ _ =>
      match field_value with
      | VNone => Ok false
      | _ =>
          Ok (PyStr.contains (PyStr.lower (PyVal.py_str filter_value))
                (PyStr.lower (PyVal.py_str field_value)))
      end
  | InSpecification _ _ => PyVal.py_in field_value filter_value
  | BetweenSpecification _ min_value max_value =>
      except_TypeError
        (b <- PyVal.py_order PyVal.OpLe min_value field_value ;;
         if b then PyVal.py_order PyVal.OpLe field_value max_value
         else Ok false)
  | IsNullSpecification _ =>
      Ok match field_value with VNone => true | _ => false end
  | IsNotNullSpecification _ =>
      Ok match field_value with VNone => false | _ => true end
  end.

(** [FilterSpecification.is_satisfied_by] *)
Definition filter_is_satisfied_by (self : FilterSpecification)
  (candidate : candidate) : result bool :=
  except_AttributeError
    (field_value <- getattr candidate (field self) ;;
     _compare_values self field_value (value self)).

(** ** [base_specification.py]: the specification tree *)

Inductive Specification : Type :=
| Filter (f : FilterSpecification)
| AndSpecification (left right : Specification)
| OrSpecification (left right : Specification)
| NotSpecification (spec : Specification).

Definition and_spec (self other : Specification) : Specification :=
  AndSpecification self other.

Definition and_ (self other : Specification) : Specification :=
  and_spec self other.

Definition or_spec (self other : Specification) : Specification :=
  OrSpecification self other.


Definition not_spec (self : Specification) : Specification :=
  NotSpecification self.




(** [is_satisfied_by]; Python's [and] and [or] evaluate their right
    operand only when the left one does not decide. *)
Fixpoint is_satisfied_by (self : Specification) (candidate : candidate)
  : result bool :=
  match self with
  | Filter f => filter_is_satisfied_by f candidate
  | AndSpecification l r =>
      b <- is_satisfied_by l candidate ;;
      if b then is_satisfied_by r candidate else Ok false
  | OrSpecification l r =>
      b <- is_satisfied_by l candidate ;;
      if b then Ok true else is_satisfied_by r candidate
  | NotSpecification spec =>
      b <- is_satisfied_by spec candidate ;; Ok (negb b)
  end.

(** The dictionaries [to_expression] builds, by their keys:
    [{"field", "operator", "value"}] for a leaf,
    [{"operator", "left", "right"}] for [AND] and [OR], and
    [{"operator", "spec"}] for [NOT]. *)
Inductive expression : Type :=
| FilterExpr (field operator : string) (value : pyval)
| BinaryExpr (operator : string) (left right : expression)
| UnaryExpr (operator : string) (spec : expression).

Definition keys (e : expression) : list string :=
  match e with
  | FilterExpr _ _ _ => ["field"; "operator"; "value"]
  | BinaryExpr _ _ _ => ["operator"; "left"; "right"]
  | UnaryExpr _ _ => ["operator"; "spec"]
  end.

(** [key in expression] *)
Definition has_key (key : string) (e : expression) : bool :=
  PyStr.mem key (keys e).

(** [expression["operator"]] *)
Definition get_operator (e : expression) : result string :=
  match e with
  | FilterExpr _ operator _
  | BinaryExpr operator _ _
  | UnaryExpr operator _ => Ok operator
  end.

(** [expression["field"]] *)
Definition get_field (e : expression) : result string :=
  match e with
  | FilterExpr field _ _ => Ok field
  | _ => Raise (KeyError "field")
  end.

(** [expression["value"]] *)
Definition get_value (e : expression) : result pyval :=
  match e with
  | FilterExpr _ _ value => Ok value
  | _ => Raise (KeyError "value")
  end.

(** [FilterSpecification.to_expression] *)
Definition filter_to_expression (self : FilterSpecification) : expression :=
  FilterExpr (field self) (operator self) (value self).

(** [to_expression] *)
Fixpoint to_expression (self : Specification) : expression :=
  match self with
  | Filter f => filter_to_expression f
  | AndSpecification l r =>
      BinaryExpr "AND" (to_expression l) (to_expression r)
  | OrSpecification l r =>
      BinaryExpr "OR" (to_expression l) (to_expression r)
  | NotSpecification spec => UnaryExpr "NOT" (to_expression spec)
  end.

(** ** [SpecificationFactory] *)

Module SpecificationFactory.

(** The classes the factory knows. *)
Inductive spec_class : Type :=
| Equal | NotEqual | LessThan | LessThanOrEqual | GreaterThan
| GreaterThanOrEqual | Like | In_ | Between | IsNull | IsNotNull.

Definition _operators : list (string * spec_class) :=
  [ ("eq", Equal);
    ("ne", NotEqual);
    ("lt", LessThan);
    ("lte", LessThanOrEqual);
    ("gt", GreaterThan);
    ("gte", GreaterThanOrEqual);
    ("like", Like);
    ("in", In_);
    ("between", Between);
    ("is_null", IsNull);
    ("is_not_null", IsNotNull) ].

(** [spec_class(field)]: a call with a wrong number of arguments raises
    [TypeError]. *)
Definition new1 (c : spec_class) (field : string)
  : result FilterSpecification :=
  match c with
  | IsNull => Ok (IsNullSpecification field)
  | IsNotNull => Ok (IsNotNullSpecification field)
  | _ => Raise TypeError
  end.

(** [spec_class(field, value)] *)
Definition new2 (c : spec_class) (field : string) (value : pyval)
  : result FilterSpecification :=
  match c with
  | Equal => Ok (EqualSpecification field value)
  | NotEqual => Ok (NotEqualSpecification field value)
  | LessThan => Ok (LessThanSpecification field value)
  | LessThanOrEqual => Ok (LessThanOrEqualSpecification field value)
  | GreaterThan => Ok (GreaterThanSpecification field value)
  | GreaterThanOrEqual => Ok (GreaterThanOrEqualSpecification field value)
  | Like => Ok (LikeSpecification field value)
  | In_ => Ok (InSpecification field value)
  | Between | IsNull | IsNotNull => Raise TypeError
  end.

(** [spec_class(field, min_value, max_value)] *)
Definition new3 (c : spec_class) (field : string) (a b : pyval)
  : result FilterSpecification :=
  match c with
  | Between => Ok (BetweenSpecification field a b)
  | _ => Raise TypeError
  end.

(** [supported_operators()] *)
Definition supported_operators : list string := map fst _operators.

(** [isinstance(value, (list, tuple))] with [len(value) == 2]: the two
    items. *)
Definition pair_items (value : pyval) : option (pyval * pyval) :=
  match value with
  | VList [a; b] | VTuple [a; b] => Some (a, b)
  | _ => None
  end.

(** [SpecificationFactory.create] *)
Definition create (field operator : string) (value : pyval)
  : result FilterSpecification :=
  match assoc operator _operators with
  | None =>
      Raise (ValueError
               ("Unsupported operator: " ++ operator ++ ". Supported: "
                ++ PyVal.py_str (VList (map VStr supported_operators))))
  | Some spec_class =>
      if String.eqb operator "between" then
        match pair_items value with
        | None =>
            Raise (ValueError
                     "BETWEEN operator requires list/tuple with 2 values")
        | Some (v0, v1) => new3 spec_class field v0 v1
        end
      else if PyStr.mem operator ["is_null"; "is_not_null"] then
        new1 spec_class field
      else new2 spec_class field value
  end.

End SpecificationFactory.

(** ** [filter_parser.py] *)

(** The two shapes of [filters]: a list of strings, or a dictionary of
    query parameters, whose items are kept in insertion order. *)
Inductive filters : Type :=
| FiltersList (l : list string)
| FiltersDict (d : list (string * string)).

Module FilterParser.

Definition a_acute : string := String (ascii_of_nat 225) EmptyString.
Definition o_acute : string := String (ascii_of_nat 243) EmptyString.

Definition supported_operators : list string :=
  SpecificationFactory.supported_operators.

Definition supported_connectors : list string := ["and"; "or"].

Definition operator_mapping : list (string * string) :=
  [ ("gt", "gt");
    ("gte", "gte");
    ("lt", "lt");
    ("lte", "lte");
    ("eq", "eq");
    ("ne", "ne");
    ("like", "like");
    ("ilike", "ilike");
    ("in", "in");
    ("between", "between");
    ("isnull", "isnull");
    ("isnotnull", "isnotnull") ].

Definition unsupported_operator (operator : string) : exn :=
  InvalidValueObjectException
    ("Operador no soportado: '" ++ operator
     ++ "'. Operadores disponibles: "
     ++ PyVal.py_str (VList (map VStr supported_operators)))
    "FilterOperator" operator 11003008.

Definition unsupported_connector (connector : string) : exn :=
  InvalidValueObjectException
    ("Conector l" ++ o_acute ++ "gico no soportado: '" ++ connector
     ++ "'. Conectores disponibles: "
     ++ PyVal.py_str (VList (map VStr supported_connectors)))
    "LogicalConnector" connector 11003009.

Definition invalid_filter (filter_str : string) : exn :=
  InvalidValueObjectException
    ("Filtro inv" ++ a_acute ++ "lido: '" ++ filter_str
     ++ "'. Formato esperado: 'field,operator,value[,connector]'")
    "Filter" filter_str 11003007.

Definition invalid_between (value_str : string) : exn :=
  InvalidValueObjectException
    ("Operador BETWEEN requiere exactamente 2 valores separados por '|': '"
     ++ value_str ++ "'")
    "BetweenValue" value_str 11003010.

(** [int(value_str)] *)
Definition py_int (value_str : string) : result pyval :=
  match PyNum.int_of_string value_str with
  | Some n => Ok (VInt n)
  | None =>
      Raise (ValueError ("invalid literal for int() with base 10: "
                         ++ PyVal.repr_string value_str))
  end.

(** [_convert_single_value] *)
Definition _convert_single_value (value_str : string) : result pyval :=
  if PyStr.mem (PyStr.lower value_str) ["null"; "none"; ""] then Ok VNone
  else if PyStr.mem (PyStr.lower value_str) ["true"; "false"] then
    Ok (VBool (String.eqb (PyStr.lower value_str) "true"))
  else if (PyStr.isdigit value_str
           || (PyStr.startswith value_str "-"
               && PyStr.isdigit (PyStr.tail value_str)))%bool then
    py_int value_str
  else
    match
      (if PyStr.contains "." value_str
       then PyNum.float_of_string value_str else None)
    with
    | Some x => Ok (VFloat x)
    | None => Ok (VStr value_str)
    end.

(** [_parse_value] *)
Definition _parse_value (value_str operator : string) : result pyval :=
  if PyStr.mem operator ["is_null"; "is_not_null"] then Ok VNone
  else if String.eqb operator "in" then
    l <- mapM (fun v => _convert_single_value (PyStr.strip v))
           (PyStr.split "|" value_str) ;;
    Ok (VList l)
  else if String.eqb operator "between" then
    let values := PyStr.split "|" value_str in
    if negb (Nat.eqb (List.length values) 2) then
      Raise (invalid_between value_str)
    else
      l <- mapM (fun v => _convert_single_value (PyStr.strip v)) values ;;
      Ok (VList l)
  else _convert_single_value value_str.

(** The truth value of an optional string: [None] and [""] are false. *)
Definition truthy (o : option string) : bool :=
  match o with
  | Some s => negb (PyStr.is_empty s)
  | None => false
  end.

(** [_parse_single_filter] *)
Definition _parse_single_filter (filter_str : string)
  : result (FilterSpecification * option string) :=
  let parts := PyStr.split_max "," 3 filter_str in
  match parts with
  | p0 :: p1 :: p2 :: rest =>
      let field := PyStr.strip p0 in
      let operator := PyStr.lower (PyStr.strip p1) in
      let value_str := PyStr.strip p2 in
      let connector :=
        match rest with
        | p3 :: _ => Some (PyStr.lower (PyStr.strip p3))
        | [] => None
        end in
      if negb (PyStr.mem operator supported_operators) then
        Raise (unsupported_operator operator)
      else
        match connector with
        | Some c =>
            if (truthy connector
                && negb (PyStr.mem c supported_connectors))%bool
            then Raise (unsupported_connector c) else Ok tt
        | None => Ok tt
        end ;;;
        parsed_value <- _parse_value value_str operator ;;
        specification <-
          SpecificationFactory.create field operator parsed_value ;;
        Ok (specification, connector)
  | _ => Raise (invalid_filter filter_str)
  end.

(** The loop body of [_combine_specifications] at index [i]. *)
Definition combine_step (specifications : list Specification)
  (connectors : list string) (result : Specification) (i : nat)
  : Specification :=
  let connector :=
    if Nat.ltb (i - 1) (List.length connectors)
    then nth (i - 1) connectors EmptyString else "and" in
  match nth_error specifications i with
  | Some s =>
      if String.eqb connector "and" then and_spec result s
      else if String.eqb connector "or" then or_spec result s
      else result
  | None => result
  end.

(** [_combine_specifications]: [for i in range(1, len(specifications))]. *)
Definition _combine_specifications (specifications : list Specification)
  (connectors : list string) : option Specification :=
  match specifications with
  | [] => None
  | [s] => Some s
  | s :: _ =>
      Some (fold_left (combine_step specifications connectors)
              (seq 1 (List.length specifications - 1)) s)
  end.

(** The loop of [_parse_list_filters]: the specifications, and the
    connectors that are present and not empty, in order. *)
Fixpoint parse_entries (filters : list string)
  : result (list Specification * list string) :=
  match filters with
  | [] => Ok ([], [])
  | filter_str :: filters' =>
      sc <- _parse_single_filter filter_str ;;
      rest <- parse_entries filters' ;;
      let (spec, connector) := (sc : FilterSpecification * option string) in
      let (specifications, connectors) :=
        (rest : list Specification * list string) in
      Ok (Filter spec :: specifications,
          match connector with
          | Some c => if truthy connector then c :: connectors else connectors
          | None => connectors
          end)
  end.

(** [_parse_list_filters] *)
Definition _parse_list_filters (filters : list string)
  : result (option Specification) :=
  match filters with
  | [] => Ok None
  | _ =>
      sc <- parse_entries filters ;;
      let (specifications, connectors) :=
        (sc : list Specification * list string) in
      match specifications with
      | [s] => Ok (Some s)
      | _ => Ok (_combine_specifications specifications connectors)
      end
  end.

(** The loop body of [_parse_dict_filters] for one item. *)
Definition parse_item (item : string * string) : result Specification :=
  let (field_expr, value) := item in
  fo <-
    (if PyStr.contains "__" field_expr then
       match PyStr.split_max "__" 1 field_expr with
       | [field; operator] => Ok (field, PyStr.lower operator)
       | _ => Raise (ValueError "not enough values to unpack")
       end
     else Ok (field_expr, "eq")) ;;
  let (field, operator) := (fo : string * string) in
  let operator :=
    match assoc operator operator_mapping with
    | Some o => o
    | None => operator
    end in
  if negb (PyStr.mem operator supported_operators) then
    Raise (unsupported_operator operator)
  else
    parsed_value <- _parse_value value operator ;;
    spec <- SpecificationFactory.create field operator parsed_value ;;
    Ok (Filter spec).

(** [_parse_dict_filters] *)
Definition _parse_dict_filters (filters_dict : list (string * string))
  : result (option Specification) :=
  match filters_dict with
  | [] => Ok None
  | _ =>
      specifications <- mapM parse_item filters_dict ;;
      match specifications with
      | [] => Ok None
      | s :: rest => Ok (Some (fold_left and_ rest s))
      end
  end.

(** [parse_filters] *)
Definition parse_filters (f : filters) : result (option Specification) :=
  match f with
  | FiltersDict d => _parse_dict_filters d
  | FiltersList l => _parse_list_filters l
  end.

(** [validate_filter_field] *)
Definition validate_filter_field (field : string)
  (allowed_fields : list string) : result bool :=
  if negb (PyStr.mem field allowed_fields) then
    Raise (InvalidValueObjectException
             ("Campo de filtro no permitido: '" ++ field
              ++ "'. Campos permitidos: "
              ++ PyVal.py_str (VList (map VStr allowed_fields)))
             "FilterField" field 11003011)
  else Ok true.

End FilterParser.

(** ** [sort_specification.py] *)

Module Sort.

Inductive SortDirection : Type := ASC | DESC.

(** [direction.value] *)
Definition direction_value (d : SortDirection) : string :=
  match d with
  | ASC => "asc"
  | DESC => "desc"
  end.

(** [SortDirection(value)] *)
Definition SortDirection_of (v : string) : result SortDirection :=
  if String.eqb v "asc" then Ok ASC
  else if String.eqb v "desc" then Ok DESC
  else Raise (ValueError
                (PyVal.repr_string v ++ " is not a valid SortDirection")).

Record SortSpecification : Type := {
  field : string;
  direction : SortDirection
}.

Record MultipleSortSpecification : Type := {
  sorts : list SortSpecification
}.

(** [MultipleSortSpecification()] *)
Definition empty : MultipleSortSpecification := {| sorts := [] |}.

(** [add_sort] *)
Definition add_sort (self : MultipleSortSpecification) (field : string)
  (direction : SortDirection) : MultipleSortSpecification :=
  {| sorts := sorts self ++ [{| field := field; direction := direction |}] |}.

(** [MultipleSortSpecification.to_sort_criteria] *)
Definition to_sort_criteria (self : MultipleSortSpecification)
  : list (string * string) :=
  map (fun sort => (field sort, direction_value (direction sort)))
    (sorts self).

(** [is_empty] *)
Definition is_empty (self : MultipleSortSpecification) : bool :=
  Nat.eqb (List.length (sorts self)) 0.

(** [SortSpecification.to_expression] *)
Definition SortSpecification_to_expression (self : SortSpecification) : pydict :=
  [ ("field", VStr (field self));
    ("direction", VStr (direction_value (direction self))) ].

(** [MultipleSortSpecification.to_expression] *)
Definition to_expression (self : MultipleSortSpecification) : list pydict :=
  map SortSpecification_to_expression (sorts self).

(** [MultipleSortSpecification.__len__] *)
Definition __len__ (self : MultipleSortSpecification) : nat :=
  List.length (sorts self).

End Sort.

Module SortParser.

Import Sort.

Definition invalid_direction (direction_str : string) : exn :=
  InvalidValueObjectException
    ("Direcci" ++ FilterParser.o_acute ++ "n de ordenamiento inv"
     ++ FilterParser.a_acute ++ "lida: '" ++ direction_str
     ++ "'. Usar 'asc' o 'desc'")
    "SortDirection" direction_str 11003012.

(** [parse_sort] *)
Definition parse_sort (sort_str : option string)
  : result (option MultipleSortSpecification) :=
  match sort_str with
  | None => Ok None
  | Some sort_str =>
      if (PyStr.is_empty sort_str
          || PyStr.is_empty (PyStr.strip sort_str))%bool
      then Ok None
      else
        let parts := PyStr.split "," (PyStr.strip sort_str) in
        let field := PyStr.strip (hd EmptyString parts) in
        if PyStr.is_empty field then Ok None
        else
          direction <-
            match parts with
            | _ :: p1 :: _ =>
                let direction_str := PyStr.lower (PyStr.strip p1) in
                if negb (PyStr.mem direction_str ["asc"; "desc"])
                then Raise (invalid_direction direction_str)
                else SortDirection_of direction_str
            | _ => Ok ASC
            end ;;
          Ok (Some (add_sort empty field direction))
  end.

(** The loop of [parse_multiple_sorts]. *)
Fixpoint parse_each (sorts : list string) (spec : MultipleSortSpecification)
  : result MultipleSortSpecification :=
  match sorts with
  | [] => Ok spec
  | sort_str :: sorts' =>
      single_spec <- parse_sort (Some sort_str) ;;
      match single_spec with
      | Some single =>
          match Sort.sorts single with
          | sort_item :: _ =>
              parse_each sorts'
                (add_sort spec (field sort_item) (direction sort_item))
          | [] => parse_each sorts' spec
          end
      | None => parse_each sorts' spec
      end
  end.

(** [parse_multiple_sorts] *)
Definition parse_multiple_sorts (sorts : list string)
  : result (option MultipleSortSpecification) :=
  match sorts with
  | [] => Ok None
  | _ =>
      spec <- parse_each sorts empty ;;
      Ok (if is_empty spec then None else Some spec)
  end.

(** [validate_sort_field] *)
Definition validate_sort_field (field : string)
  (allowed_fields : list string) : result bool :=
  if negb (PyStr.mem field allowed_fields) then
    Raise (InvalidValueObjectException
             ("Campo de ordenamiento no permitido: '" ++ field
              ++ "'. Campos permitidos: "
              ++ PyVal.py_str (VList (map VStr allowed_fields)))
             "SortField" field 11003013)
  else Ok true.

End SortParser.

(** ** [mongodb_adapter.py]: [MongoDBSpecificationTranslator] *)

Module MongoDBSpecificationTranslator.

(** The filter documents handed to MongoDB: Python values, [ObjectId]s
    (by their twelve bytes), dictionaries and lists. *)
Inductive mongo : Type :=
| MValue (v : pyval)
| MObjectId (binary : list nat)
| MDoc (items : list (string * mongo))
| MArray (l : list mongo).

Definition hex_value (c : ascii) : option nat :=
  let n := PyStr.code c in
  if PyStr.in_range 48 57 c then Some (n - 48)%nat
  else if PyStr.in_range 97 102 c then Some (n - 87)%nat
  else if PyStr.in_range 65 70 c then Some (n - 55)%nat
  else None.

(** [bytes.fromhex(s)]: pairs of hexadecimal digits, blanks allowed
    between the pairs; [None] is [ValueError]. *)
Fixpoint fromhex (s : string) : option (list nat) :=
  match s with
  | EmptyString => Some []
  | String c s' =>
      if PyNum.c_isspace c then fromhex s'
      else
        match hex_value c, s' with
        | Some top, String d s'' =>
            match hex_value d with
            | Some bot =>
                option_map (cons (16 * top + bot)%nat) (fromhex s'')
            | None => None
            end
        | _, _ => None
        end
  end.

(** [ObjectId(s)] of the [bson] package for a string: twenty-four
    characters that [bytes.fromhex] reads; [None] is [InvalidId]. *)
Definition ObjectId (s : string) : option (list nat) :=
  if Nat.eqb (String.length s) 24 then fromhex s else None.

(** [str(oid)]: the bytes in hexadecimal. *)
Fixpoint hexlify (binary : list nat) : string :=
  match binary with
  | [] => EmptyString
  | b :: binary' =>
      String (PyVal.hex_digit (Nat.div b 16))
        (String (PyVal.hex_digit (Nat.modulo b 16)) (hexlify binary'))
  end.

(** [str(value)] for what [_translate_filter] holds in [value]. *)
Definition value_str (value : mongo) : string :=
  match value with
  | MValue v => PyVal.py_str v
  | MObjectId binary => hexlify binary
  | _ => EmptyString
  end.

(** [value[i]] *)
Definition value_getitem (value : mongo) (i : nat) : result mongo :=
  match value with
  | MValue v => x <- PyVal.py_getitem v i ;; Ok (MValue x)
  | _ => Raise TypeError
  end.

Definition special_chars : string :=
  "()[]{}?*+-|^$\.&~# "
  ++ String (ascii_of_nat 9) (String (ascii_of_nat 10)
       (String (ascii_of_nat 13) (String (ascii_of_nat 11)
          (String (ascii_of_nat 12) EmptyString)))).

(** [re.escape(pattern)] *)
Fixpoint re_escape (pattern : string) : string :=
  match pattern with
  | EmptyString => EmptyString
  | String c p' =>
      if PyStr.contains (String c EmptyString) special_chars
      then String "\" (String c (re_escape p'))
      else String c (re_escape p')
  end.

(** [_translate_filter] *)
Definition _translate_filter (expression : expression) : result mongo :=
  field <- get_field expression ;;
  operator <- get_operator expression ;;
  value <- get_value expression ;;
  let value :=
    match value with
    | VStr s =>
        if String.eqb field "_id" then
          match ObjectId s with
          | Some oid => MObjectId oid
          | None => MValue value
          end
        else MValue value
    | _ => MValue value
    end in
  if String.eqb operator "eq" then Ok (MDoc [(field, value)])
  else if String.eqb operator "ne" then
    Ok (MDoc [(field, MDoc [("$ne", value)])])
  else if String.eqb operator "lt" then
    Ok (MDoc [(field, MDoc [("$lt", value)])])
  else if String.eqb operator "lte" then
    Ok (MDoc [(field, MDoc [("$lte", value)])])
  else if String.eqb operator "gt" then
    Ok (MDoc [(field, MDoc [("$gt", value)])])
  else if String.eqb operator "gte" then
    Ok (MDoc [(field, MDoc [("$gte", value)])])
  else if String.eqb operator "like" then
    let pattern := re_escape (value_str value) in
    Ok (MDoc [(field, MDoc [("$regex", MValue (VStr pattern));
                            ("$options", MValue (VStr "i"))])])
  else if String.eqb operator "in" then
    Ok (MDoc [(field, MDoc [("$in", value)])])
  else if String.eqb operator "between" then
    v0 <- value_getitem value 0 ;;
    v1 <- value_getitem value 1 ;;
    Ok (MDoc [(field, MDoc [("$gte", v0); ("$lte", v1)])])
  else if String.eqb operator "is_null" then
    Ok (MDoc [(field, MValue VNone)])
  else if String.eqb operator "is_not_null" then
    Ok (MDoc [(field, MDoc [("$ne", MValue VNone)])])
  else Raise (ValueError ("Unsupported filter operator: " ++ operator)).

(** [_translate_composite]; [translate_sub key] stands for
    [self._translate_expression(expression[key])]. *)
Definition _translate_composite (translate_sub : string -> result mongo)
  (expression : expression) : result mongo :=
  operator <- get_operator expression ;;
  if String.eqb operator "AND" then
    l <- translate_sub "left" ;;
    r <- translate_sub "right" ;;
    Ok (MDoc [("$and", MArray [l; r])])
  else if String.eqb operator "OR" then
    l <- translate_sub "left" ;;
    r <- translate_sub "right" ;;
    Ok (MDoc [("$or", MArray [l; r])])
  else if String.eqb operator "NOT" then
    spec_expr <- translate_sub "spec" ;;
    Ok (MDoc [("$not", spec_expr)])
  else Raise (ValueError ("Unsupported composite operator: " ++ operator)).

(** [_translate_expression] *)
Fixpoint _translate_expression (expression : expression) : result mongo :=
  let translate_sub (key : string) : result mongo :=
    match expression with
    | BinaryExpr _ l r =>
        if String.eqb key "left" then _translate_expression l
        else if String.eqb key "right" then _translate_expression r
        else Raise (KeyError key)
    | UnaryExpr _ spec =>
        if String.eqb key "spec" then _translate_expression spec
        else Raise (KeyError key)
    | FilterExpr _ _ _ => Raise (KeyError key)
    end in
  if has_key "operator" expression
  then _translate_composite translate_sub expression
  else _translate_filter expression.

(** [translate] *)
Definition translate (spec : Specification) : result mongo :=
  let expression := to_expression spec in
  _translate_expression expression.

(** [translate_sort], with pymongo's [ASCENDING = 1] and
    [DESCENDING = -1]. *)
Definition translate_sort (sort_spec : Sort.MultipleSortSpecification)
  : list (string * Z) :=
  map (fun sort_item =>
         (Sort.field sort_item,
          match Sort.direction sort_item with
          | Sort.ASC => 1
          | Sort.DESC => -1
          end))
    (Sort.sorts sort_spec).

End MongoDBSpecificationTranslator.

(** ** [sqlalchemy_adapter.py]: [SQLAlchemySpecificationTranslator] *)

Module SQLAlchemySpecificationTranslator.

(** The model class: its [__name__] and the names [hasattr] finds on it. *)
Record model_class : Type := {
  __name__ : string;
  class_attributes : list string
}.

(** The SQLAlchemy expressions, by the call that builds them; a column is
    named by the attribute it was read from. *)
Inductive clause : Type :=
| SqlEq (column : string) (v : pyval)
| SqlNe (column : string) (v : pyval)
| SqlLt (column : string) (v : pyval)
| SqlLe (column : string) (v : pyval)
| SqlGt (column : string) (v : pyval)
| SqlGe (column : string) (v : pyval)
| SqlILike (column : string) (pattern : string)
| SqlIn (column : string) (v : pyval)
| SqlBetween (column : string) (lo hi : pyval)
| SqlIs (column : string) (v : pyval)
| SqlIsNot (column : string) (v : pyval)
| SqlAnd (l r : clause)
| SqlOr (l r : clause)
| SqlNot (c : clause).

(** [hasattr(model_class, field)] *)
Definition hasattr (m : model_class) (field : string) : bool :=
  PyStr.mem field (class_attributes m).

Definition field_not_found (m : model_class) (field : string) : exn :=
  ValueError ("Field '" ++ field ++ "' not found in model " ++ __name__ m).

(** [_translate_filter] *)
Definition _translate_filter (m : model_class) (expression : expression)
  : result clause :=
  field <- get_field expression ;;
  operator <- get_operator expression ;;
  value <- get_value expression ;;
  if negb (hasattr m field) then Raise (field_not_found m field)
  else
    let column := field in
    if String.eqb operator "eq" then Ok (SqlEq column value)
    else if String.eqb operator "ne" then Ok (SqlNe column value)
    else if String.eqb operator "lt" then Ok (SqlLt column value)
    else if String.eqb operator "lte" then Ok (SqlLe column value)
    else if String.eqb operator "gt" then Ok (SqlGt column value)
    else if String.eqb operator "gte" then Ok (SqlGe column value)
    else if String.eqb operator "like" then
      Ok (SqlILike column ("%" ++ PyVal.py_str value ++ "%"))
    else if String.eqb operator "in" then Ok (SqlIn column value)
    else if String.eqb operator "between" then
      v0 <- PyVal.py_getitem value 0 ;;
      v1 <- PyVal.py_getitem value 1 ;;
      Ok (SqlBetween column v0 v1)
    else if String.eqb operator "is_null" then Ok (SqlIs column VNone)
    else if String.eqb operator "is_not_null" then
      Ok (SqlIsNot column VNone)
    else Raise (ValueError ("Unsupported filter operator: " ++ operator)).

(** [_translate_composite]; [translate_sub key] stands for
    [self._translate_expression(expression[key])]. *)
Definition _translate_composite (translate_sub : string -> result clause)
  (expression : expression) : result clause :=
  operator <- get_operator expression ;;
  if String.eqb operator "AND" then
    l <- translate_sub "left" ;;
    r <- translate_sub "right" ;;
    Ok (SqlAnd l r)
  else if String.eqb operator "OR" then
    l <- translate_sub "left" ;;
    r <- translate_sub "right" ;;
    Ok (SqlOr l r)
  else if String.eqb operator "NOT" then
    spec_expr <- translate_sub "spec" ;;
    Ok (SqlNot spec_expr)
  else Raise (ValueError ("Unsupported composite operator: " ++ operator)).

(** [_translate_expression] *)
Fixpoint _translate_expression (m : model_class) (expression : expression)
  : result clause :=
  let translate_sub (key : string) : result clause :=
    match expression with
    | BinaryExpr _ l r =>
        if String.eqb key "left" then _translate_expression m l
        else if String.eqb key "right" then _translate_expression m r
        else Raise (KeyError key)
    | UnaryExpr _ spec =>
        if String.eqb key "spec" then _translate_expression m spec
        else Raise (KeyError key)
    | FilterExpr _ _ _ => Raise (KeyError key)
    end in
  if has_key "operator" expression
  then _translate_composite translate_sub expression
  else _translate_filter m expression.

(** [translate] *)
Definition translate (m : model_class) (spec : Specification)
  : result clause :=
  let expression := to_expression spec in
  _translate_expression m expression.

(** The [ORDER BY] clauses: [column.asc()] and [column.desc()]. *)
Inductive order_clause : Type :=
| SqlAsc (column : string)
| SqlDesc (column : string).

Definition sort_field_not_found (m : model_class) (field : string) : exn :=
  ValueError ("Sort field '" ++ field ++ "' not found in model "
              ++ __name__ m).

(** [translate_sort] *)
Definition translate_sort (m : model_class)
  (sort_spec : Sort.MultipleSortSpecification) : result (list order_clause) :=
  mapM (fun sort_item =>
          let field := Sort.field sort_item in
          let direction := Sort.direction sort_item in
          if negb (hasattr m field) then Raise (sort_field_not_found m field)
          else
            let column := field in
            match direction with
            | Sort.ASC => Ok (SqlAsc column)
            | Sort.DESC => Ok (SqlDesc column)
            end)
    (Sort.sorts sort_spec).

End SQLAlchemySpecificationTranslator.

(** ** [base_kernel_exception.py] and [domain_exceptions.py]

    What the constructors of the exception classes store. The two values
    the constructor of the base class draws from its environment are
    arguments here: [uuid4_hex], the text [uuid.uuid4().hex] gives, and
    [utcnow], the text [datetime.utcnow().isoformat()] gives. An optional
    argument is [None] when the caller leaves it out, and a value of its
    annotated type otherwise. *)

Module BaseKernelException.

Record t : Type := {
  code : Z;
  message : string;
  http_code : Z;
  details : pydict;
  rid : string;
  internal_data : pydict;
  timestamp : string
}.

(** [value or {}] *)
Definition or_empty (d : option pydict) : pydict :=
  match d with
  | Some d => d
  | None => []
  end.

(** [BaseKernelException.__init__]: the attributes are set, then the code
    is checked. *)
Definition __init__ (uuid4_hex utcnow : string) (code : Z) (message : string)
  (http_code : Z) (details : option pydict) (rid : option string)
  (internal_data : option pydict) : result t :=
  let self :=
    {| code := code;
       message := message;
       http_code := http_code;
       details := or_empty details;
       rid := match rid with
              | Some r => if PyStr.is_empty r then uuid4_hex else r
              | None => uuid4_hex
              end;
       internal_data := or_empty internal_data;
       timestamp := utcnow |} in
  if negb ((10000000 <=? code) && (code <=? 99999999))%bool then
    Raise (ValueError ("Error code must be 8 digits, got: "
                       ++ PyNum.string_of_Z code))
  else Ok self.

(** [to_error_contract] *)
Definition to_error_contract (self : t) : pydict :=
  [ ("rid", VStr (rid self));
    ("code", VInt (code self));
    ("message", VStr (message self)) ].

(** [layer_code]: [self.code // 1000000] *)
Definition layer_code (self : t) : Z := code self / 1000000.

Definition layer_map : list (Z * string) :=
  [ (10, "Application");
    (11, "Domain");
    (12, "Infrastructure");
    (13, "Presentation");
    (14, "Security") ].

(** [layer_name]: [layer_map.get(self.layer_code, "Unknown")] *)
Definition layer_name (self : t) : string :=
  match find (fun kv => Z.eqb (fst kv) (layer_code self)) layer_map with
  | Some kv => snd kv
  | None => "Unknown"
  end.


(** [__str__] *)
Definition __str__ (self : t) : string :=
  "[" ++ PyNum.string_of_Z (code self) ++ "] " ++ message self
  ++ " (RID: " ++ rid self ++ ")".

End BaseKernelException.

(** The keyword arguments the subclasses pass on. *)
Record kwargs : Type := {
  kw_details : option pydict;
  kw_rid : option string;
  kw_internal_data : option pydict
}.

Definition no_kwargs : kwargs :=
  {| kw_details := None; kw_rid := None; kw_internal_data := None |}.

Module DomainException.

(** [DomainException.__init__(code, message, http_code=400, **kwargs)] *)
Definition __init__ (uuid4_hex utcnow : string) (code : Z) (message : string)
  (http_code : option Z) (kw : kwargs) : result BaseKernelException.t :=
  if negb ((11000000 <=? code) && (code <=? 11999999))%bool then
    Raise (ValueError
             ("Domain exception code must be in range 11000000-11999999, got: "
              ++ PyNum.string_of_Z code))
  else
    BaseKernelException.__init__ uuid4_hex utcnow code message
      (match http_code with Some h => h | None => 400 end)
      (kw_details kw) (kw_rid kw) (kw_internal_data kw).

End DomainException.

Module InvalidValueObjectException.

(** [InvalidValueObjectException.__init__(message, value_object_type,
    invalid_value, code=11003001, **kwargs)] *)
Definition __init__ (uuid4_hex utcnow : string)
  (message value_object_type : string) (invalid_value : pyval)
  (code : option Z) (http_code : option Z) (kw : kwargs)
  : result BaseKernelException.t :=
  let details :=
    match kw_details kw with
    | Some d => d
    | None => []
    end in
  let details :=
    update details
      [ ("value_object_type", VStr value_object_type);
        ("invalid_value", VStr (PyVal.py_str invalid_value)) ] in
  DomainException.__init__ uuid4_hex utcnow
    (match code with Some c => c | None => 11003001 end) message http_code
    {| kw_details := Some details;
       kw_rid := kw_rid kw;
       kw_internal_data := kw_internal_data kw |}.

End InvalidValueObjectException.

(** ** [mock_repository.py]: the queries of [MockRepository]

    The repository is read through [self._data.values()], the stored
    entities in insertion order. A specification handed to it is [None],
    an object of the specification classes, or an object that only offers
    [to_expression]. The queries are those made without a sort
    specification ([sort=None], the default, or an empty one). *)

Module MockRepository.

Inductive specification : Type :=
| Backbone (spec : Specification)
| ExpressionOnly (expression : expression).

(** [entity[field]] on the mapping entries; [None] is [KeyError]. *)
Fixpoint getitem (entries : list (pyval * pyval)) (key : pyval)
  : option pyval :=
  match entries with
  | [] => None
  | (k, v) :: entries' =>
      if PyVal.py_eq k key then Some v else getitem entries' key
  end.

(** [_get_field_value] *)
Definition _get_field_value (entity : candidate) (field : string) : pyval :=
  match assoc field (attributes entity) with
  | Some v => v
  | None =>
      match assoc "__getitem__" (attributes entity) with
      | Some _ =>
          match getitem (entries entity) (VStr field) with
          | Some v => v
          | None => VNone
          end
      | None => VNone
      end
  end.

(** [_evaluate_filter] *)
Definition _evaluate_filter (entity : candidate) (expression : expression)
  : result bool :=
  field <- get_field expression ;;
  operator <- get_operator expression ;;
  value <- get_value expression ;;
  let entity_value := _get_field_value entity field in
  if String.eqb operator "eq" then Ok (PyVal.py_eq entity_value value)
  else if String.eqb operator "ne" then Ok (PyVal.py_ne entity_value value)
  else if String.eqb operator "lt" then
    PyVal.py_order PyVal.OpLt entity_value value
  else if String.eqb operator "lte" then
    PyVal.py_order PyVal.OpLe entity_value value
  else if String.eqb operator "gt" then
    PyVal.py_order PyVal.OpGt entity_value value
  else if String.eqb operator "gte" then
    PyVal.py_order PyVal.OpGe entity_value value
  else if String.eqb operator "like" then
    Ok (PyStr.contains (PyStr.lower (PyVal.py_str value))
          (PyStr.lower (PyVal.py_str entity_value)))
  else if String.eqb operator "in" then PyVal.py_in entity_value value
  else if String.eqb operator "between" then
    v0 <- PyVal.py_getitem value 0 ;;
    b <- PyVal.py_order PyVal.OpLe v0 entity_value ;;
    if b then
      v1 <- PyVal.py_getitem value 1 ;;
      PyVal.py_order PyVal.OpLe entity_value v1
    else Ok false
  else if String.eqb operator "is_null" then
    Ok match entity_value with VNone => true | _ => false end
  else if String.eqb operator "is_not_null" then
    Ok match entity_value with VNone => false | _ => true end
  else Ok false.

(** [_evaluate_composite]; [evaluate_sub key] stands for
    [self._evaluate_expression(entity, expression[key])]. *)
Definition _evaluate_composite (evaluate_sub : string -> result bool)
  (expression : expression) : result bool :=
  operator <- get_operator expression ;;
  if String.eqb operator "AND" then
    left_result <- evaluate_sub "left" ;;
    right_result <- evaluate_sub "right" ;;
    Ok (left_result && right_result)%bool
  else if String.eqb operator "OR" then
    left_result <- evaluate_sub "left" ;;
    right_result <- evaluate_sub "right" ;;
    Ok (left_result || right_result)%bool
  else if String.eqb operator "NOT" then
    spec_result <- evaluate_sub "spec" ;;
    Ok (negb spec_result)
  else Ok false.

(** [_evaluate_expression] *)
Fixpoint _evaluate_expression (entity : candidate) (expression : expression)
  : result bool :=
  let evaluate_sub (key : string) : result bool :=
    match expression with
    | BinaryExpr _ l r =>
        if String.eqb key "left" then _evaluate_expression entity l
        else if String.eqb key "right" then _evaluate_expression entity r
        else Raise (KeyError key)
    | UnaryExpr _ spec =>
        if String.eqb key "spec" then _evaluate_expression entity spec
        else Raise (KeyError key)
    | FilterExpr _ _ _ => Raise (KeyError key)
    end in
  if has_key "operator" expression
  then _evaluate_composite evaluate_sub expression
  else _evaluate_filter entity expression.

(** [_matches_specification]: [except Exception: return False]. *)
Definition _matches_specification (entity : candidate)
  (spec : option specification) : bool :=
  match spec with
  | None => true
  | Some spec =>
      match
        match spec with
        | Backbone s => is_satisfied_by s entity
        | ExpressionOnly expression => _evaluate_expression entity expression
        end
      with
      | Ok b => b
      | Raise _ => false
      end
  end.

(** [find_by_specification(spec)] *)
Definition find_by_specification (values : list candidate)
  (spec : option specification) : list candidate :=
  filter (fun entity => _matches_specification entity spec) values.

(** [count_by_specification(spec)] *)
Definition count_by_specification (values : list candidate)
  (spec : option specification) : Z :=
  match spec with
  | None => Z.of_nat (List.length values)
  | Some _ =>
      fold_left Z.add
        (map (fun _ => 1)
           (filter (fun entity => _matches_specification entity spec) values))
        0
  end.

(** [exists_by_specification(spec)], of [BaseReadOnlyRepository] *)
Definition exists_by_specification (values : list candidate)
  (spec : option specification) : bool :=
  let count := count_by_specification values spec in
  0 <? count.

(** The bound of a slice: a negative index counts from the end, and both
    ends are clipped to the list. *)
Definition slice_index (i : Z) (len : nat) : nat :=
  if i <? 0 then Z.to_nat (Z.max (i + Z.of_nat len) 0)
  else Z.to_nat (Z.min i (Z.of_nat len)).

(** [l[start:stop]] *)
Definition slice {A : Type} (l : list A) (start stop : Z) : list A :=
  let s := slice_index start (List.length l) in
  let e := slice_index stop (List.length l) in
  firstn (e - s) (skipn s l).

(** [find_paginated_by_specification(spec, page, page_size)] *)
Definition find_paginated_by_specification (values : list candidate)
  (spec : option specification) (page page_size : Z)
  : list candidate * Z :=
  let all_matching := find_by_specification values spec in
  let total := Z.of_nat (List.length all_matching) in
  let start_index := page * page_size in
  let end_index := start_index + page_size in
  let page_entities := slice all_matching start_index end_index in
  (page_entities, total).

End MockRepository.

(** ** [query_builder.py]

    The builder is modelled by the values of its attributes; an entity type
    is named by its class name. Each method that returns [self] is a
    function to the new state. *)

Module QueryBuilder.

(** An item of [_joins]: the dictionary [join] appends. *)
Record join_item : Type := {
  join_entity_type : string;
  condition : string;
  join_type : string
}.

Record t : Type := {
  entity_type : string;
  _filters : list Specification;
  _sorts : option Sort.MultipleSortSpecification;
  _limit : option Z;
  _offset : option Z;
  _select_fields : option (list string);
  _joins : list join_item
}.

(** [QueryBuilder(entity_type)] *)
Definition __init__ (entity_type : string) : t :=
  {| entity_type := entity_type;
     _filters := [];
     _sorts := None;
     _limit := None;
     _offset := None;
     _select_fields := None;
     _joins := [] |}.

(** [filter] *)
Definition filter (self : t) (spec : Specification) : t :=
  {| entity_type := entity_type self;
     _filters := (_filters self ++ [spec])%list;
     _sorts := _sorts self;
     _limit := _limit self;
     _offset := _offset self;
     _select_fields := _select_fields self;
     _joins := _joins self |}.

(** [sort] *)
Definition sort (self : t) (sort_spec : Sort.MultipleSortSpecification) : t :=
  {| entity_type := entity_type self;
     _filters := _filters self;
     _sorts := Some sort_spec;
     _limit := _limit self;
     _offset := _offset self;
     _select_fields := _select_fields self;
     _joins := _joins self |}.

(** [limit] *)
Definition limit (self : t) (limit : Z) : t :=
  {| entity_type := entity_type self;
     _filters := _filters self;
     _sorts := _sorts self;
     _limit := Some limit;
     _offset := _offset self;
     _select_fields := _select_fields self;
     _joins := _joins self |}.

(** [offset] *)
Definition offset (self : t) (offset : Z) : t :=
  {| entity_type := entity_type self;
     _filters := _filters self;
     _sorts := _sorts self;
     _limit := _limit self;
     _offset := Some offset;
     _select_fields := _select_fields self;
     _joins := _joins self |}.

(** [select] *)
Definition select (self : t) (fields : list string) : t :=
  {| entity_type := entity_type self;
     _filters := _filters self;
     _sorts := _sorts self;
     _limit := _limit self;
     _offset := _offset self;
     _select_fields := Some fields;
     _joins := _joins self |}.

(** [join]; [join_type] is ["inner"] when the caller leaves it out. *)
Definition join (self : t) (entity_type condition : string)
  (join_type : option string) : t :=
  {| QueryBuilder.entity_type := QueryBuilder.entity_type self;
     _filters := _filters self;
     _sorts := _sorts self;
     _limit := _limit self;
     _offset := _offset self;
     _select_fields := _select_fields self;
     _joins :=
       (_joins self
        ++ [ {| join_entity_type := entity_type;
                QueryBuilder.condition := condition;
                QueryBuilder.join_type :=
                  match join_type with Some j => j | None => "inner" end |} ])%list
  |}.

(** [paginate] *)
Definition paginate (self : t) (page page_size : Z) : t :=
  {| entity_type := entity_type self;
     _filters := _filters self;
     _sorts := _sorts self;
     _limit := Some page_size;
     _offset := Some (page * page_size);
     _select_fields := _select_fields self;
     _joins := _joins self |}.

(** The dictionary [to_query_definition] returns, by its keys. *)
Record query_definition : Type := {
  def_entity_type : string;
  def_filters : list expression;
  def_sorts : option (list pydict);
  def_limit : option Z;
  def_offset : option Z;
  def_select_fields : option (list string);
  def_joins : list join_item
}.

(** [to_query_definition]: an empty sort specification is false, and gives
    [None]. *)
Definition to_query_definition (self : t) : query_definition :=
  {| def_entity_type := entity_type self;
     def_filters := map to_expression (_filters self);
     def_sorts :=
       match _sorts self with
       | Some s =>
           if Nat.eqb (Sort.__len__ s) 0 then None
           else Some (Sort.to_expression s)
       | None => None
       end;
     def_limit := _limit self;
     def_offset := _offset self;
     def_select_fields := _select_fields self;
     def_joins := _joins self |}.

(** [clear] *)
Definition clear (self : t) : t :=
  {| entity_type := entity_type self;
     _filters := [];
     _sorts := None;
     _limit := None;
     _offset := None;
     _select_fields := None;
     _joins := [] |}.

(** [clone]: an empty list of fields is false, and is not copied. *)
Definition clone (self : t) : t :=
  let new_builder := __init__ (entity_type self) in
  {| entity_type := entity_type new_builder;
     _filters := _filters self;
     _sorts := _sorts self;
     _limit := _limit self;
     _offset := _offset self;
     _select_fields :=
       match _select_fields self with
       | Some (f :: fields) => Some (f :: fields)
       | _ => None
       end;
     _joins := _joins self |}.

(** [has_filters] *)
Definition has_filters (self : t) : bool :=
  Nat.ltb 0 (List.length (_filters self)).

(** [has_sorting] *)
Definition has_sorting (self : t) : bool :=
  match _sorts self with
  | Some s => negb (Sort.is_empty s)
  | None => false
  end.

(** [has_pagination] *)
Definition has_pagination (self : t) : bool :=
  match _limit self, _offset self with
  | None, None => false
  | _, _ => true
  end.

(** [has_field_selection] *)
Definition has_field_selection (self : t) : bool :=
  match _select_fields self with
  | Some fields => Nat.ltb 0 (List.length fields)
  | None => false
  end.

(** [has_joins] *)
Definition has_joins (self : t) : bool :=
  Nat.ltb 0 (List.length (_joins self)).

End QueryBuilder.

(** ** Notions the properties are stated with *)

(** The ordering operator a leaf applies, for the four ordering classes. *)
Definition ordering_of (f : FilterSpecification) : option PyVal.order_op :=
  match f with
  | LessThanSpecification _ _ => Some PyVal.OpLt
  | LessThanOrEqualSpecification _ _ => Some PyVal.OpLe
  | GreaterThanSpecification _ _ => Some PyVal.OpGt
  | GreaterThanOrEqualSpecification _ _ => Some PyVal.OpGe
  | _ => None
  end.

(** Building a leaf again from the dictionary [to_expression] gave:
    [SpecificationFactory.create(e["field"], e["operator"], e["value"])]. *)
Definition reconstruct (e : expression) : result FilterSpecification :=
  field <- get_field e ;;
  operator <- get_operator e ;;
  value <- get_value e ;;
  SpecificationFactory.create field operator value.

(** The failures of the composite branch when it is handed a dictionary
    that is not a composite: the operator is none of [AND], [OR], [NOT], or
    the key of a child is missing. *)
Inductive dispatch_failure : exn -> Prop :=
| unsupported_composite (operator : string) :
    dispatch_failure
      (ValueError ("Unsupported composite operator: " ++ operator))
| missing_child (key : string) : dispatch_failure (KeyError key).

(** The token made of the one character U+00B2, SUPERSCRIPT TWO. *)
Definition superscript_two : string := String (ascii_of_nat 178) EmptyString.






(** The fold the specification describes: the connector recorded after an
    entry, [and] when there is none, joins the running result with the next
    entry. *)
Definition connect (connector : option string) (acc s : Specification)
  : Specification :=
  match connector with
  | Some c => if String.eqb c "or" then or_spec acc s else and_spec acc s
  | None => and_spec acc s
  end.

Fixpoint spec_fold (acc : Specification) (connector : option string)
  (rest : list (FilterSpecification * option string)) : Specification :=
  match rest with
  | [] => acc
  | (s, c) :: rest' => spec_fold (connect connector acc (Filter s)) c rest'
  end.

Definition spec_combine (parsed : list (FilterSpecification * option string))
  : option Specification :=
  match parsed with
  | [] => None
  | (s, c) :: rest => Some (spec_fold (Filter s) c rest)
  end.

(** The connectors [_parse_list_filters] keeps. *)
Fixpoint kept_connectors (l : list (option string)) : list string :=
  match l with
  | [] => []
  | Some c :: l' =>
      if FilterParser.truthy (Some c) then c :: kept_connectors l'
      else kept_connectors l'
  | None :: l' => kept_connectors l'
  end.

(** The connector [_combine_specifications] reads at index [k]. *)
Definition connector_at (connectors : list string) (k : nat) : string :=
  if Nat.ltb k (List.length connectors) then nth k connectors EmptyString
  else "and".

Definition apply_connector (connector : string) (acc s : Specification)
  : Specification :=
  if String.eqb connector "and" then and_spec acc s
  else if String.eqb connector "or" then or_spec acc s
  else acc.

(** The loop of [_combine_specifications] as a walk along the two lists. *)
Fixpoint zip_fold (acc : Specification) (connectors : list string)
  (specs : list Specification) : Specification :=
  match specs with
  | [] => acc
  | s :: specs' =>
      zip_fold
        (apply_connector
           (match connectors with c :: _ => c | [] => "and" end) acc s)
        (tl connectors) specs'
  end.

(** A connector that is not blank is [and] or [or]. *)
Definition connector_valid (p : FilterSpecification * option string) : Prop :=
  FilterParser.truthy (snd p) = true ->
  snd p = Some "and" \/ snd p = Some "or".

(** Evaluation of a parsed filter against a candidate; [None] when there is
    no filter. *)
Definition parse_and_evaluate (f : filters) (c : candidate)
  : result (option bool) :=
  spec <- FilterParser.parse_filters f ;;
  match spec with
  | Some s => b <- is_satisfied_by s c ;; Ok (Some b)
  | None => Ok None
  end.

(** One parsed sort string: the single entry it gives. *)
Definition parses_to (sort_str : string) (entry : Sort.SortSpecification)
  : Prop :=
  SortParser.parse_sort (Some sort_str)
  = Ok (Some {| Sort.sorts := [entry] |}).

(** The three tests of [_translate_composite] on the operator of a leaf's
    dictionary: each branch ends in a dispatch failure. *)
Ltac composite_cases operator :=
  destruct (String.eqb operator "AND");
  [| destruct (String.eqb operator "OR");
     [| destruct (String.eqb operator "NOT")]];
  (eexists; split;
   [reflexivity
   | first [apply missing_child | apply (unsupported_composite operator)]]).

(** The leaves of a specification tree, left to right. *)
Fixpoint leaves (s : Specification) : list FilterSpecification :=
  match s with
  | Filter f => [f]
  | AndSpecification l r | OrSpecification l r => (leaves l ++ leaves r)%list
  | NotSpecification spec => leaves spec
  end.

(** An [IN] leaf holds a list or a tuple; any other leaf passes. *)
Definition container_value (f : FilterSpecification) : bool :=
  match f with
  | InSpecification _ (VList _ | VTuple _) => true
  | InSpecification _ _ => false
  | _ => true
  end.

(** A tree as the parser builds them: [AND] and [OR] nodes whose right
    operand is a leaf. *)
Fixpoint left_deep (s : Specification) : bool :=
  match s with
  | Filter _ => true
  | AndSpecification l (Filter _) | OrSpecification l (Filter _) => left_deep l
  | _ => false
  end.

(** The cases of an operator that is one of the supported ones. *)
Ltac operator_cases o H :=
  unfold PyStr.mem, FilterParser.supported_operators,
    SpecificationFactory.supported_operators in H;
  cbn [map fst SpecificationFactory._operators existsb] in H;
  repeat match type of H with
         | (String.eqb ?a ?b || _)%bool = true =>
             destruct (String.eqb_spec a b) as [-> | _];
             [ clear H | cbn [orb] in H ]
         end;
  [ .. | discriminate H ].

(** The failures of the two filter syntaxes. *)
Inductive parser_failure : exn -> Prop :=
| malformed_entry (filter_str : string) :
    (List.length (PyStr.split_max "," 3 filter_str) < 3)%nat ->
    parser_failure (FilterParser.invalid_filter filter_str)
| unknown_operator (operator : string) :
    PyStr.mem operator FilterParser.supported_operators = false ->
    parser_failure (FilterParser.unsupported_operator operator)
| unknown_connector (connector : string) :
    PyStr.mem connector ["and"; "or"; ""] = false ->
    parser_failure (FilterParser.unsupported_connector connector)
| between_arity_failure (value_str : string) :
    List.length (PyStr.split "|" value_str) <> 2%nat ->
    parser_failure (FilterParser.invalid_between value_str)
| unreadable_integer (token : string) :
    PyNum.int_of_string token = None ->
    parser_failure
      (ValueError ("invalid literal for int() with base 10: "
                   ++ PyVal.repr_string token)).


(** A string without a comma. *)
Definition no_comma (s : string) : bool :=
  PyStr.forallb_str (fun c => negb (Ascii.eqb c ",")) s.

(** A string that starts with no blank. *)
Definition starts_clean (s : string) : bool :=
  match s with
  | EmptyString => true
  | String c _ => negb (PyStr.isspace c)
  end.

(** A field [parse_sort] can return. *)
Definition clean (f : string) : Prop :=
  f <> EmptyString /\ PyStr.strip f = f /\ PyStr.contains "," f = false.

(** A leaf of one of the eleven concrete classes. *)
Definition concrete (f : FilterSpecification) : bool :=
  match f with
  | PlainFilterSpecification _ _ _ => false
  | _ => true
  end.


(** The exception object behind a failure of the parsers: the call
    [InvalidValueObjectException(message=..., value_object_type=...,
    invalid_value=..., code=...)] they make. *)
Definition raised_object (uuid4_hex utcnow : string) (e : exn)
  : option (result BaseKernelException.t) :=
  match e with
  | InvalidValueObjectException message value_object_type invalid_value code =>
      Some (InvalidValueObjectException.__init__ uuid4_hex utcnow message
              value_object_type (VStr invalid_value) (Some code) None
              no_kwargs)
  | _ => None
  end.

(** The exception object of a typed failure is built: the code passes the
    checks of the constructors, and the object is one of the domain layer. *)
Definition built (e : exn) : Prop :=
  forall uuid4_hex utcnow : string,
  exists self : BaseKernelException.t,
    raised_object uuid4_hex utcnow e = Some (Ok self)
    /\ BaseKernelException.layer_name self = "Domain"
    /\ BaseKernelException.http_code self = 400
    /\ BaseKernelException.rid self = uuid4_hex.

(** The calls made on a builder, one after the other. *)
Inductive builder_call : Type :=
| CallFilter (spec : Specification)
| CallSort (sort_spec : Sort.MultipleSortSpecification)
| CallLimit (limit : Z)
| CallOffset (offset : Z)
| CallSelect (fields : list string)
| CallJoin (entity_type condition : string) (join_type : option string)
| CallPaginate (page page_size : Z)
| CallClear.

(** One call, and a list of calls in order. *)
Definition call (self : QueryBuilder.t) (c : builder_call) : QueryBuilder.t :=
  match c with
  | CallFilter spec => QueryBuilder.filter self spec
  | CallSort sort_spec => QueryBuilder.sort self sort_spec
  | CallLimit limit => QueryBuilder.limit self limit
  | CallOffset offset => QueryBuilder.offset self offset
  | CallSelect fields => QueryBuilder.select self fields
  | CallJoin entity_type condition join_type =>
      QueryBuilder.join self entity_type condition join_type
  | CallPaginate page page_size => QueryBuilder.paginate self page page_size
  | CallClear => QueryBuilder.clear self
  end.

Definition calls (self : QueryBuilder.t) (l : list builder_call)
  : QueryBuilder.t :=
  fold_left call l self.

(** The specifications a list of calls hands to [filter], in order. *)
Definition filtered (l : list builder_call) : list Specification :=
  flat_map (fun c => match c with CallFilter spec => [spec] | _ => [] end) l.

(** A call of [clear]. *)
Definition is_clear (c : builder_call) : bool :=
  match c with CallClear => true | _ => false end.

(** * Properties *)

(** ** Evaluation of leaves *)

Section LeafEvaluation.

Variable self : FilterSpecification.
Variable c : candidate.

Lemma is_satisfied_by_missing :
  getattr c (field self) = Raise AttributeError ->
  filter_is_satisfied_by self c = Ok false.
Proof.
  intros H. unfold filter_is_satisfied_by. rewrite H. reflexivity.
Qed.

Lemma is_satisfied_by_found (field_value : pyval) :
  getattr c (field self) = Ok field_value ->
  filter_is_satisfied_by self c
  = except_AttributeError (_compare_values self field_value (value self)).
Proof.
  intros H. unfold filter_is_satisfied_by. rewrite H. reflexivity.
Qed.

End LeafEvaluation.

Lemma getattr_cases (c : candidate) (name : string) :
  getattr c name = Raise AttributeError \/ exists v, getattr c name = Ok v.
Proof.
  unfold getattr. destruct (assoc name (attributes c)) as [v|].
  - right. exists v. reflexivity.
  - left. reflexivity.
Qed.

Lemma ordering_leaf_compare (f : FilterSpecification) (op : PyVal.order_op)
  (field_value : pyval) :
  ordering_of f = Some op ->
  _compare_values f field_value (value f)
  = except_TypeError (PyVal.py_order op field_value (value f)).
Proof.
  destruct f; simpl; intros [= <-]; reflexivity.
Qed.

(** Induction on values, the items of a list or tuple included. *)
Lemma pyval_induction (P : pyval -> Prop) :
  P VNone ->
  (forall b, P (VBool b)) ->
  (forall n, P (VInt n)) ->
  (forall x, P (VFloat x)) ->
  (forall s, P (VStr s)) ->
  (forall l, Forall P l -> P (VList l)) ->
  (forall l, Forall P l -> P (VTuple l)) ->
  (forall text, P (VObj text)) ->
  forall v, P v.
Proof.
  intros HNone HBool HInt HFloat HStr HList HTuple HObj.
  fix IH 1. intros [| b | n | x | s | l | l | text].
  - exact HNone.
  - apply HBool.
  - apply HInt.
  - apply HFloat.
  - apply HStr.
  - apply HList.
    induction l as [| v l IHl]; constructor; [apply IH | exact IHl].
  - apply HTuple.
    induction l as [| v l IHl]; constructor; [apply IH | exact IHl].
  - apply HObj.
Qed.

Lemma py_order_raises (op : PyVal.order_op) (a b : pyval) (e : exn) :
  PyVal.py_order op a b = Raise e -> e = TypeError.
Proof.
  revert b. induction a as [| x | n | x | s | l IH | l IH | text]
    using pyval_induction; intros b; destruct b; simpl;
    try discriminate; try (intros [= <-]; reflexivity).
  - revert l0. induction IH as [| v l Hv _ IHl]; intros [| w m]; simpl;
      try discriminate.
    destruct (PyVal.py_eq v w); [apply IHl | apply Hv].
  - revert l0. induction IH as [| v l Hv _ IHl]; intros [| w m]; simpl;
      try discriminate.
    destruct (PyVal.py_eq v w); [apply IHl | apply Hv].
Qed.

(** C5. Leaf evaluation fails closed: a candidate without the leaf's field
    is not satisfied, and nothing is raised; and a leaf of one of the four
    ordering classes whose comparison of the candidate's field value with
    the stored value raises [TypeError] (the two are not comparable) is
    not satisfied, and nothing is raised. An ordering leaf never raises. *)
Theorem leaf_evaluation_fail_closed (f : FilterSpecification) (c : candidate) :
  (getattr c (field f) = Raise AttributeError ->
   filter_is_satisfied_by f c = Ok false
   /\ is_satisfied_by (Filter f) c = Ok false)
  /\ (forall (op : PyVal.order_op) (field_value : pyval),
        ordering_of f = Some op ->
        getattr c (field f) = Ok field_value ->
        PyVal.py_order op field_value (value f) = Raise TypeError ->
        filter_is_satisfied_by f c = Ok false
        /\ is_satisfied_by (Filter f) c = Ok false)
  /\ (forall op : PyVal.order_op,
        ordering_of f = Some op ->
        exists b : bool, is_satisfied_by (Filter f) c = Ok b).
Proof.
  split; [| split].
  - intros H. simpl. rewrite (is_satisfied_by_missing f c H). auto.
  - intros op field_value Hop Hget Hcmp. simpl.
    rewrite (is_satisfied_by_found f c field_value Hget).
    rewrite (ordering_leaf_compare f op field_value Hop), Hcmp.
    auto.
  - intros op Hop. simpl.
    destruct (getattr_cases c (field f)) as [H | [field_value H]].
    + exists false. exact (is_satisfied_by_missing f c H).
    + rewrite (is_satisfied_by_found f c field_value H).
      rewrite (ordering_leaf_compare f op field_value Hop).
      destruct (PyVal.py_order op field_value (value f)) as [b | e] eqn:E.
      * exists b. reflexivity.
      * rewrite (py_order_raises op field_value (value f) e E).
        exists false. reflexivity.
Qed.

Lemma leaf_evaluation_fail_closed_witness :
  is_satisfied_by (Filter (EqualSpecification "email" (VStr "a@b.c")))
    (py_object [("name", VStr "Ana")]) = Ok false
  /\ is_satisfied_by (Filter (GreaterThanSpecification "age" (VInt 18)))
       (py_object [("age", VStr "twenty")]) = Ok false
  /\ is_satisfied_by (Filter (LessThanOrEqualSpecification "age" (VInt 18)))
       (py_object [("age", VNone)]) = Ok false.
Proof.
  split; [| split].
  - apply (leaf_evaluation_fail_closed
             (EqualSpecification "email" (VStr "a@b.c"))
             (py_object [("name", VStr "Ana")])).
    reflexivity.
  - apply (proj1 (proj2 (leaf_evaluation_fail_closed
                           (GreaterThanSpecification "age" (VInt 18))
                           (py_object [("age", VStr "twenty")])))
             PyVal.OpGt (VStr "twenty")); reflexivity.
  - apply (proj1 (proj2 (leaf_evaluation_fail_closed
                           (LessThanOrEqualSpecification "age" (VInt 18))
                           (py_object [("age", VNone)])))
             PyVal.OpLe VNone); reflexivity.
Defined.

(** ** The factory and [to_expression] *)

Lemma create_round_trip (f o : string) (v : pyval) (s : FilterSpecification) :
  SpecificationFactory.create f o v = Ok s ->
  SpecificationFactory.create (field s) (operator s) (value s) = Ok s.
Proof.
  unfold SpecificationFactory.create, SpecificationFactory._operators, assoc.
  repeat match goal with
  | |- context [String.eqb ?k o] =>
      destruct (String.eqb_spec k o) as [<- | ?]
  end; simpl; try discriminate;
  try (destruct (SpecificationFactory.pair_items v) as [[a b]|] eqn:E;
       simpl; try discriminate);
  intros [= <-]; reflexivity.
Qed.

(** The leaves the factory builds are those of the eleven classes. *)
Lemma create_operator (f o : string) (v : pyval) (s : FilterSpecification) :
  SpecificationFactory.create f o v = Ok s ->
  operator s = o /\ field s = f
  /\ PyStr.mem o SpecificationFactory.supported_operators = true.
Proof.
  unfold SpecificationFactory.create, SpecificationFactory._operators, assoc.
  repeat match goal with
  | |- context [String.eqb ?k o] =>
      destruct (String.eqb_spec k o) as [<- | ?]
  end; simpl; try discriminate;
  try (destruct (SpecificationFactory.pair_items v) as [[a b]|] eqn:E;
       simpl; try discriminate);
  intros [= <-]; auto.
Qed.

(** The factory builds a leaf for each of the eleven operator tags, and the
    leaf carries the tag. *)
Example factory_builds_every_tag :
  forallb
    (fun tag =>
       match
         SpecificationFactory.create "age" tag (VList [VInt 18; VInt 30])
       with
       | Ok s => String.eqb (operator s) tag
       | Raise _ => false
       end)
    ["eq"; "ne"; "lt"; "lte"; "gt"; "gte"; "like"; "in"; "between";
     "is_null"; "is_not_null"] = true.
Proof. reflexivity. Qed.

(** C3. Round trip of a leaf the factory built: [to_expression] followed by
    [SpecificationFactory.create] on the dictionary's field, operator and
    value succeeds, and the leaf it gives is satisfied by exactly the same
    candidates (with the same outcome, raising included). *)
Theorem factory_round_trip (f o : string) (v : pyval)
  (s : FilterSpecification) :
  SpecificationFactory.create f o v = Ok s ->
  exists s' : FilterSpecification,
    reconstruct (filter_to_expression s) = Ok s'
    /\ forall c : candidate,
         is_satisfied_by (Filter s') c = is_satisfied_by (Filter s) c.
Proof.
  intros H. exists s. split.
  - unfold reconstruct, filter_to_expression. simpl.
    exact (create_round_trip f o v s H).
  - reflexivity.
Qed.

Lemma factory_round_trip_witness :
  exists s' : FilterSpecification,
    reconstruct
      (filter_to_expression
         (BetweenSpecification "age" (VInt 18) (VInt 30))) = Ok s'
    /\ forall c : candidate,
         is_satisfied_by (Filter s') c
         = is_satisfied_by
             (Filter (BetweenSpecification "age" (VInt 18) (VInt 30))) c.
Proof.
  apply (factory_round_trip "age" "between" (VTuple [VInt 18; VInt 30])).
  reflexivity.
Defined.

(** ** Plain dictionaries as candidates *)

Lemma assoc_not_mem {A : Type} (name : string) (l : list (string * A)) :
  PyStr.mem name (map fst l) = false -> assoc name l = None.
Proof.
  unfold PyStr.mem.
  induction l as [| [k v] l IH]; simpl; [reflexivity |].
  intros H. apply orb_false_elim in H. destruct H as [Hk Hl].
  rewrite String.eqb_sym, Hk. exact (IH Hl).
Qed.

Lemma dict_attribute_names (addr type_addr : string) :
  map fst (PyDict.dict_attributes addr type_addr) = PyDict.attribute_names.
Proof. reflexivity. Qed.

Lemma getattr_py_dict (addr type_addr : string) (items : list (pyval * pyval))
  (name : string) :
  PyStr.mem name PyDict.attribute_names = false ->
  getattr (py_dict addr type_addr items) name = Raise AttributeError.
Proof.
  intros H. unfold getattr, py_dict. simpl attributes.
  rewrite (assoc_not_mem name (PyDict.dict_attributes addr type_addr)).
  - reflexivity.
  - rewrite dict_attribute_names. exact H.
Qed.

(** C10, as amended. The field lookup reads attributes only: on a plain
    [dict], whatever its entries, a leaf whose field is not the name of one
    of the [dict] object's own attributes finds no value and is not
    satisfied, whatever its operator. *)
Theorem dict_candidate_not_satisfied (f : FilterSpecification)
  (addr type_addr : string) (items : list (pyval * pyval)) :
  PyStr.mem (field f) PyDict.attribute_names = false ->
  getattr (py_dict addr type_addr items) (field f) = Raise AttributeError
  /\ is_satisfied_by (Filter f) (py_dict addr type_addr items) = Ok false.
Proof.
  intros H.
  pose proof (getattr_py_dict addr type_addr items (field f) H) as Hget.
  split; [exact Hget |].
  simpl. exact (is_satisfied_by_missing f _ Hget).
Qed.

Lemma dict_candidate_not_satisfied_witness :
  getattr (py_dict "7effb2e48400" "94f7e0" [(VStr "age", VInt 20)]) "age"
  = Raise AttributeError
  /\ is_satisfied_by (Filter (GreaterThanOrEqualSpecification "age" (VInt 18)))
       (py_dict "7effb2e48400" "94f7e0" [(VStr "age", VInt 20)]) = Ok false.
Proof.
  apply (dict_candidate_not_satisfied
           (GreaterThanOrEqualSpecification "age" (VInt 18))).
  reflexivity.
Defined.

(** C10, as stated, fails: a leaf whose field names a method of the
    [dict] object finds that method, and [ne] and [is_not_null] leaves are
    then satisfied. *)
Lemma dict_candidate_method_field :
  ~ (forall (f : FilterSpecification) (addr type_addr : string)
       (items : list (pyval * pyval)),
        is_satisfied_by (Filter f) (py_dict addr type_addr items) = Ok false).
Proof.
  intros H.
  specialize (H (IsNotNullSpecification "keys") "7effb2e48400" "94f7e0"
                [(VStr "keys", VNone)]).
  vm_compute in H. discriminate H.
Qed.

(** ** The map syntax and the operator aliases *)

Lemma parse_item_operator (key name op raw : string) :
  PyStr.contains "__" key = true ->
  PyStr.split_max "__" 1 key = [name; op] ->
  FilterParser.parse_item (key, raw)
  = (let operator :=
       match assoc (PyStr.lower op) FilterParser.operator_mapping with
       | Some o => o
       | None => PyStr.lower op
       end in
     if negb (PyStr.mem operator FilterParser.supported_operators)
     then Raise (FilterParser.unsupported_operator operator)
     else
       parsed_value <- FilterParser._parse_value raw operator ;;
       spec <- SpecificationFactory.create name operator parsed_value ;;
       Ok (Filter spec)).
Proof.
  intros Hc Hs. unfold FilterParser.parse_item. rewrite Hc, Hs. reflexivity.
Qed.

Lemma parse_dict_first_raises (item : string * string)
  (rest : list (string * string)) (e : exn) :
  FilterParser.parse_item item = Raise e ->
  FilterParser.parse_filters (FiltersDict (item :: rest)) = Raise e.
Proof.
  intros H. simpl. unfold FilterParser._parse_dict_filters. simpl.
  rewrite H. reflexivity.
Qed.

(** C1, on the code. A key whose operator token is one of the aliases
    [ilike], [isnull] and [isnotnull] is not normalized: [operator_mapping]
    sends each alias to itself, the alias is not a supported operator, and
    [parse_filters] raises the unknown-operator failure carrying the
    alias. *)
Theorem alias_operator_rejected (key name op raw : string)
  (rest : list (string * string)) :
  PyStr.contains "__" key = true ->
  PyStr.split_max "__" 1 key = [name; op] ->
  PyStr.mem (PyStr.lower op) ["ilike"; "isnull"; "isnotnull"] = true ->
  FilterParser.parse_filters (FiltersDict ((key, raw) :: rest))
  = Raise (InvalidValueObjectException
             ("Operador no soportado: '" ++ PyStr.lower op
              ++ "'. Operadores disponibles: ['eq', 'ne', 'lt', 'lte', 'gt', 'gte', 'like', 'in', 'between', 'is_null', 'is_not_null']")
             "FilterOperator" (PyStr.lower op) 11003008).
Proof.
  intros Hc Hs Ha. apply parse_dict_first_raises.
  rewrite (parse_item_operator key name op raw Hc Hs).
  unfold PyStr.mem in Ha. simpl in Ha.
  destruct (String.eqb_spec (PyStr.lower op) "ilike") as [-> | _];
    [reflexivity |].
  destruct (String.eqb_spec (PyStr.lower op) "isnull") as [-> | _];
    [reflexivity |].
  destruct (String.eqb_spec (PyStr.lower op) "isnotnull") as [-> | _];
    [reflexivity | discriminate Ha].
Qed.

Lemma alias_operator_rejected_witness :
  FilterParser.parse_filters (FiltersDict [("name__ilike", "x")])
  = Raise (InvalidValueObjectException
             "Operador no soportado: 'ilike'. Operadores disponibles: ['eq', 'ne', 'lt', 'lte', 'gt', 'gte', 'like', 'in', 'between', 'is_null', 'is_not_null']"
             "FilterOperator" "ilike" 11003008)
  /\ FilterParser.parse_filters (FiltersDict [("deleted_at__isnull", "")])
     = Raise (InvalidValueObjectException
                "Operador no soportado: 'isnull'. Operadores disponibles: ['eq', 'ne', 'lt', 'lte', 'gt', 'gte', 'like', 'in', 'between', 'is_null', 'is_not_null']"
                "FilterOperator" "isnull" 11003008).
Proof.
  split.
  - apply (alias_operator_rejected "name__ilike" "name" "ilike" "x" []);
      reflexivity.
  - apply (alias_operator_rejected "deleted_at__isnull" "deleted_at"
             "isnull" "" []); reflexivity.
Defined.

(** The canonical tags themselves are accepted in the map syntax. *)
Example canonical_null_tag_accepted :
  FilterParser.parse_filters (FiltersDict [("deleted_at__is_null", "")])
  = Ok (Some (Filter (IsNullSpecification "deleted_at")))
  /\ FilterParser.parse_filters (FiltersDict [("name__LIKE", "x")])
     = Ok (Some (Filter (LikeSpecification "name" (VStr "x")))).
Proof. split; reflexivity. Qed.



(** ** The list syntax and its connectors *)

(** C2, on the code. The connectors are collected without their positions:
    an entry without connector leaves no slot, so the connector of a later
    entry moves forward. For the entries a, b with [or], c the [or] of the
    second entry joins the first two entries and the default [and] joins
    the third: the tree is ((a OR b) AND c), not ((a AND b) OR c). *)
Theorem list_connectors_shift :
  FilterParser.parse_filters
    (FiltersList ["a,eq,1"; "b,eq,2,or"; "c,eq,3"])
  = Ok (Some (AndSpecification
                (OrSpecification (Filter (EqualSpecification "a" (VInt 1)))
                   (Filter (EqualSpecification "b" (VInt 2))))
                (Filter (EqualSpecification "c" (VInt 3)))))
  /\ FilterParser.parse_filters
       (FiltersList ["a,eq,1"; "b,eq,2,or"; "c,eq,3"])
     <> Ok (Some (OrSpecification
                    (AndSpecification
                       (Filter (EqualSpecification "a" (VInt 1)))
                       (Filter (EqualSpecification "b" (VInt 2))))
                    (Filter (EqualSpecification "c" (VInt 3)))))
  /\ FilterParser.parse_filters (FiltersList ["a,eq,1"; "b,eq,2,or"])
     = Ok (Some (OrSpecification (Filter (EqualSpecification "a" (VInt 1)))
                   (Filter (EqualSpecification "b" (VInt 2))))).
Proof.
  split; [| split].
  - vm_compute. reflexivity.
  - vm_compute. discriminate.
  - vm_compute. reflexivity.
Qed.

Lemma parse_entries_mapM (entries : list string)
  (parsed : list (FilterSpecification * option string)) :
  mapM FilterParser._parse_single_filter entries = Ok parsed ->
  FilterParser.parse_entries entries
  = Ok (map (fun p => Filter (fst p)) parsed,
        kept_connectors (map snd parsed)).
Proof.
  revert parsed. induction entries as [| e entries IH]; intros parsed.
  - intros [= <-]. reflexivity.
  - cbn [mapM FilterParser.parse_entries].
    destruct (FilterParser._parse_single_filter e) as [[s c] |]; simpl;
      [| discriminate].
    destruct (mapM FilterParser._parse_single_filter entries) as [ps |];
      simpl; [| discriminate].
    intros [= <-]. rewrite (IH ps eq_refl). simpl.
    destruct c as [c |]; reflexivity.
Qed.

Lemma connector_at_skipn (connectors : list string) (k : nat) :
  connector_at connectors k
  = match skipn k connectors with c :: _ => c | [] => "and" end.
Proof.
  unfold connector_at. revert k.
  induction connectors as [| c cs IH]; intros [| k]; simpl; try reflexivity.
  exact (IH k).
Qed.

Lemma tl_skipn {A : Type} (l : list A) (k : nat) :
  tl (skipn k l) = skipn (S k) l.
Proof.
  revert l. induction k as [| k IH]; intros [| a l]; simpl; try reflexivity.
  exact (IH l).
Qed.

Lemma combine_loop (pre rest : list Specification) (connectors : list string)
  (acc : Specification) (k : nat) :
  List.length pre = S k ->
  fold_left (FilterParser.combine_step (pre ++ rest)%list connectors)
    (seq (S k) (List.length rest)) acc
  = zip_fold acc (skipn k connectors) rest.
Proof.
  revert pre acc k. induction rest as [| s rest IH]; intros pre acc k Hk.
  - reflexivity.
  - cbn [List.length seq fold_left zip_fold].
    replace (pre ++ s :: rest)%list with ((pre ++ [s]) ++ rest)%list
      by (rewrite <- app_assoc; reflexivity).
    rewrite (IH (pre ++ [s])%list _ (S k))
      by (rewrite length_app, Hk; simpl; lia).
    rewrite tl_skipn. f_equal.
    unfold FilterParser.combine_step.
    rewrite <- app_assoc. cbn [app].
    rewrite nth_error_app2 by lia. rewrite Hk, Nat.sub_diag. cbn [nth_error].
    replace (S k - 1)%nat with k by lia.
    fold (connector_at connectors k). rewrite connector_at_skipn.
    reflexivity.
Qed.

(** A connector that passed [_parse_single_filter] and is not blank is
    [and] or [or]. *)
Lemma parsed_connector (e : string) (s : FilterSpecification)
  (connector : option string) :
  FilterParser._parse_single_filter e = Ok (s, connector) ->
  FilterParser.truthy connector = true ->
  connector = Some "and" \/ connector = Some "or".
Proof.
  unfold FilterParser._parse_single_filter.
  destruct (PyStr.split_max "," 3 e) as [| p0 [| p1 [| p2 rest]]];
    try discriminate.
  cbv zeta.
  destruct (negb (PyStr.mem (PyStr.lower (PyStr.strip p1))
                    FilterParser.supported_operators)); [discriminate |].
  destruct rest as [| p3 rest'].
  - simpl.
    destruct (FilterParser._parse_value _ _); simpl; [| discriminate].
    destruct (SpecificationFactory.create _ _ _); simpl; [| discriminate].
    intros [= _ <-]. discriminate.
  - set (c := PyStr.lower (PyStr.strip p3)).
    destruct (FilterParser.truthy (Some c)) eqn:Ht.
    + unfold PyStr.mem, FilterParser.supported_connectors. simpl existsb.
      destruct (String.eqb_spec c "and") as [-> | _].
      * simpl.
        destruct (FilterParser._parse_value _ _); simpl; [| discriminate].
        destruct (SpecificationFactory.create _ _ _); simpl;
          [| discriminate].
        intros [= _ <-] _. left. reflexivity.
      * destruct (String.eqb_spec c "or") as [-> | _].
        -- simpl.
           destruct (FilterParser._parse_value _ _); simpl; [| discriminate].
           destruct (SpecificationFactory.create _ _ _); simpl;
             [| discriminate].
           intros [= _ <-] _. right. reflexivity.
        -- simpl. discriminate.
    + simpl.
      destruct (FilterParser._parse_value _ _); simpl; [| discriminate].
      destruct (SpecificationFactory.create _ _ _); simpl; [| discriminate].
      intros [= _ <-] H. rewrite Ht in H. discriminate H.
Qed.

Lemma mapM_Forall2 {A B : Type} (f : A -> result B) (l : list A)
  (r : list B) :
  mapM f l = Ok r -> Forall2 (fun a b => f a = Ok b) l r.
Proof.
  revert r. induction l as [| a l IH]; intros r; simpl.
  - intros [= <-]. constructor.
  - destruct (f a) as [b |] eqn:E; simpl; [| discriminate].
    destruct (mapM f l) as [bs |]; simpl; [| discriminate].
    intros [= <-]. constructor; [exact E | apply IH; reflexivity].
Qed.

Lemma parsed_connectors_valid (entries : list string)
  (parsed : list (FilterSpecification * option string)) :
  mapM FilterParser._parse_single_filter entries = Ok parsed ->
  Forall connector_valid parsed.
Proof.
  intros H. apply mapM_Forall2 in H.
  induction H as [| e [s c] entries parsed He _ IH]; constructor;
    [| exact IH].
  exact (parsed_connector e s c He).
Qed.

Lemma zip_fold_spec_fold (rest : list (FilterSpecification * option string))
  (acc : Specification) (s0 : FilterSpecification) (c0 : option string) :
  Forall connector_valid ((s0, c0) :: rest) ->
  forallb (fun p => FilterParser.truthy (snd p)) (removelast ((s0, c0) :: rest))
  = true ->
  zip_fold acc (kept_connectors (c0 :: map snd rest))
    (map (fun p => Filter (fst p)) rest)
  = spec_fold acc c0 rest.
Proof.
  revert acc s0 c0. induction rest as [| [s1 c1] rest IH];
    intros acc s0 c0 Hv Ht; [reflexivity |].
  inversion Hv as [| p ps Hv0 Hv' E]; subst.
  change (removelast ((s0, c0) :: (s1, c1) :: rest))
    with ((s0, c0) :: removelast ((s1, c1) :: rest)) in Ht.
  cbn [forallb snd] in Ht. apply andb_prop in Ht. destruct Ht as [Ht0 Ht].
  cbn [map fst snd spec_fold].
  destruct (Hv0 Ht0) as [E | E]; simpl in E; subst c0;
    cbn [kept_connectors FilterParser.truthy PyStr.is_empty negb zip_fold tl];
    rewrite (IH _ s1 c1 Hv' Ht); reflexivity.
Qed.

(** When every entry but the last carries its connector, the tree is the
    left-to-right fold in which the connector after an entry joins the
    running result with the next entry. *)
Theorem list_fold_with_connectors (entries : list string)
  (parsed : list (FilterSpecification * option string)) :
  mapM FilterParser._parse_single_filter entries = Ok parsed ->
  forallb (fun p => FilterParser.truthy (snd p)) (removelast parsed) = true ->
  FilterParser.parse_filters (FiltersList entries) = Ok (spec_combine parsed).
Proof.
  intros Hp Ht.
  pose proof (parsed_connectors_valid entries parsed Hp) as Hv.
  pose proof (parse_entries_mapM entries parsed Hp) as He.
  destruct entries as [| e entries].
  - simpl in Hp. injection Hp as <-. reflexivity.
  - cbn [FilterParser.parse_filters FilterParser._parse_list_filters].
    rewrite He. cbn [bind].
    destruct parsed as [| [s0 c0] rest].
    + apply mapM_Forall2 in Hp. inversion Hp.
    + cbn [map fst]. destruct rest as [| [s1 c1] rest]; [reflexivity |].
      cbn [map fst]. unfold FilterParser._combine_specifications.
      f_equal. cbn [spec_combine]. f_equal.
      rewrite <- (zip_fold_spec_fold ((s1, c1) :: rest) (Filter s0) s0 c0
                    Hv Ht).
      cbn [List.length Nat.sub].
      change (Filter s0 :: Filter s1 :: map (fun p => Filter (fst p)) rest)
        with ([Filter s0]
                ++ map (fun p => Filter (fst p)) ((s1, c1) :: rest))%list.
      exact (combine_loop [Filter s0]
               (map (fun p => Filter (fst p)) ((s1, c1) :: rest))
               (kept_connectors (c0 :: map snd ((s1, c1) :: rest)))
               (Filter s0) 0 eq_refl).
Qed.

Lemma list_fold_with_connectors_witness :
  FilterParser.parse_filters
    (FiltersList ["a,eq,1,and"; "b,eq,2,or"; "c,eq,3"])
  = Ok (Some (OrSpecification
                (AndSpecification (Filter (EqualSpecification "a" (VInt 1)))
                   (Filter (EqualSpecification "b" (VInt 2))))
                (Filter (EqualSpecification "c" (VInt 3))))).
Proof.
  exact (list_fold_with_connectors
           ["a,eq,1,and"; "b,eq,2,or"; "c,eq,3"]
           [(EqualSpecification "a" (VInt 1), Some "and");
            (EqualSpecification "b" (VInt 2), Some "or");
            (EqualSpecification "c" (VInt 3), None)]
           eq_refl eq_refl).
Defined.

(** ** The translators' dispatch *)

(** Every dictionary [to_expression] builds has the key ["operator"]. *)
Lemma has_key_operator (e : expression) : has_key "operator" e = true.
Proof. destruct e; reflexivity. Qed.

Lemma mongo_leaf_dispatch (name operator : string) (v : pyval) :
  exists e : exn,
    MongoDBSpecificationTranslator._translate_expression
      (FilterExpr name operator v) = Raise e
    /\ dispatch_failure e.
Proof.
  simpl. unfold MongoDBSpecificationTranslator._translate_composite. simpl.
  composite_cases operator.
Qed.

Lemma mongo_translate_fails (spec : Specification) :
  exists e : exn,
    MongoDBSpecificationTranslator.translate spec = Raise e
    /\ dispatch_failure e.
Proof.
  unfold MongoDBSpecificationTranslator.translate.
  induction spec as [f | l [el [Hl Dl]] r _ | l [el [Hl Dl]] r _
                    | s [es [Hs Ds]]].
  - apply mongo_leaf_dispatch.
  - exists el. split; [| exact Dl]. simpl in *.
    unfold MongoDBSpecificationTranslator._translate_composite. simpl.
    rewrite Hl. reflexivity.
  - exists el. split; [| exact Dl]. simpl in *.
    unfold MongoDBSpecificationTranslator._translate_composite. simpl.
    rewrite Hl. reflexivity.
  - exists es. split; [| exact Ds]. simpl in *.
    unfold MongoDBSpecificationTranslator._translate_composite. simpl.
    rewrite Hs. reflexivity.
Qed.

(** C4, on the code. [_translate_expression] takes every dictionary that
    has the key ["operator"] for a composite, and the dictionary of a leaf
    has that key too: a leaf is never translated, so no specification is,
    and the translation of NOT(A AND B) raises instead of giving
    [{"$not": {"$and": [T(A), T(B)]}}]. *)
Theorem mongo_translate_not_raises :
  (forall spec : Specification,
      exists e : exn, MongoDBSpecificationTranslator.translate spec = Raise e)
  /\ MongoDBSpecificationTranslator.translate
       (NotSpecification
          (AndSpecification (Filter (EqualSpecification "a" (VInt 1)))
             (Filter (EqualSpecification "b" (VInt 2)))))
     = Raise (ValueError "Unsupported composite operator: eq").
Proof.
  split.
  - intros spec. destruct (mongo_translate_fails spec) as [e [H _]].
    exists e. exact H.
  - reflexivity.
Qed.

Lemma sql_leaf_dispatch (m : SQLAlchemySpecificationTranslator.model_class)
  (name operator : string) (v : pyval) :
  exists e : exn,
    SQLAlchemySpecificationTranslator._translate_expression m
      (FilterExpr name operator v) = Raise e
    /\ dispatch_failure e.
Proof.
  simpl. unfold SQLAlchemySpecificationTranslator._translate_composite.
  simpl. composite_cases operator.
Qed.

Lemma sql_translate_fails (m : SQLAlchemySpecificationTranslator.model_class)
  (spec : Specification) :
  exists e : exn,
    SQLAlchemySpecificationTranslator.translate m spec = Raise e
    /\ dispatch_failure e.
Proof.
  unfold SQLAlchemySpecificationTranslator.translate.
  induction spec as [f | l [el [Hl Dl]] r _ | l [el [Hl Dl]] r _
                    | s [es [Hs Ds]]].
  - apply sql_leaf_dispatch.
  - exists el. split; [| exact Dl]. simpl in *.
    unfold SQLAlchemySpecificationTranslator._translate_composite. simpl.
    rewrite Hl. reflexivity.
  - exists el. split; [| exact Dl]. simpl in *.
    unfold SQLAlchemySpecificationTranslator._translate_composite. simpl.
    rewrite Hl. reflexivity.
  - exists es. split; [| exact Ds]. simpl in *.
    unfold SQLAlchemySpecificationTranslator._translate_composite. simpl.
    rewrite Hs. reflexivity.
Qed.

Lemma dispatch_failure_not_field (e : exn)
  (m : SQLAlchemySpecificationTranslator.model_class) (field : string) :
  dispatch_failure e ->
  e <> SQLAlchemySpecificationTranslator.field_not_found m field.
Proof.
  intros [operator | key]; unfold
    SQLAlchemySpecificationTranslator.field_not_found; simpl; discriminate.
Qed.

(** C8, on the code. Through [translate] a leaf never reaches
    [_translate_filter], where the check of the field is: whatever the
    model and the specification, the translation raises, and what it
    raises is never the unknown-field failure. For a leaf on a field the
    model does not have, the failure names the operator, not the field and
    the model. *)
Theorem sql_translate_unknown_field :
  (forall (m : SQLAlchemySpecificationTranslator.model_class)
          (spec : Specification),
      exists e : exn,
        SQLAlchemySpecificationTranslator.translate m spec = Raise e
        /\ forall field : string,
             e <> SQLAlchemySpecificationTranslator.field_not_found m field)
  /\ SQLAlchemySpecificationTranslator.translate
       {| SQLAlchemySpecificationTranslator.__name__ := "User";
          SQLAlchemySpecificationTranslator.class_attributes :=
            ["id"; "name"] |}
       (Filter (EqualSpecification "nickname" (VInt 1)))
     = Raise (ValueError "Unsupported composite operator: eq").
Proof.
  split.
  - intros m spec. destruct (sql_translate_fails m spec) as [e [H D]].
    exists e. split; [exact H |].
    intros field. apply dispatch_failure_not_field. exact D.
  - reflexivity.
Qed.

Lemma py_getitem_raises (v : pyval) (i : nat) (e : exn) :
  PyVal.py_getitem v i = Raise e -> e = TypeError \/ e = IndexError.
Proof.
  destruct v; simpl; try (intros [= <-]; auto).
  - destruct (String.get i s); intros [= <-]; auto.
  - destruct (nth_error l i); intros [= <-]; auto.
  - destruct (nth_error l i); intros [= <-]; auto.
Qed.

(** [_translate_filter] on its own, called on the dictionary of a leaf,
    checks the field before it looks at the operator: without the attribute
    on the model it raises the failure that names the field and the model,
    and with it never that failure. *)
Theorem sql_translate_filter_field
  (m : SQLAlchemySpecificationTranslator.model_class)
  (f : FilterSpecification) :
  (SQLAlchemySpecificationTranslator.hasattr m (field f) = false ->
   SQLAlchemySpecificationTranslator._translate_filter m
     (filter_to_expression f)
   = Raise (ValueError ("Field '" ++ field f ++ "' not found in model "
                        ++ SQLAlchemySpecificationTranslator.__name__ m)))
  /\ (SQLAlchemySpecificationTranslator.hasattr m (field f) = true ->
      forall name : string,
        SQLAlchemySpecificationTranslator._translate_filter m
          (filter_to_expression f)
        <> Raise (SQLAlchemySpecificationTranslator.field_not_found m name)).
Proof.
  unfold SQLAlchemySpecificationTranslator._translate_filter,
    filter_to_expression. simpl. split; intros H; rewrite H; simpl.
  - reflexivity.
  - intros name.
    unfold SQLAlchemySpecificationTranslator.field_not_found. simpl.
    repeat match goal with
    | |- context [String.eqb ?a ?b] => destruct (String.eqb a b)
    end; try discriminate.
    destruct (PyVal.py_getitem (value f) 0) as [v0 | e0] eqn:E0; simpl.
    + destruct (PyVal.py_getitem (value f) 1) as [v1 | e1] eqn:E1; simpl;
        [discriminate |].
      destruct (py_getitem_raises _ _ _ E1) as [-> | ->]; discriminate.
    + destruct (py_getitem_raises _ _ _ E0) as [-> | ->]; discriminate.
Qed.

(** ** Value coercion *)

(** C6, on the code. [str.isdigit] accepts the superscript digits, which
    [int] does not read: for such a token the integer branch is taken and
    [int] raises [ValueError]. The token becomes neither an integer nor a
    string, in either syntax. *)
Theorem convert_superscript_digit_raises :
  PyStr.isdigit superscript_two = true
  /\ FilterParser._convert_single_value superscript_two
     = Raise (ValueError ("invalid literal for int() with base 10: '"
                          ++ superscript_two ++ "'"))
  /\ FilterParser.parse_filters (FiltersDict [("age", superscript_two)])
     = Raise (ValueError ("invalid literal for int() with base 10: '"
                          ++ superscript_two ++ "'"))
  /\ FilterParser.parse_filters
       (FiltersList ["age,eq," ++ superscript_two])
     = Raise (ValueError ("invalid literal for int() with base 10: '"
                          ++ superscript_two ++ "'"))
  /\ FilterParser.parse_filters
       (FiltersDict [("age__in", "1|" ++ superscript_two)])
     = Raise (ValueError ("invalid literal for int() with base 10: '"
                          ++ superscript_two ++ "'")).
Proof. repeat split; vm_compute; reflexivity. Qed.














(** ** The [between] operator *)










(** ** The sort parser *)

Lemma strip_nonempty (s : string) :
  PyStr.is_empty (PyStr.strip s) = false -> PyStr.is_empty s = false.
Proof.
  destruct s; [discriminate | reflexivity].
Qed.

(** A string that splits into a first part that is not blank is not blank
    itself. *)
Lemma split_first_not_blank (s p0 : string) (rest : list string) :
  PyStr.split "," s = p0 :: rest ->
  PyStr.is_empty (PyStr.strip p0) = false ->
  PyStr.is_empty s = false.
Proof.
  destruct s; [| reflexivity].
  intros [= <- <-]. discriminate.
Qed.

(** [parse_sort] on a string whose field part is not blank. *)
Lemma parse_sort_field (sort_str p0 : string) (rest : list string) :
  PyStr.split "," (PyStr.strip sort_str) = p0 :: rest ->
  PyStr.is_empty (PyStr.strip p0) = false ->
  SortParser.parse_sort (Some sort_str)
  = (direction <-
       match rest with
       | p1 :: _ =>
           if negb (PyStr.mem (PyStr.lower (PyStr.strip p1)) ["asc"; "desc"])
           then Raise (SortParser.invalid_direction
                         (PyStr.lower (PyStr.strip p1)))
           else Sort.SortDirection_of (PyStr.lower (PyStr.strip p1))
       | [] => Ok Sort.ASC
       end ;;
     Ok (Some (Sort.add_sort Sort.empty (PyStr.strip p0) direction))).
Proof.
  intros Hs Hf. unfold SortParser.parse_sort.
  pose proof (split_first_not_blank _ p0 rest Hs Hf) as Hne.
  rewrite (strip_nonempty sort_str Hne), Hne, Hs.
  cbn [orb hd]. rewrite Hf. destruct rest; reflexivity.
Qed.

(** C9. The single-entry sort grammar: a field alone sorts ascending, a
    field with [asc] or [desc] (trimmed, in any case) sorts that way, and a
    field with any other direction token raises the validation failure that
    carries the token, trimmed and lowercased. *)
Theorem parse_sort_single_entry (sort_str p0 : string) (rest : list string) :
  PyStr.split "," (PyStr.strip sort_str) = p0 :: rest ->
  PyStr.is_empty (PyStr.strip p0) = false ->
  match rest with
  | [] =>
      exists spec : Sort.MultipleSortSpecification,
        SortParser.parse_sort (Some sort_str) = Ok (Some spec)
        /\ Sort.to_sort_criteria spec = [(PyStr.strip p0, "asc")]
  | p1 :: _ =>
      if PyStr.mem (PyStr.lower (PyStr.strip p1)) ["asc"; "desc"] then
        exists spec : Sort.MultipleSortSpecification,
          SortParser.parse_sort (Some sort_str) = Ok (Some spec)
          /\ Sort.to_sort_criteria spec
             = [(PyStr.strip p0, PyStr.lower (PyStr.strip p1))]
      else
        SortParser.parse_sort (Some sort_str)
        = Raise (InvalidValueObjectException
                   ("Direcci" ++ FilterParser.o_acute
                    ++ "n de ordenamiento inv" ++ FilterParser.a_acute
                    ++ "lida: '" ++ PyStr.lower (PyStr.strip p1)
                    ++ "'. Usar 'asc' o 'desc'")
                   "SortDirection" (PyStr.lower (PyStr.strip p1)) 11003012)
  end.
Proof.
  intros Hs Hf. rewrite (parse_sort_field sort_str p0 rest Hs Hf).
  destruct rest as [| p1 rest'].
  - eexists. split; reflexivity.
  - unfold PyStr.mem. simpl existsb.
    destruct (String.eqb_spec (PyStr.lower (PyStr.strip p1)) "asc")
      as [-> | _]; [eexists; split; reflexivity |].
    destruct (String.eqb_spec (PyStr.lower (PyStr.strip p1)) "desc")
      as [-> | _]; [eexists; split; reflexivity |].
    reflexivity.
Qed.

Lemma parse_sort_single_entry_witness :
  (exists spec : Sort.MultipleSortSpecification,
      SortParser.parse_sort (Some "created_at,desc") = Ok (Some spec)
      /\ Sort.to_sort_criteria spec = [("created_at", "desc")])
  /\ (exists spec : Sort.MultipleSortSpecification,
         SortParser.parse_sort (Some "name") = Ok (Some spec)
         /\ Sort.to_sort_criteria spec = [("name", "asc")])
  /\ SortParser.parse_sort (Some "name, Sideways ")
     = Raise (InvalidValueObjectException
                ("Direcci" ++ FilterParser.o_acute
                 ++ "n de ordenamiento inv" ++ FilterParser.a_acute
                 ++ "lida: 'sideways'. Usar 'asc' o 'desc'")
                "SortDirection" "sideways" 11003012).
Proof.
  split; [| split].
  - exact (parse_sort_single_entry "created_at,desc" "created_at" ["desc"]
             eq_refl eq_refl).
  - exact (parse_sort_single_entry "name" "name" [] eq_refl eq_refl).
  - exact (parse_sort_single_entry "name, Sideways " "name" [" Sideways"]
             eq_refl eq_refl).
Defined.

(** A blank field gives no sort specification, whatever follows it. *)
Example parse_sort_blank_field :
  SortParser.parse_sort (Some ",sideways") = Ok None
  /\ SortParser.parse_sort (Some "  ") = Ok None
  /\ SortParser.parse_sort None = Ok None.
Proof. repeat split. Qed.

Lemma parse_each_append (sorts : list string)
  (entries : list Sort.SortSpecification)
  (spec : Sort.MultipleSortSpecification) :
  Forall2 parses_to sorts entries ->
  SortParser.parse_each sorts spec
  = Ok {| Sort.sorts := (Sort.sorts spec ++ entries)%list |}.
Proof.
  intros H. revert spec.
  induction H as [| sort_str [f d] sorts entries Hp _ IH]; intros spec.
  - simpl. rewrite app_nil_r. destruct spec; reflexivity.
  - cbn [SortParser.parse_each]. unfold parses_to in Hp. rewrite Hp.
    cbn [bind Sort.sorts]. rewrite IH. unfold Sort.add_sort.
    cbn [Sort.sorts Sort.field Sort.direction].
    rewrite <- app_assoc. reflexivity.
Qed.

(** The multi-entry sort grammar keeps every entry, in input order,
    duplicates of a field included. *)
Theorem parse_multiple_sorts_in_order (sort_str : string)
  (sorts : list string) (entries : list Sort.SortSpecification) :
  Forall2 parses_to (sort_str :: sorts) entries ->
  SortParser.parse_multiple_sorts (sort_str :: sorts)
  = Ok (Some {| Sort.sorts := entries |}).
Proof.
  intros H. unfold SortParser.parse_multiple_sorts.
  rewrite (parse_each_append _ entries Sort.empty H).
  inversion H; subst. reflexivity.
Qed.

Lemma parse_multiple_sorts_in_order_witness :
  SortParser.parse_multiple_sorts ["created_at,desc"; "name"; "name,desc"]
  = Ok (Some {| Sort.sorts :=
                  [ {| Sort.field := "created_at";
                       Sort.direction := Sort.DESC |};
                    {| Sort.field := "name"; Sort.direction := Sort.ASC |};
                    {| Sort.field := "name"; Sort.direction := Sort.DESC |} ]
             |}).
Proof.
  apply (parse_multiple_sorts_in_order "created_at,desc"
           ["name"; "name,desc"]).
  repeat constructor.
Defined.

(** ** Sample cases *)

Lemma sql_translate_filter_field_witness :
  SQLAlchemySpecificationTranslator._translate_filter
    {| SQLAlchemySpecificationTranslator.__name__ := "User";
       SQLAlchemySpecificationTranslator.class_attributes := ["id"; "name"] |}
    (filter_to_expression (EqualSpecification "nickname" (VInt 1)))
  = Raise (ValueError "Field 'nickname' not found in model User")
  /\ SQLAlchemySpecificationTranslator._translate_filter
       {| SQLAlchemySpecificationTranslator.__name__ := "User";
          SQLAlchemySpecificationTranslator.class_attributes :=
            ["id"; "name"] |}
       (filter_to_expression (LikeSpecification "name" (VStr "ana")))
     = Ok (SQLAlchemySpecificationTranslator.SqlILike "name" "%ana%").
Proof.
  split.
  - apply (proj1 (sql_translate_filter_field
                    {| SQLAlchemySpecificationTranslator.__name__ := "User";
                       SQLAlchemySpecificationTranslator.class_attributes :=
                         ["id"; "name"] |}
                    (EqualSpecification "nickname" (VInt 1)))).
    reflexivity.
  - reflexivity.
Defined.

(** The sample cases of the specification, on entities with attributes. *)
Example sample_cases :
  parse_and_evaluate (FiltersList ["age,gte,18"])
    (py_object [("age", VInt 20)]) = Ok (Some true)
  /\ parse_and_evaluate (FiltersList ["age,gte,18"])
       (py_object [("age", VInt 15)]) = Ok (Some false)
  /\ parse_and_evaluate (FiltersList ["age,gte,18,and"; "name,like,ana"])
       (py_object [("age", VInt 20); ("name", VStr "Ana Smith")])
     = Ok (Some true)
  /\ parse_and_evaluate (FiltersList ["age,gte,18,and"; "name,like,ana"])
       (py_object [("age", VInt 20); ("name", VStr "Bob")])
     = Ok (Some false)
  /\ parse_and_evaluate (FiltersDict [("status__in", "active|pending")])
       (py_object [("status", VStr "active")]) = Ok (Some true)
  /\ parse_and_evaluate (FiltersDict [("status__in", "active|pending")])
       (py_object [("status", VStr "closed")]) = Ok (Some false)
  /\ parse_and_evaluate (FiltersDict [("age__gte", "25"); ("is_active", "true")])
       (py_object [("age", VInt 30); ("is_active", VBool true)])
     = Ok (Some true)
  /\ FilterParser.parse_filters (FiltersList ["age,foo,18"])
     = Raise (FilterParser.unsupported_operator "foo")
  /\ FilterParser.parse_filters (FiltersList ["age,gte"])
     = Raise (FilterParser.invalid_filter "age,gte")
  /\ FilterParser.parse_filters (FiltersList ["age,gte,18,xor"])
     = Raise (FilterParser.unsupported_connector "xor")
  /\ FilterParser.parse_filters (FiltersList []) = Ok None.
Proof. repeat split; vm_compute; reflexivity. Qed.

(** ** Evaluation of trees, and what the parsers build *)









Example in_scalar_raises :
  is_satisfied_by (Filter (InSpecification "age" (VInt 3)))
    (py_object [("age", VInt 3)]) = Raise TypeError.
Proof. reflexivity. Qed.

(** ** What the parsers build *)

Lemma create_supported (f o : string) (v : pyval) :
  PyStr.mem o SpecificationFactory.supported_operators = true ->
  (o = "between" -> exists a b, SpecificationFactory.pair_items v = Some (a, b)) ->
  exists s, SpecificationFactory.create f o v = Ok s.
Proof.
  intros H Hb.
  operator_cases o H; try (eexists; reflexivity).
  destruct (Hb eq_refl) as [a [b Hab]].
  unfold SpecificationFactory.create. cbn. rewrite Hab.
  eexists; reflexivity.
Qed.

Lemma create_raises (f o : string) (v : pyval) (e : exn) :
  SpecificationFactory.create f o v = Raise e ->
  (PyStr.mem o SpecificationFactory.supported_operators = false
   /\ e = ValueError
            ("Unsupported operator: " ++ o
             ++ ". Supported: ['eq', 'ne', 'lt', 'lte', 'gt', 'gte', 'like', 'in', 'between', 'is_null', 'is_not_null']"))
  \/ (o = "between" /\ SpecificationFactory.pair_items v = None
      /\ e = ValueError "BETWEEN operator requires list/tuple with 2 values").
Proof.
  destruct (PyStr.mem o SpecificationFactory.supported_operators) eqn:H.
  - operator_cases o H; try discriminate.
    unfold SpecificationFactory.create. cbn.
    destruct (SpecificationFactory.pair_items v) as [[a b] |]; [discriminate |].
    intros [= <-]. right. repeat split.
  - intros He. left. split; [reflexivity |].
    unfold SpecificationFactory.create in He.
    rewrite assoc_not_mem in He by exact H.
    injection He as <-. reflexivity.
Qed.

(** The outcomes of [SpecificationFactory.create]: it returns a leaf with
    the field and the operator it was given exactly when the operator is one
    of the eleven supported ones and, for [between], the value is a list or
    a tuple of two items; the leaf holds the two items for [between], [None]
    for the two null operators and the value otherwise. Each failure is a
    [ValueError] with its own message. *)
Theorem create_outcomes (f o : string) (v : pyval) :
  match SpecificationFactory.create f o v with
  | Ok s =>
      PyStr.mem o SpecificationFactory.supported_operators = true
      /\ field s = f /\ operator s = o
      /\ value s
         = (if String.eqb o "between" then
              match SpecificationFactory.pair_items v with
              | Some (a, b) => VList [a; b]
              | None => v
              end
            else if PyStr.mem o ["is_null"; "is_not_null"] then VNone
            else v)
      /\ (o = "between" -> SpecificationFactory.pair_items v <> None)
  | Raise e =>
      (PyStr.mem o SpecificationFactory.supported_operators = false
       /\ e = ValueError
                ("Unsupported operator: " ++ o
                 ++ ". Supported: ['eq', 'ne', 'lt', 'lte', 'gt', 'gte', 'like', 'in', 'between', 'is_null', 'is_not_null']"))
      \/ (o = "between" /\ SpecificationFactory.pair_items v = None
          /\ e = ValueError "BETWEEN operator requires list/tuple with 2 values")
  end.
Proof.
  destruct (SpecificationFactory.create f o v) as [s | e] eqn:E.
  - destruct (create_operator f o v s E) as [Ho [Hf Hm]].
    split; [exact Hm |]. split; [exact Hf |]. split; [exact Ho |].
    pose proof Hm as H.
    operator_cases o H; cbn in E;
      try (injection E as <-; split; [reflexivity | discriminate]).
    destruct (SpecificationFactory.pair_items v) as [[a b] |];
      [| discriminate E].
    injection E as <-. split; [reflexivity | discriminate].
  - exact (create_raises f o v e E).
Qed.

Lemma mapM_length {A B : Type} (f : A -> result B) (l : list A) (r : list B) :
  mapM f l = Ok r -> List.length r = List.length l.
Proof.
  intros H. apply mapM_Forall2 in H.
  induction H; simpl; [reflexivity | f_equal; assumption].
Qed.

Lemma mapM_raises {A B : Type} (f : A -> result B) (l : list A) (e : exn) :
  mapM f l = Raise e -> exists a, In a l /\ f a = Raise e.
Proof.
  induction l as [| a l IH]; simpl; [discriminate |].
  destruct (f a) as [b | e0] eqn:E; simpl.
  - destruct (mapM f l) as [bs | e1]; simpl; [discriminate |].
    intros [= <-]. destruct (IH eq_refl) as [a' [Hin Ha]].
    exists a'. split; [right; exact Hin | exact Ha].
  - intros [= <-]. exists a. split; [left; reflexivity | exact E].
Qed.


Lemma convert_single_value_raises (token : string) (e : exn) :
  FilterParser._convert_single_value token = Raise e -> parser_failure e.
Proof.
  unfold FilterParser._convert_single_value.
  destruct (PyStr.mem (PyStr.lower token) ["null"; "none"; ""]);
    [discriminate |].
  destruct (PyStr.mem (PyStr.lower token) ["true"; "false"]);
    [discriminate |].
  destruct (PyStr.isdigit token
            || PyStr.startswith token "-" && PyStr.isdigit (PyStr.tail token))%bool.
  - unfold FilterParser.py_int.
    destruct (PyNum.int_of_string token) eqn:E; [discriminate |].
    intros [= <-]. apply unreadable_integer. exact E.
  - destruct (if PyStr.contains "." token then PyNum.float_of_string token
              else None); discriminate.
Qed.

Lemma parse_value_raises (value_str operator : string) (e : exn) :
  FilterParser._parse_value value_str operator = Raise e -> parser_failure e.
Proof.
  unfold FilterParser._parse_value.
  destruct (PyStr.mem operator ["is_null"; "is_not_null"]); [discriminate |].
  destruct (String.eqb operator "in").
  - destruct (mapM _ _) as [l | e0] eqn:E; simpl; [discriminate |].
    intros [= <-]. apply mapM_raises in E. destruct E as [a [_ Ha]].
    exact (convert_single_value_raises _ _ Ha).
  - destruct (String.eqb operator "between").
    + destruct (Nat.eqb (List.length (PyStr.split "|" value_str)) 2) eqn:En;
        simpl.
      * destruct (mapM _ _) as [l | e0] eqn:E; simpl; [discriminate |].
        intros [= <-]. apply mapM_raises in E. destruct E as [a [_ Ha]].
        exact (convert_single_value_raises _ _ Ha).
      * intros [= <-]. apply between_arity_failure.
        apply Nat.eqb_neq. exact En.
    + apply convert_single_value_raises.
Qed.

Lemma parse_value_pair (value_str : string) (pv : pyval) :
  FilterParser._parse_value value_str "between" = Ok pv ->
  exists a b, pv = VList [a; b].
Proof.
  unfold FilterParser._parse_value. cbn.
  destruct (Nat.eqb (List.length (PyStr.split "|" value_str)) 2) eqn:En;
    simpl; [| discriminate].
  destruct (mapM _ _) as [l | e0] eqn:E; simpl; [| discriminate].
  intros [= <-]. apply mapM_length in E. apply Nat.eqb_eq in En.
  rewrite En in E.
  destruct l as [| a [| b [| x l]]]; try discriminate E.
  exists a, b. reflexivity.
Qed.

Lemma parse_value_list (value_str : string) (pv : pyval) :
  FilterParser._parse_value value_str "in" = Ok pv -> exists l, pv = VList l.
Proof.
  unfold FilterParser._parse_value. cbn.
  destruct (mapM _ _) as [l | e0]; simpl; [| discriminate].
  intros [= <-]. exists l. reflexivity.
Qed.

(** After [_parse_value], the factory accepts the value. *)
Lemma create_parsed (f o value_str : string) (pv : pyval) :
  PyStr.mem o FilterParser.supported_operators = true ->
  FilterParser._parse_value value_str o = Ok pv ->
  exists s, SpecificationFactory.create f o pv = Ok s
            /\ container_value s = true.
Proof.
  intros Hm Hp.
  destruct (create_supported f o pv Hm) as [s Hs].
  - intros ->. destruct (parse_value_pair _ _ Hp) as [a [b ->]].
    exists a, b. reflexivity.
  - exists s. split; [exact Hs |].
    destruct (create_operator f o pv s Hs) as [Ho _].
    destruct s; try reflexivity.
    simpl in Ho. subst o.
    destruct (parse_value_list _ _ Hp) as [l ->].
    cbn in Hs. injection Hs as _ <-. reflexivity.
Qed.

Lemma split_scan_no_split (sep : string) (s : string) (skip : nat)
  (cur : string) :
  exists a, PyStr.split_scan sep (Some O) skip cur s = [a].
Proof.
  revert skip cur. induction s as [| c s IH]; intros skip cur; simpl.
  - eexists; reflexivity.
  - destruct skip as [| k]; apply IH.
Qed.

Lemma split_once (sep key : string) (cur : string) :
  PyStr.contains sep key = true ->
  key <> EmptyString ->
  exists a b, PyStr.split_scan sep (Some 1%nat) O cur key = [a; b].
Proof.
  revert cur. induction key as [| c key IH]; intros cur Hc Hne.
  - contradiction.
  - cbn [PyStr.split_scan PyStr.can_split andb].
    cbn [PyStr.contains] in Hc.
    destruct (prefix sep (String c key)) eqn:Hp.
    + cbn [PyStr.after_split Nat.pred].
      destruct (split_scan_no_split sep key
                  (Nat.pred (String.length sep)) EmptyString) as [b Hb].
      rewrite Hb. eexists; eexists; reflexivity.
    + cbn [orb] in Hc. destruct key as [| c' key'].
      * simpl in Hc. destruct sep; discriminate.
      * apply IH; [exact Hc | discriminate].
Qed.

Lemma split_dunder (key : string) :
  PyStr.contains "__" key = true ->
  exists a b, PyStr.split_max "__" 1 key = [a; b].
Proof.
  intros H. apply split_once; [exact H |].
  intros ->. discriminate H.
Qed.

Lemma parse_single_filter_raises (filter_str : string) (e : exn) :
  FilterParser._parse_single_filter filter_str = Raise e -> parser_failure e.
Proof.
  unfold FilterParser._parse_single_filter.
  destruct (PyStr.split_max "," 3 filter_str) as [| p0 [| p1 [| p2 rest]]] eqn:Es;
    try (intros [= <-]; apply malformed_entry; rewrite Es; simpl; lia).
  cbv zeta.
  destruct (PyStr.mem (PyStr.lower (PyStr.strip p1))
              FilterParser.supported_operators) eqn:Hm; cbn [negb].
  2: { intros [= <-]. apply unknown_operator. exact Hm. }
  assert (Hrest : forall k : result (FilterSpecification * option string),
             (forall x, k = Raise x -> parser_failure x) ->
             (match
                match rest with
                | p3 :: _ => Some (PyStr.lower (PyStr.strip p3))
                | [] => None
                end
              with
              | Some c =>
                  if (FilterParser.truthy
                        match rest with
                        | p3 :: _ => Some (PyStr.lower (PyStr.strip p3))
                        | [] => None
                        end
                      && negb (PyStr.mem c FilterParser.supported_connectors))%bool
                  then Raise (FilterParser.unsupported_connector c)
                  else Ok tt
              | None => Ok tt
              end ;;; k) = Raise e -> parser_failure e).
  { intros k Hk. destruct rest as [| p3 rest'].
    - simpl. apply Hk.
    - set (c := PyStr.lower (PyStr.strip p3)).
      destruct (FilterParser.truthy (Some c)
                && negb (PyStr.mem c FilterParser.supported_connectors))%bool
        eqn:Hc.
      + simpl. intros [= <-]. apply unknown_connector.
        apply andb_prop in Hc. destruct Hc as [Ht Hn].
        unfold FilterParser.truthy in Ht.
        unfold PyStr.mem, FilterParser.supported_connectors in Hn |- *.
        cbn [existsb] in Hn |- *.
        destruct (String.eqb c "and"); [discriminate Hn |].
        destruct (String.eqb c "or"); [discriminate Hn |].
        destruct c; [discriminate Ht | reflexivity].
      + simpl. apply Hk. }
  apply Hrest. intros x.
  destruct (FilterParser._parse_value (PyStr.strip p2)
              (PyStr.lower (PyStr.strip p1))) as [pv | e0] eqn:Ev; simpl.
  - destruct (create_parsed (PyStr.strip p0) _ _ pv Hm Ev) as [s [Hs _]].
    rewrite Hs. simpl. discriminate.
  - intros [= <-]. exact (parse_value_raises _ _ _ Ev).
Qed.


Lemma parse_item_cases (item : string * string) :
  exists name operator : string,
    FilterParser.parse_item item
    = (if negb (PyStr.mem operator FilterParser.supported_operators)
       then Raise (FilterParser.unsupported_operator operator)
       else
         parsed_value <- FilterParser._parse_value (snd item) operator ;;
         spec <- SpecificationFactory.create name operator parsed_value ;;
         Ok (Filter spec)).
Proof.
  destruct item as [key raw]. unfold FilterParser.parse_item.
  destruct (PyStr.contains "__" key) eqn:Hc.
  - destruct (split_dunder key Hc) as [a [b Hs]]. rewrite Hs.
    cbn [bind snd].
    exists a,
      match assoc (PyStr.lower b) FilterParser.operator_mapping with
      | Some o => o
      | None => PyStr.lower b
      end.
    reflexivity.
  - cbn [bind snd]. exists key, "eq". reflexivity.
Qed.

Lemma parse_item_raises (item : string * string) (e : exn) :
  FilterParser.parse_item item = Raise e -> parser_failure e.
Proof.
  destruct (parse_item_cases item) as [name [operator ->]].
  destruct (PyStr.mem operator FilterParser.supported_operators) eqn:Hm;
    cbn [negb].
  - destruct (FilterParser._parse_value (snd item) operator)
      as [pv | e0] eqn:Ev; simpl.
    + destruct (create_parsed name _ _ pv Hm Ev) as [s [Hs _]].
      rewrite Hs. simpl. discriminate.
    + intros [= <-]. exact (parse_value_raises _ _ _ Ev).
  - intros [= <-]. apply unknown_operator. exact Hm.
Qed.


Lemma kept_connectors_valid (parsed : list (FilterSpecification * option string)) :
  Forall connector_valid parsed ->
  Forall (fun c => c = "and" \/ c = "or")
    (kept_connectors (map snd parsed)).
Proof.
  induction 1 as [| [s c] parsed Hv _ IH]; [constructor |].
  cbn [map snd kept_connectors].
  destruct c as [c |]; [| exact IH].
  destruct (FilterParser.truthy (Some c)) eqn:Ht; [| exact IH].
  constructor; [| exact IH].
  destruct (Hv Ht) as [E | E]; simpl in E; injection E as ->; auto.
Qed.

Lemma zip_fold_leaves (fs : list FilterSpecification)
  (connectors : list string) (acc : Specification) :
  Forall (fun c => c = "and" \/ c = "or") connectors ->
  leaves (zip_fold acc connectors (map Filter fs)) = (leaves acc ++ fs)%list
  /\ left_deep (zip_fold acc connectors (map Filter fs)) = left_deep acc.
Proof.
  revert connectors acc. induction fs as [| f fs IH]; intros connectors acc Hv.
  - simpl. rewrite app_nil_r. split; reflexivity.
  - cbn [map zip_fold].
    assert (Hstep :
              apply_connector
                match connectors with c :: _ => c | [] => "and" end acc
                (Filter f) = AndSpecification acc (Filter f)
              \/ apply_connector
                   match connectors with c :: _ => c | [] => "and" end acc
                   (Filter f) = OrSpecification acc (Filter f)).
    { destruct Hv as [| c cs [-> | ->] _]; [left | left | right]; reflexivity. }
    assert (Hv' : Forall (fun c => c = "and" \/ c = "or") (tl connectors)).
    { destruct Hv; [constructor | assumption]. }
    destruct (IH (tl connectors)
                (apply_connector
                   match connectors with c :: _ => c | [] => "and" end acc
                   (Filter f)) Hv') as [Hl Hd].
    rewrite Hl, Hd.
    destruct Hstep as [-> | ->]; simpl; rewrite <- app_assoc; split;
      reflexivity.
Qed.

Lemma parse_entries_raises (entries : list string) (e : exn) :
  mapM FilterParser._parse_single_filter entries = Raise e ->
  FilterParser.parse_entries entries = Raise e.
Proof.
  induction entries as [| x entries IH]; simpl; [discriminate |].
  destruct (FilterParser._parse_single_filter x) as [[s c] | e0]; simpl.
  - destruct (mapM FilterParser._parse_single_filter entries) as [ps | e1];
      simpl; [discriminate |].
    intros [= <-]. rewrite (IH eq_refl). reflexivity.
  - intros [= <-]. reflexivity.
Qed.

Lemma parse_list_filters_raises (entries : list string) (e : exn) :
  mapM FilterParser._parse_single_filter entries = Raise e ->
  FilterParser.parse_filters (FiltersList entries) = Raise e.
Proof.
  intros H. pose proof (parse_entries_raises entries e H) as He.
  destruct entries as [| x entries]; [discriminate H |].
  cbn [FilterParser.parse_filters FilterParser._parse_list_filters].
  rewrite He. reflexivity.
Qed.

Lemma parse_list_filters_ok (entries : list string)
  (parsed : list (FilterSpecification * option string)) :
  mapM FilterParser._parse_single_filter entries = Ok parsed ->
  entries <> [] ->
  exists s : Specification,
    FilterParser.parse_filters (FiltersList entries) = Ok (Some s)
    /\ leaves s = map fst parsed
    /\ left_deep s = true.
Proof.
  intros Hp Hne.
  pose proof (kept_connectors_valid parsed
                (parsed_connectors_valid entries parsed Hp)) as Hv.
  pose proof (parse_entries_mapM entries parsed Hp) as He.
  destruct entries as [| e entries]; [contradiction |].
  cbn [FilterParser.parse_filters FilterParser._parse_list_filters].
  rewrite He. cbn [bind].
  destruct parsed as [| [s0 c0] rest].
  - apply mapM_Forall2 in Hp. inversion Hp.
  - cbn [map fst]. destruct rest as [| [s1 c1] rest].
    + exists (Filter s0). repeat split.
    + cbn [map fst]. unfold FilterParser._combine_specifications.
      eexists. split; [reflexivity |].
      cbn [List.length Nat.sub].
      change (Filter s0 :: Filter s1 :: map (fun p => Filter (fst p)) rest)
        with ([Filter s0]
                ++ map (fun p => Filter (fst p)) ((s1, c1) :: rest))%list.
      change (S (List.length (map (fun p => Filter (fst p)) rest)))
        with (List.length
                (map (fun p : FilterSpecification * option string =>
                        Filter (fst p)) ((s1, c1) :: rest))).
      change (snd (s0, c0) :: snd (s1, c1) :: map snd rest)
        with (map snd ((s0, c0) :: (s1, c1) :: rest)).
      rewrite (combine_loop [Filter s0]
                 (map (fun p => Filter (fst p)) ((s1, c1) :: rest))
                 (kept_connectors (map snd ((s0, c0) :: (s1, c1) :: rest)))
                 (Filter s0) 0 eq_refl).
      cbn [skipn].
      rewrite <- (map_map fst Filter).
      exact (zip_fold_leaves (map fst ((s1, c1) :: rest)) _ (Filter s0) Hv).
Qed.

(** The list syntax, entry by entry: when every entry parses, the tree has
    one leaf per entry, in the order of the entries, and each [AND] or [OR]
    node has the next entry as its right operand; otherwise the failure of
    the first entry that does not parse is raised. *)
Theorem list_filters_entry_by_entry (entries : list string) :
  entries <> [] ->
  match mapM FilterParser._parse_single_filter entries with
  | Ok parsed =>
      exists s : Specification,
        FilterParser.parse_filters (FiltersList entries) = Ok (Some s)
        /\ leaves s = map fst parsed
        /\ left_deep s = true
  | Raise e => FilterParser.parse_filters (FiltersList entries) = Raise e
  end.
Proof.
  intros Hne.
  destruct (mapM FilterParser._parse_single_filter entries) as [parsed | e]
    eqn:E.
  - exact (parse_list_filters_ok entries parsed E Hne).
  - exact (parse_list_filters_raises entries e E).
Qed.

Lemma list_filters_entry_by_entry_witness :
  (exists s : Specification,
      FilterParser.parse_filters
        (FiltersList ["a,eq,1"; "b,in,x|y,or"; "c,is_null,"]) = Ok (Some s)
      /\ leaves s
         = [EqualSpecification "a" (VInt 1);
            InSpecification "b" (VList [VStr "x"; VStr "y"]);
            IsNullSpecification "c"]
      /\ left_deep s = true)
  /\ FilterParser.parse_filters (FiltersList ["a,eq,1"; "b,eq"; "c,zz,3"])
     = Raise (FilterParser.invalid_filter "b,eq").
Proof.
  split.
  - apply (list_filters_entry_by_entry
             ["a,eq,1"; "b,in,x|y,or"; "c,is_null,"]).
    discriminate.
  - apply (list_filters_entry_by_entry ["a,eq,1"; "b,eq"; "c,zz,3"]).
    discriminate.
Defined.

Lemma parse_dict_filters_raises (d : list (string * string)) (e : exn) :
  mapM FilterParser.parse_item d = Raise e ->
  FilterParser.parse_filters (FiltersDict d) = Raise e.
Proof.
  intros H. destruct d as [| item d]; [discriminate H |].
  cbn [FilterParser.parse_filters FilterParser._parse_dict_filters].
  rewrite H. reflexivity.
Qed.

Lemma parse_filters_raises (f : filters) (e : exn) :
  FilterParser.parse_filters f = Raise e -> parser_failure e.
Proof.
  destruct f as [entries | d].
  - intros H.
    destruct (mapM FilterParser._parse_single_filter entries)
      as [parsed | e0] eqn:E.
    + destruct entries as [| x entries]; [discriminate H |].
      destruct (parse_list_filters_ok _ parsed E) as [s [Hs _]];
        [discriminate |].
      rewrite Hs in H. discriminate H.
    + rewrite (parse_list_filters_raises entries e0 E) in H.
      injection H as <-.
      apply mapM_raises in E. destruct E as [x [_ Hx]].
      exact (parse_single_filter_raises x e0 Hx).
  - intros H.
    destruct (mapM FilterParser.parse_item d) as [specs | e0] eqn:E.
    + destruct d as [| item d]; [discriminate H |].
      cbn [FilterParser.parse_filters FilterParser._parse_dict_filters] in H.
      rewrite E in H. destruct specs; discriminate H.
    + rewrite (parse_dict_filters_raises d e0 E) in H.
      injection H as <-.
      apply mapM_raises in E. destruct E as [x [_ Hx]].
      exact (parse_item_raises x e0 Hx).
Qed.








(** ** The generic expression and the combining loop *)

Lemma combine_specifications_zip (s : Specification)
  (rest : list Specification) (connectors : list string) :
  FilterParser._combine_specifications (s :: rest) connectors
  = Some (zip_fold s connectors rest).
Proof.
  unfold FilterParser._combine_specifications.
  destruct rest as [| s1 rest]; [reflexivity |].
  f_equal. cbn [List.length Nat.sub].
  change (s :: s1 :: rest) with ([s] ++ (s1 :: rest))%list.
  exact (combine_loop [s] (s1 :: rest) connectors s 0 eq_refl).
Qed.

Lemma zip_fold_valid (rest : list Specification) (connectors : list string)
  (acc : Specification) :
  Forall (fun c => c = "and" \/ c = "or") connectors ->
  leaves (zip_fold acc connectors rest)
  = (leaves acc ++ flat_map leaves rest)%list.
Proof.
  revert connectors acc. induction rest as [| s rest IH];
    intros connectors acc Hv.
  - simpl. rewrite app_nil_r. reflexivity.
  - cbn [zip_fold flat_map].
    assert (Hv' : Forall (fun c => c = "and" \/ c = "or") (tl connectors)).
    { destruct Hv; [constructor | assumption]. }
    rewrite (IH (tl connectors) _ Hv').
    destruct Hv as [| c cs [-> | ->] _]; simpl; rewrite <- app_assoc;
      reflexivity.
Qed.

(** [_combine_specifications], called on its own: the indexed loop is the
    walk that joins the running result and the next specification with the
    connector at the index before it, [and] when the connectors have run
    out; with connectors that are all [and] or [or] every specification is
    kept, in order; and a specification whose connector is neither is left
    out without a failure. *)
Theorem combine_specifications_walk :
  (forall connectors : list string,
      FilterParser._combine_specifications [] connectors = None)
  /\ (forall (s : Specification) (rest : list Specification)
             (connectors : list string),
         FilterParser._combine_specifications (s :: rest) connectors
         = Some (zip_fold s connectors rest))
  /\ (forall (s : Specification) (rest : list Specification)
             (connectors : list string),
         Forall (fun c => c = "and" \/ c = "or") connectors ->
         exists r : Specification,
           FilterParser._combine_specifications (s :: rest) connectors
           = Some r
           /\ leaves r = flat_map leaves (s :: rest))
  /\ (forall (a b : Specification) (connector : string)
             (connectors : list string),
         connector <> "and" -> connector <> "or" ->
         FilterParser._combine_specifications [a; b] (connector :: connectors)
         = Some a).
Proof.
  split; [reflexivity |]. split; [exact combine_specifications_zip |]. split.
  - intros s rest connectors Hv. exists (zip_fold s connectors rest).
    split; [apply combine_specifications_zip |].
    apply (zip_fold_valid rest connectors s Hv).
  - intros a b connector connectors Hand Hor.
    rewrite combine_specifications_zip. cbn [zip_fold].
    unfold apply_connector.
    destruct (String.eqb_spec connector "and") as [E | _]; [contradiction |].
    destruct (String.eqb_spec connector "or") as [E | _]; [contradiction |].
    reflexivity.
Qed.

Lemma filter_to_expression_injective (f g : FilterSpecification) :
  concrete f = true -> concrete g = true ->
  filter_to_expression f = filter_to_expression g -> f = g.
Proof.
  unfold filter_to_expression.
  destruct f, g; simpl; intros Hf Hg H; try discriminate Hf;
    try discriminate Hg; try discriminate H;
    injection H as; subst; reflexivity.
Qed.

Lemma to_expression_inj (s t : Specification) :
  forallb concrete (leaves s) = true ->
  forallb concrete (leaves t) = true ->
  to_expression s = to_expression t ->
  s = t.
Proof.
  revert t. induction s as [f | l IHl r IHr | l IHl r IHr | s IHs];
    intros t Hs Ht H; destruct t as [g | l' r' | l' r' | t'];
    cbn [to_expression] in H; try discriminate H;
    try (unfold filter_to_expression in H; discriminate H).
  - f_equal. cbn in Hs, Ht. rewrite andb_true_r in Hs, Ht.
    exact (filter_to_expression_injective f g Hs Ht H).
  - cbn [leaves] in Hs, Ht. rewrite forallb_app in Hs, Ht.
    apply andb_prop in Hs, Ht. destruct Hs as [Hs1 Hs2], Ht as [Ht1 Ht2].
    injection H as H1 H2.
    rewrite (IHl l' Hs1 Ht1 H1), (IHr r' Hs2 Ht2 H2). reflexivity.
  - cbn [leaves] in Hs, Ht. rewrite forallb_app in Hs, Ht.
    apply andb_prop in Hs, Ht. destruct Hs as [Hs1 Hs2], Ht as [Ht1 Ht2].
    injection H as H1 H2.
    rewrite (IHl l' Hs1 Ht1 H1), (IHr r' Hs2 Ht2 H2). reflexivity.
  - cbn [leaves] in Hs, Ht. injection H as H1.
    rewrite (IHs t' Hs Ht H1). reflexivity.
Qed.

(** [to_expression] loses nothing on the concrete classes: two trees whose
    leaves are of those classes and whose expressions are equal are the
    same tree. A leaf of the base class is another matter: it has the
    expression of the concrete leaf with its operator, and is evaluated by
    equality whatever the operator. *)
Theorem to_expression_injective :
  (forall s t : Specification,
      forallb concrete (leaves s) = true ->
      forallb concrete (leaves t) = true ->
      to_expression s = to_expression t ->
      s = t)
  /\ (forall (f o : string) (v : pyval) (s : FilterSpecification),
         SpecificationFactory.create f o v = Ok s ->
         concrete s = true
         /\ to_expression
              (Filter (PlainFilterSpecification f o (value s)))
            = to_expression (Filter s))
  /\ (forall (f o : string) (v : pyval) (c : candidate),
         is_satisfied_by (Filter (PlainFilterSpecification f o v)) c
         = is_satisfied_by (Filter (EqualSpecification f v)) c).
Proof.
  split; [exact to_expression_inj |]. split.
  - intros f o v s H. destruct (create_operator f o v s H) as [Ho [Hf Hm]].
    split.
    + destruct s; try reflexivity. exfalso. clear Ho Hf.
      operator_cases o Hm; cbn in H; try discriminate H.
      destruct (SpecificationFactory.pair_items v) as [[a b] |];
        discriminate H.
    + cbn [to_expression]. unfold filter_to_expression.
      cbn [field operator value]. rewrite Hf, Ho. reflexivity.
  - intros f o v c. reflexivity.
Qed.

Example plain_leaf_same_expression :
  to_expression (Filter (PlainFilterSpecification "age" "lt" (VInt 3)))
  = to_expression (Filter (LessThanSpecification "age" (VInt 3)))
  /\ is_satisfied_by (Filter (PlainFilterSpecification "age" "lt" (VInt 3)))
       (py_object [("age", VInt 1)]) = Ok false
  /\ is_satisfied_by (Filter (LessThanSpecification "age" (VInt 3)))
       (py_object [("age", VInt 1)]) = Ok true.
Proof. repeat split. Qed.

(** ** The exception classes *)




Lemma domain_init_cases (uuid4_hex utcnow : string) (code : Z)
  (message : string) (http_code : option Z) (kw : kwargs) :
  match DomainException.__init__ uuid4_hex utcnow code message http_code kw with
  | Ok self =>
      11000000 <= code <= 11999999
      /\ self
         = {| BaseKernelException.code := code;
              BaseKernelException.message := message;
              BaseKernelException.http_code :=
                match http_code with Some h => h | None => 400 end;
              BaseKernelException.details :=
                BaseKernelException.or_empty (kw_details kw);
              BaseKernelException.rid :=
                match kw_rid kw with
                | Some r => if PyStr.is_empty r then uuid4_hex else r
                | None => uuid4_hex
                end;
              BaseKernelException.internal_data :=
                BaseKernelException.or_empty (kw_internal_data kw);
              BaseKernelException.timestamp := utcnow |}
  | Raise e =>
      (code < 11000000 \/ 11999999 < code)
      /\ e = ValueError
               ("Domain exception code must be in range 11000000-11999999, got: "
                ++ PyNum.string_of_Z code)
  end.
Proof.
  unfold DomainException.__init__, BaseKernelException.__init__.
  destruct (11000000 <=? code) eqn:Hlo; destruct (code <=? 11999999) eqn:Hhi;
    cbn [negb andb];
    try (split; [lia | reflexivity]).
  apply Z.leb_le in Hlo, Hhi.
  replace (10000000 <=? code) with true by (symmetry; apply Z.leb_le; lia).
  replace (code <=? 99999999) with true by (symmetry; apply Z.leb_le; lia).
  cbn [negb andb]. split; [lia | reflexivity].
Qed.


Lemma domain_code_built (message value_object_type invalid_value : string)
  (code : Z) :
  11000000 <= code <= 11999999 ->
  built (InvalidValueObjectException message value_object_type invalid_value
           code).
Proof.
  intros Hc uuid4_hex utcnow. unfold raised_object.
  unfold InvalidValueObjectException.__init__.
  match goal with
  | |- exists _, Some (DomainException.__init__ ?u ?n ?c ?m ?h ?k) = _ /\ _ =>
      pose proof (domain_init_cases u n c m h k) as H;
      destruct (DomainException.__init__ u n c m h k) as [self | e]
  end.
  - exists self. destruct H as [_ ->].
    split; [reflexivity |].
    unfold BaseKernelException.layer_name, BaseKernelException.layer_code.
    cbn [BaseKernelException.code BaseKernelException.http_code
         BaseKernelException.rid kw_rid no_kwargs].
    pose proof (Z.div_mod code 1000000 ltac:(lia)) as Hdm.
    pose proof (Z.mod_pos_bound code 1000000 ltac:(lia)) as Hmod.
    replace (code / 1000000) with 11 by lia.
    repeat split.
  - exfalso. destruct H as [Hout _]. lia.
Qed.

Lemma parse_sort_raises (sort_str : option string) (e : exn) :
  SortParser.parse_sort sort_str = Raise e ->
  exists direction_str : string,
    PyStr.mem direction_str ["asc"; "desc"] = false
    /\ e = SortParser.invalid_direction direction_str.
Proof.
  unfold SortParser.parse_sort.
  destruct sort_str as [sort_str |]; [| discriminate].
  destruct (PyStr.is_empty sort_str || PyStr.is_empty (PyStr.strip sort_str))%bool;
    [discriminate |].
  destruct (PyStr.is_empty
              (PyStr.strip (hd EmptyString (PyStr.split "," (PyStr.strip sort_str)))));
    [discriminate |].
  destruct (PyStr.split "," (PyStr.strip sort_str)) as [| p0 [| p1 rest]];
    try discriminate.
  set (d := PyStr.lower (PyStr.strip p1)).
  destruct (PyStr.mem d ["asc"; "desc"]) eqn:Hm; cbn [negb].
  - unfold Sort.SortDirection_of.
    unfold PyStr.mem in Hm. cbn [existsb] in Hm.
    destruct (String.eqb d "asc"); [discriminate |].
    destruct (String.eqb d "desc"); [discriminate | discriminate Hm].
  - intros [= <-]. exists d. split; [exact Hm | reflexivity].
Qed.

Lemma parse_each_raises (sorts : list string)
  (spec : Sort.MultipleSortSpecification) (e : exn) :
  SortParser.parse_each sorts spec = Raise e ->
  exists sort_str, In sort_str sorts
                   /\ SortParser.parse_sort (Some sort_str) = Raise e.
Proof.
  revert spec. induction sorts as [| x sorts IH]; intros spec;
    [discriminate |].
  cbn [SortParser.parse_each].
  destruct (SortParser.parse_sort (Some x)) as [single | e0] eqn:E.
  - cbn [bind]. intros H.
    assert (Hrec : exists spec', SortParser.parse_each sorts spec' = Raise e).
    { destruct single as [single |]; [| eexists; exact H].
      destruct (Sort.sorts single); eexists; exact H. }
    destruct Hrec as [spec' H'].
    destruct (IH spec' H') as [y [Hin Hy]].
    exists y. split; [right; exact Hin | exact Hy].
  - cbn [bind]. intros [= <-]. exists x. split; [left; reflexivity | exact E].
Qed.

(** The typed failures of the parsers carry a code of the domain layer:
    their exception objects are built. *)
Theorem typed_failures_are_built :
  (forall (f : filters) (message value_object_type invalid_value : string)
          (code : Z),
      FilterParser.parse_filters f
      = Raise (InvalidValueObjectException message value_object_type
                 invalid_value code) ->
      11003007 <= code <= 11003010
      /\ built (InvalidValueObjectException message value_object_type
                  invalid_value code))
  /\ (forall (sort_str : option string) (e : exn),
         SortParser.parse_sort sort_str = Raise e ->
         (exists direction_str : string,
             PyStr.mem direction_str ["asc"; "desc"] = false
             /\ e = SortParser.invalid_direction direction_str)
         /\ built e)
  /\ (forall (sorts : list string) (e : exn),
         SortParser.parse_multiple_sorts sorts = Raise e ->
         (exists direction_str : string,
             PyStr.mem direction_str ["asc"; "desc"] = false
             /\ e = SortParser.invalid_direction direction_str)
         /\ built e).
Proof.
  assert (Hsort : forall (sort_str : option string) (e : exn),
             SortParser.parse_sort sort_str = Raise e ->
             (exists direction_str : string,
                 PyStr.mem direction_str ["asc"; "desc"] = false
                 /\ e = SortParser.invalid_direction direction_str)
             /\ built e).
  { intros sort_str e H.
    destruct (parse_sort_raises sort_str e H) as [d [Hd ->]].
    split; [exists d; split; [exact Hd | reflexivity] |].
    apply domain_code_built. lia. }
  split; [| split; [exact Hsort |]].
  - intros f message value_object_type invalid_value code H.
    apply parse_filters_raises in H.
    assert (Hc : 11003007 <= code <= 11003010)
      by (inversion H; subst; lia).
    split; [exact Hc | apply domain_code_built; lia].
  - intros sorts e H. unfold SortParser.parse_multiple_sorts in H.
    destruct sorts as [| x sorts]; [discriminate H |].
    destruct (SortParser.parse_each (x :: sorts) Sort.empty) as [spec | e0]
      eqn:E; [discriminate H |].
    cbn [bind] in H. injection H as <-.
    destruct (parse_each_raises _ _ _ E) as [y [_ Hy]].
    exact (Hsort (Some y) e0 Hy).
Qed.

Lemma mem_In (field : string) (l : list string) :
  PyStr.mem field l = true <-> In field l.
Proof.
  unfold PyStr.mem. rewrite existsb_exists. split.
  - intros [x [Hin Hx]]. apply String.eqb_eq in Hx. subst x. exact Hin.
  - intros Hin. exists field. split; [exact Hin | apply String.eqb_refl].
Qed.

(** The two validators accept the fields of the list, and fail on any
    other with a typed failure that carries the field. *)
Theorem validators_accept_allowed_fields (field : string)
  (allowed_fields : list string) :
  match FilterParser.validate_filter_field field allowed_fields with
  | Ok b => b = true /\ In field allowed_fields
  | Raise e =>
      ~ In field allowed_fields
      /\ e = InvalidValueObjectException
               ("Campo de filtro no permitido: '" ++ field
                ++ "'. Campos permitidos: "
                ++ PyVal.py_repr (VList (map VStr allowed_fields)))
               "FilterField" field 11003011
      /\ built e
  end
  /\ match SortParser.validate_sort_field field allowed_fields with
     | Ok b => b = true /\ In field allowed_fields
     | Raise e =>
         ~ In field allowed_fields
         /\ e = InvalidValueObjectException
                  ("Campo de ordenamiento no permitido: '" ++ field
                   ++ "'. Campos permitidos: "
                   ++ PyVal.py_repr (VList (map VStr allowed_fields)))
                  "SortField" field 11003013
         /\ built e
     end.
Proof.
  unfold FilterParser.validate_filter_field,
    SortParser.validate_sort_field.
  destruct (PyStr.mem field allowed_fields) eqn:Hm; cbn [negb].
  - split; (split; [reflexivity | apply mem_In; exact Hm]).
  - assert (Hnot : ~ In field allowed_fields).
    { intros Hin. apply mem_In in Hin. rewrite Hin in Hm. discriminate Hm. }
    split; (split; [exact Hnot |]);
      (split; [reflexivity | apply domain_code_built; lia]).
Qed.

(** ** The leaf translators and the sort translators *)

Section MongoLeaf.

Import MongoDBSpecificationTranslator.




End MongoLeaf.

Section SqlLeaf.

Import SQLAlchemySpecificationTranslator.




(** ** Sorting *)





End SqlLeaf.

(** ** Blank entries and the fields of the sort parser *)

Lemma parse_each_skip (before after : list string) (blank : string)
  (spec : Sort.MultipleSortSpecification) :
  SortParser.parse_sort (Some blank) = Ok None ->
  SortParser.parse_each (before ++ blank :: after) spec
  = SortParser.parse_each (before ++ after) spec.
Proof.
  intros Hb. revert spec. induction before as [| x before IH]; intros spec.
  - cbn [app SortParser.parse_each]. rewrite Hb. reflexivity.
  - cbn [app SortParser.parse_each].
    destruct (SortParser.parse_sort (Some x)) as [[single |] | e];
      cbn [bind]; [| apply IH | reflexivity].
    destruct (Sort.sorts single); apply IH.
Qed.

(** [parse_multiple_sorts] skips an entry without a field: the result is
    the one the other entries give, and [None] when there is no other. *)
Theorem parse_multiple_sorts_skips_blank (before after : list string)
  (blank : string) :
  SortParser.parse_sort (Some blank) = Ok None ->
  SortParser.parse_multiple_sorts (before ++ blank :: after)
  = SortParser.parse_multiple_sorts (before ++ after)
  /\ SortParser.parse_multiple_sorts [blank] = Ok None.
Proof.
  intros Hb. split.
  - unfold SortParser.parse_multiple_sorts.
    destruct (before ++ blank :: after)%list as [| y ys] eqn:E1;
      [destruct before; discriminate E1 |].
    rewrite <- E1. rewrite (parse_each_skip before after blank Sort.empty Hb).
    destruct (before ++ after)%list as [| z zs] eqn:E2; reflexivity.
  - unfold SortParser.parse_multiple_sorts. cbn [SortParser.parse_each].
    rewrite Hb. reflexivity.
Qed.

Lemma parse_multiple_sorts_skips_blank_witness :
  SortParser.parse_multiple_sorts (["name,desc"] ++ " ,asc" :: ["age"])
  = SortParser.parse_multiple_sorts (["name,desc"] ++ ["age"])
  /\ SortParser.parse_multiple_sorts [" ,asc"] = Ok None.
Proof.
  apply (parse_multiple_sorts_skips_blank ["name,desc"] ["age"] " ,asc").
  reflexivity.
Defined.

(** ** The field of a parsed sort *)

Lemma forallb_str_lstrip (p : ascii -> bool) (s : string) :
  PyStr.forallb_str p s = true -> PyStr.forallb_str p (PyStr.lstrip s) = true.
Proof.
  induction s as [| c s IH]; simpl; [reflexivity |].
  intros H. apply andb_prop in H. destruct H as [Hc Hs].
  destruct (PyStr.isspace c); [exact (IH Hs) |].
  simpl. rewrite Hc, Hs. reflexivity.
Qed.

Lemma forallb_str_rstrip (p : ascii -> bool) (s : string) :
  PyStr.forallb_str p s = true -> PyStr.forallb_str p (PyStr.rstrip s) = true.
Proof.
  induction s as [| c s IH]; simpl; [reflexivity |].
  intros H. apply andb_prop in H. destruct H as [Hc Hs].
  destruct (PyStr.isspace c && PyStr.is_empty (PyStr.rstrip s))%bool;
    [reflexivity |].
  simpl. rewrite Hc, (IH Hs). reflexivity.
Qed.

Lemma forallb_str_rev_acc (p : ascii -> bool) (s acc : string) :
  PyStr.forallb_str p (PyStr.rev_acc s acc)
  = (PyStr.forallb_str p s && PyStr.forallb_str p acc)%bool.
Proof.
  revert acc. induction s as [| c s IH]; intros acc; simpl; [reflexivity |].
  rewrite IH. simpl. destruct (p c); simpl.
  - reflexivity.
  - rewrite andb_false_r. reflexivity.
Qed.

Lemma contains_comma (s : string) :
  PyStr.contains "," s = negb (no_comma s).
Proof.
  induction s as [| c s IH]; [reflexivity |].
  cbn [PyStr.contains no_comma PyStr.forallb_str prefix].
  rewrite IH. unfold no_comma.
  destruct (Ascii.ascii_dec "," c) as [<- | Hne].
  - destruct s; reflexivity.
  - destruct (Ascii.eqb_spec c ",") as [-> | _];
      [contradiction Hne; reflexivity | reflexivity].
Qed.

Lemma split_comma_head (s cur p : string) (rest : list string) :
  no_comma cur = true ->
  PyStr.split_scan "," None O cur s = p :: rest ->
  no_comma p = true.
Proof.
  revert cur. induction s as [| c s IH]; intros cur Hcur.
  - cbn. intros [= <- _]. unfold PyStr.rev, no_comma.
    rewrite forallb_str_rev_acc. unfold no_comma in Hcur. rewrite Hcur.
    reflexivity.
  - cbn [PyStr.split_scan PyStr.can_split andb prefix].
    destruct (Ascii.ascii_dec "," c) as [<- | Hne].
    + destruct s; intros [= <- _]; unfold PyStr.rev, no_comma;
        rewrite forallb_str_rev_acc; unfold no_comma in Hcur; rewrite Hcur;
        reflexivity.
    + apply IH. unfold no_comma in *. cbn [PyStr.forallb_str].
      rewrite Hcur.
      destruct (Ascii.eqb_spec c ",") as [-> | _];
        [contradiction Hne; reflexivity | reflexivity].
Qed.

Lemma lstrip_length (s : string) :
  (String.length (PyStr.lstrip s) <= String.length s)%nat.
Proof.
  induction s as [| c s IH]; simpl; [lia |].
  destruct (PyStr.isspace c); simpl; lia.
Qed.

Lemma rstrip_length (s : string) :
  (String.length (PyStr.rstrip s) <= String.length s)%nat.
Proof.
  induction s as [| c s IH]; simpl; [lia |].
  destruct (PyStr.isspace c && PyStr.is_empty (PyStr.rstrip s))%bool;
    simpl; lia.
Qed.

Lemma lstrip_idem (s : string) : PyStr.lstrip (PyStr.lstrip s) = PyStr.lstrip s.
Proof.
  induction s as [| c s IH]; simpl; [reflexivity |].
  destruct (PyStr.isspace c) eqn:E; [exact IH |].
  simpl. rewrite E. reflexivity.
Qed.

Lemma rstrip_idem (s : string) : PyStr.rstrip (PyStr.rstrip s) = PyStr.rstrip s.
Proof.
  induction s as [| c s IH]; simpl; [reflexivity |].
  destruct (PyStr.isspace c && PyStr.is_empty (PyStr.rstrip s))%bool eqn:E;
    [reflexivity |].
  simpl. rewrite IH, E. reflexivity.
Qed.

Lemma lstrip_starts_clean (s : string) :
  starts_clean (PyStr.lstrip s) = true.
Proof.
  induction s as [| c s IH]; simpl; [reflexivity |].
  destruct (PyStr.isspace c) eqn:E; [exact IH |].
  simpl. rewrite E. reflexivity.
Qed.

Lemma starts_clean_lstrip (s : string) :
  starts_clean s = true -> PyStr.lstrip s = s.
Proof.
  destruct s as [| c s]; simpl; [reflexivity |].
  destruct (PyStr.isspace c); [discriminate | reflexivity].
Qed.

Lemma rstrip_starts_clean (s : string) :
  starts_clean s = true -> starts_clean (PyStr.rstrip s) = true.
Proof.
  destruct s as [| c s]; simpl; [reflexivity |].
  destruct (PyStr.isspace c) eqn:E; [discriminate |].
  simpl. rewrite E. intros _. reflexivity.
Qed.

Lemma strip_idem (s : string) : PyStr.strip (PyStr.strip s) = PyStr.strip s.
Proof.
  unfold PyStr.strip.
  rewrite (starts_clean_lstrip (PyStr.rstrip (PyStr.lstrip s)))
    by (apply rstrip_starts_clean, lstrip_starts_clean).
  apply rstrip_idem.
Qed.

Lemma strip_no_comma (s : string) :
  no_comma s = true -> no_comma (PyStr.strip s) = true.
Proof.
  intros H. unfold PyStr.strip, no_comma.
  apply forallb_str_rstrip, forallb_str_lstrip. exact H.
Qed.

Lemma parse_sort_some (sort_str : string)
  (spec : Sort.MultipleSortSpecification) :
  SortParser.parse_sort (Some sort_str) = Ok (Some spec) ->
  exists (f : string) (d : Sort.SortDirection),
    spec = {| Sort.sorts := [ {| Sort.field := f; Sort.direction := d |} ] |}
    /\ f <> EmptyString
    /\ PyStr.strip f = f
    /\ PyStr.contains "," f = false.
Proof.
  unfold SortParser.parse_sort.
  destruct (PyStr.is_empty sort_str || PyStr.is_empty (PyStr.strip sort_str))%bool;
    [discriminate |].
  destruct (PyStr.split "," (PyStr.strip sort_str)) as [| p0 rest] eqn:Es.
  - cbn [hd]. cbn. discriminate.
  - cbn [hd].
    destruct (PyStr.is_empty (PyStr.strip p0)) eqn:Ef; [discriminate |].
    match goal with
    | |- bind ?m _ = _ -> _ => destruct m as [d | e]
    end; cbn [bind]; [| discriminate].
    intros [= <-]. exists (PyStr.strip p0), d.
    split; [reflexivity |].
    split; [intros E; rewrite E in Ef; discriminate Ef |].
    split; [apply strip_idem |].
    rewrite contains_comma. apply negb_false_iff. apply strip_no_comma.
    exact (split_comma_head _ EmptyString p0 rest eq_refl Es).
Qed.

Lemma rev_acc_rev_acc (s a b : string) :
  PyStr.rev_acc (PyStr.rev_acc s a) b = PyStr.rev_acc a (s ++ b).
Proof.
  revert a b. induction s as [| c s IH]; intros a b; simpl; [reflexivity |].
  rewrite IH. reflexivity.
Qed.

Lemma rev_rev (s : string) : PyStr.rev (PyStr.rev s) = s.
Proof.
  unfold PyStr.rev. rewrite rev_acc_rev_acc. simpl.
  induction s as [| c s IH]; simpl; [reflexivity | rewrite IH; reflexivity].
Qed.

Lemma split_scan_no_comma (f cur : string) :
  no_comma f = true ->
  PyStr.split_scan "," None O cur f = [PyStr.rev (PyStr.rev_acc f cur)].
Proof.
  revert cur. induction f as [| c f IH]; intros cur H; [reflexivity |].
  unfold no_comma in H. cbn [PyStr.forallb_str] in H.
  apply andb_prop in H. destruct H as [Hc Hf].
  cbn [PyStr.split_scan PyStr.can_split andb prefix PyStr.rev_acc].
  destruct (Ascii.ascii_dec "," c) as [<- | _]; [discriminate Hc |].
  apply IH. exact Hf.
Qed.

Lemma split_scan_comma (f t cur : string) :
  no_comma f = true ->
  PyStr.split_scan "," None O cur (f ++ String "," t)
  = PyStr.rev (PyStr.rev_acc f cur)
    :: PyStr.split_scan "," None O EmptyString t.
Proof.
  revert cur. induction f as [| c f IH]; intros cur H.
  - cbn. destruct t; reflexivity.
  - unfold no_comma in H. cbn [PyStr.forallb_str] in H.
    apply andb_prop in H. destruct H as [Hc Hf].
    cbn [append PyStr.split_scan PyStr.can_split andb prefix PyStr.rev_acc].
    destruct (Ascii.ascii_dec "," c) as [<- | _]; [discriminate Hc |].
    apply IH. exact Hf.
Qed.

Lemma split_comma_pair (f t : string) :
  no_comma f = true -> no_comma t = true ->
  PyStr.split "," (f ++ String "," t) = [f; t].
Proof.
  intros Hf Ht. unfold PyStr.split.
  rewrite (split_scan_comma f t EmptyString Hf).
  rewrite (split_scan_no_comma t EmptyString Ht).
  change (PyStr.rev_acc f EmptyString) with (PyStr.rev f).
  change (PyStr.rev_acc t EmptyString) with (PyStr.rev t).
  rewrite !rev_rev. reflexivity.
Qed.

Lemma split_comma_single (f : string) :
  no_comma f = true -> PyStr.split "," f = [f].
Proof.
  intros Hf. unfold PyStr.split.
  rewrite (split_scan_no_comma f EmptyString Hf).
  change (PyStr.rev_acc f EmptyString) with (PyStr.rev f).
  rewrite rev_rev. reflexivity.
Qed.

Lemma rstrip_app (s t : string) :
  PyStr.rstrip t = t -> t <> EmptyString -> PyStr.rstrip (s ++ t) = (s ++ t).
Proof.
  intros Ht Hne. induction s as [| c s IH]; [exact Ht |].
  cbn [append PyStr.rstrip]. rewrite IH.
  destruct (s ++ t) eqn:E.
  - destruct s; [contradiction | discriminate E].
  - cbn [PyStr.is_empty]. rewrite andb_false_r. reflexivity.
Qed.

Lemma clean_field (f : string) :
  f <> EmptyString -> PyStr.strip f = f ->
  starts_clean f = true /\ PyStr.rstrip f = f.
Proof.
  intros Hne Hs.
  assert (Hc : starts_clean f = true).
  { rewrite <- Hs. apply rstrip_starts_clean, lstrip_starts_clean. }
  split; [exact Hc |].
  unfold PyStr.strip in Hs. rewrite (starts_clean_lstrip f Hc) in Hs.
  exact Hs.
Qed.

Lemma strip_field_suffix (f t : string) :
  f <> EmptyString -> PyStr.strip f = f ->
  PyStr.rstrip t = t -> t <> EmptyString ->
  PyStr.strip (f ++ t) = (f ++ t).
Proof.
  intros Hne Hs Ht Htne. destruct (clean_field f Hne Hs) as [Hc _].
  unfold PyStr.strip.
  rewrite (starts_clean_lstrip (f ++ t)).
  - apply rstrip_app; assumption.
  - destruct f; [contradiction | exact Hc].
Qed.

Lemma parse_sort_clean (f : string) (d : Sort.SortDirection) :
  f <> EmptyString -> PyStr.strip f = f -> PyStr.contains "," f = false ->
  SortParser.parse_sort (Some (f ++ "," ++ Sort.direction_value d))
  = Ok (Some {| Sort.sorts :=
                  [ {| Sort.field := f; Sort.direction := d |} ] |})
  /\ SortParser.parse_sort (Some f)
     = Ok (Some {| Sort.sorts :=
                     [ {| Sort.field := f; Sort.direction := Sort.ASC |} ] |}).
Proof.
  intros Hne Hs Hc.
  assert (Hnc : no_comma f = true).
  { rewrite contains_comma in Hc. apply negb_false_iff. exact Hc. }
  assert (Hempty : PyStr.is_empty f = false) by (destruct f; [contradiction | reflexivity]).
  split.
  - assert (Hstrip : PyStr.strip (f ++ "," ++ Sort.direction_value d)
                     = f ++ "," ++ Sort.direction_value d).
    { apply strip_field_suffix; try assumption;
        destruct d; [reflexivity | reflexivity | discriminate | discriminate]. }
    unfold SortParser.parse_sort. rewrite Hstrip.
    replace (PyStr.is_empty (f ++ "," ++ Sort.direction_value d)) with false
      by (destruct f; [contradiction | reflexivity]).
    cbn [orb].
    change (f ++ "," ++ Sort.direction_value d)
      with (f ++ String "," (Sort.direction_value d)).
    rewrite (split_comma_pair f (Sort.direction_value d) Hnc)
      by (destruct d; reflexivity).
    cbn [hd]. rewrite Hs, Hempty.
    destruct d; reflexivity.
  - unfold SortParser.parse_sort. rewrite Hs, Hempty. cbn [orb].
    rewrite (split_comma_single f Hnc). cbn [hd]. rewrite Hs, Hempty.
    reflexivity.
Qed.

(** What [parse_sort] returns: the one-entry specifications whose field
    is not empty, has no blank at either end and has no comma. *)
Theorem parse_sort_fields :
  (forall (sort_str : string) (spec : Sort.MultipleSortSpecification),
      SortParser.parse_sort (Some sort_str) = Ok (Some spec) ->
      exists (f : string) (d : Sort.SortDirection),
        spec
        = {| Sort.sorts := [ {| Sort.field := f; Sort.direction := d |} ] |}
        /\ f <> EmptyString
        /\ PyStr.strip f = f
        /\ PyStr.contains "," f = false)
  /\ (forall (f : string) (d : Sort.SortDirection),
         f <> EmptyString -> PyStr.strip f = f ->
         PyStr.contains "," f = false ->
         SortParser.parse_sort (Some (f ++ "," ++ Sort.direction_value d))
         = Ok (Some {| Sort.sorts :=
                         [ {| Sort.field := f; Sort.direction := d |} ] |})
         /\ SortParser.parse_sort (Some f)
            = Ok (Some {| Sort.sorts :=
                            [ {| Sort.field := f;
                                 Sort.direction := Sort.ASC |} ] |})).
Proof.
  split; [exact parse_sort_some | exact parse_sort_clean].
Qed.

(** Round trip: the pairs [to_sort_criteria] gives, each written
    [field,direction], parse back to the specification they came from, as
    long as it is not empty and every field is one [parse_sort] can
    return. *)
Theorem sort_criteria_round_trip (spec : Sort.MultipleSortSpecification) :
  Sort.is_empty spec = false ->
  Forall (fun s => clean (Sort.field s)) (Sort.sorts spec) ->
  SortParser.parse_multiple_sorts
    (map (fun p => fst p ++ "," ++ snd p) (Sort.to_sort_criteria spec))
  = Ok (Some spec).
Proof.
  destruct spec as [sorts]. unfold Sort.is_empty, Sort.to_sort_criteria.
  cbn [Sort.sorts]. intros Hne Hclean. rewrite map_map. cbn [fst snd].
  assert (Hparse :
            Forall2 parses_to
              (map (fun s => Sort.field s ++ "," ++
                               Sort.direction_value (Sort.direction s)) sorts)
              sorts).
  { clear Hne.
    induction Hclean as [| s sorts [H1 [H2 H3]] _ IH]; [constructor |].
    cbn [map]. constructor; [| exact IH].
    unfold parses_to.
    rewrite (proj1 (parse_sort_clean (Sort.field s) (Sort.direction s)
                      H1 H2 H3)).
    destruct s; reflexivity. }
  unfold SortParser.parse_multiple_sorts.
  rewrite (parse_each_append _ sorts Sort.empty Hparse).
  destruct sorts as [| s sorts]; [discriminate Hne |].
  reflexivity.
Qed.

Lemma sort_criteria_round_trip_witness :
  SortParser.parse_multiple_sorts
    (map (fun p => fst p ++ "," ++ snd p)
       (Sort.to_sort_criteria
          {| Sort.sorts :=
               [ {| Sort.field := "created at"; Sort.direction := Sort.DESC |};
                 {| Sort.field := "name"; Sort.direction := Sort.ASC |} ] |}))
  = Ok (Some {| Sort.sorts :=
                  [ {| Sort.field := "created at";
                       Sort.direction := Sort.DESC |};
                    {| Sort.field := "name"; Sort.direction := Sort.ASC |} ] |}).
Proof.
  apply (sort_criteria_round_trip
           {| Sort.sorts :=
                [ {| Sort.field := "created at"; Sort.direction := Sort.DESC |};
                  {| Sort.field := "name"; Sort.direction := Sort.ASC |} ] |}).
  - reflexivity.
  - repeat constructor; discriminate.
Defined.

(** ** The queries of the mock repository *)

Section MockQueries.

Import MockRepository.

Lemma evaluate_expression_any (e1 e2 : candidate) (x : expression) :
  _evaluate_expression e1 x = _evaluate_expression e2 x.
Proof.
  induction x as [f o v | o l IHl r IHr | o s IHs]; cbn.
  - reflexivity.
  - rewrite IHl, IHr. reflexivity.
  - rewrite IHs. reflexivity.
Qed.

Lemma filter_const {A : Type} (p : A -> bool) (b : bool) (l : list A) :
  (forall a, p a = b) -> filter p l = if b then l else [].
Proof.
  intros H. induction l as [| a l IH]; simpl.
  - destruct b; reflexivity.
  - rewrite H, IH. destruct b; reflexivity.
Qed.

(** The evaluator of expressions never reaches its leaf evaluator: every
    dictionary has the key [operator], so the result does not depend on the
    entity, a leaf the factory builds evaluates to [False], and a
    specification that only offers [to_expression] finds every entity or
    none. *)
Theorem evaluate_expression_ignores_entity :
  (forall (entity1 entity2 : candidate) (x : expression),
      _evaluate_expression entity1 x = _evaluate_expression entity2 x)
  /\ (forall (entity : candidate) (f o : string) (v : pyval)
             (s : FilterSpecification),
         SpecificationFactory.create f o v = Ok s ->
         _evaluate_expression entity (filter_to_expression s) = Ok false)
  /\ (forall (values : list candidate) (x : expression),
         find_by_specification values (Some (ExpressionOnly x)) = values
         \/ find_by_specification values (Some (ExpressionOnly x)) = []).
Proof.
  split; [exact evaluate_expression_any |]. split.
  - intros entity f o v s H.
    destruct (create_operator f o v s H) as [Ho [_ Hm]].
    unfold filter_to_expression. cbn. rewrite Ho.
    operator_cases o Hm; reflexivity.
  - intros values x. unfold find_by_specification.
    rewrite (filter_const _
               (_matches_specification (py_object [])
                  (Some (ExpressionOnly x)))).
    + destruct (_matches_specification (py_object [])
                  (Some (ExpressionOnly x))); [left | right]; reflexivity.
    + intros a. unfold _matches_specification.
      rewrite (evaluate_expression_any a (py_object []) x). reflexivity.
Qed.

(** ** The connectives, as the repository sees them *)

Lemma matches_and (entity : candidate) (a b : Specification) :
  _matches_specification entity (Some (Backbone (AndSpecification a b)))
  = (_matches_specification entity (Some (Backbone a))
     && _matches_specification entity (Some (Backbone b)))%bool.
Proof.
  unfold _matches_specification. cbn [is_satisfied_by].
  destruct (is_satisfied_by a entity) as [[|] | e]; reflexivity.
Qed.

Lemma matches_total (entity : candidate) (a : Specification) (b0 : bool) :
  is_satisfied_by a entity = Ok b0 ->
  forall b : Specification,
    _matches_specification entity (Some (Backbone (NotSpecification a)))
    = negb (_matches_specification entity (Some (Backbone a)))
    /\ _matches_specification entity (Some (Backbone (OrSpecification a b)))
       = (_matches_specification entity (Some (Backbone a))
          || _matches_specification entity (Some (Backbone b)))%bool.
Proof.
  intros H b. unfold _matches_specification. cbn [is_satisfied_by].
  rewrite H. cbn [bind]. destruct b0; split; reflexivity.
Qed.

Lemma matches_raise (entity : candidate) (a : Specification) (e : exn) :
  is_satisfied_by a entity = Raise e ->
  forall b : Specification,
    _matches_specification entity (Some (Backbone a)) = false
    /\ _matches_specification entity (Some (Backbone (NotSpecification a)))
       = false
    /\ _matches_specification entity (Some (Backbone (OrSpecification a b)))
       = false.
Proof.
  intros H b. unfold _matches_specification. cbn [is_satisfied_by].
  rewrite H. repeat split.
Qed.

Lemma filter_filter {A : Type} (p q : A -> bool) (l : list A) :
  filter q (filter p l) = filter (fun a => (p a && q a)%bool) l.
Proof.
  induction l as [| a l IH]; simpl; [reflexivity |].
  destruct (p a); simpl; [destruct (q a) |]; rewrite IH; reflexivity.
Qed.

Lemma count_length (values : list candidate) (spec : option specification) :
  count_by_specification values spec
  = Z.of_nat (List.length (find_by_specification values spec)).
Proof.
  unfold count_by_specification, find_by_specification.
  destruct spec as [spec |].
  - generalize (filter (fun entity => _matches_specification entity (Some spec))
                  values) as l.
    intros l.
    assert (H : forall acc, fold_left Z.add (map (fun _ : candidate => 1) l) acc
                            = acc + Z.of_nat (List.length l)).
    { induction l as [| a l IH]; intros acc; cbn [map fold_left List.length].
      - lia.
      - rewrite IH. lia. }
    rewrite H. lia.
  - rewrite (filter_const _ true); reflexivity.
Qed.

Lemma filter_partition_length {A : Type} (p : A -> bool) (l : list A) :
  (List.length (filter p l) + List.length (filter (fun a => negb (p a)) l))%nat
  = List.length l.
Proof.
  induction l as [| a l IH]; simpl; [reflexivity |].
  destruct (p a); simpl; lia.
Qed.

(** The connectives, as the repository sees them. A conjunction finds the
    entities both operands find, in either order. When the left operand
    never raises on the stored entities, it and its negation split them, and
    a disjunction finds what either operand finds. When it raises on all of
    them, it, its negation and its disjunction with anything find
    nothing. *)
Theorem repository_connectives (values : list candidate)
  (a b : Specification) :
  find_by_specification values (Some (Backbone (and_spec a b)))
  = filter (fun entity => _matches_specification entity (Some (Backbone b)))
      (find_by_specification values (Some (Backbone a)))
  /\ find_by_specification values (Some (Backbone (and_spec a b)))
     = find_by_specification values (Some (Backbone (and_spec b a)))
  /\ ((forall entity : candidate,
          In entity values -> exists b0, is_satisfied_by a entity = Ok b0) ->
      count_by_specification values (Some (Backbone a))
      + count_by_specification values (Some (Backbone (not_spec a)))
      = count_by_specification values None
      /\ find_by_specification values (Some (Backbone (or_spec a b)))
         = filter
             (fun entity =>
                (_matches_specification entity (Some (Backbone a))
                 || _matches_specification entity (Some (Backbone b)))%bool)
             values)
  /\ ((forall entity : candidate,
          In entity values -> exists e, is_satisfied_by a entity = Raise e) ->
      find_by_specification values (Some (Backbone a)) = []
      /\ find_by_specification values (Some (Backbone (not_spec a))) = []
      /\ find_by_specification values (Some (Backbone (or_spec a b))) = []).
Proof.
  unfold and_spec, or_spec, not_spec.
  split; [| split; [| split]].
  - unfold find_by_specification. rewrite filter_filter.
    apply filter_ext. intros entity. apply matches_and.
  - unfold find_by_specification. apply filter_ext. intros entity.
    rewrite !matches_and. apply andb_comm.
  - intros Htotal. split.
    + rewrite !count_length. unfold find_by_specification.
      rewrite (filter_const (fun entity => _matches_specification entity None)
                 true) by reflexivity.
      rewrite <- (filter_partition_length
                    (fun entity =>
                       _matches_specification entity (Some (Backbone a)))
                    values).
      rewrite Nat2Z.inj_add. f_equal. f_equal. f_equal.
      apply filter_ext_in. intros entity Hin.
      destruct (Htotal entity Hin) as [b0 H0].
      exact (proj1 (matches_total entity a b0 H0 b)).
    + unfold find_by_specification. apply filter_ext_in. intros entity Hin.
      destruct (Htotal entity Hin) as [b0 H0].
      exact (proj2 (matches_total entity a b0 H0 b)).
  - intros Hraise.
    assert (Hnone : forall s : Specification,
               (forall entity, In entity values ->
                               _matches_specification entity
                                 (Some (Backbone s)) = false) ->
               find_by_specification values (Some (Backbone s)) = []).
    { intros s Hs. unfold find_by_specification.
      rewrite (filter_ext_in _ (fun _ => false) values Hs).
      apply (filter_const (fun _ => false) false). reflexivity. }
    split; [| split]; apply Hnone; intros entity Hin;
      destruct (Hraise entity Hin) as [e He];
      apply (matches_raise entity a e He b).
Qed.

(** Counting and finding agree: the count is the number of entities found,
    [exists_by_specification] holds exactly when some stored entity
    matches, and without a specification every stored entity is found and
    counted. *)
Theorem repository_counts (values : list candidate)
  (spec : option specification) :
  count_by_specification values spec
  = Z.of_nat (List.length (find_by_specification values spec))
  /\ (exists_by_specification values spec = true
      <-> exists entity : candidate,
            In entity values /\ _matches_specification entity spec = true)
  /\ find_by_specification values None = values
  /\ count_by_specification values None = Z.of_nat (List.length values).
Proof.
  split; [apply count_length |]. split; [| split; [| reflexivity]].
  - unfold exists_by_specification. rewrite count_length.
    unfold find_by_specification. split.
    + intros H. apply Z.ltb_lt in H.
      destruct (filter (fun entity => _matches_specification entity spec)
                  values) as [| entity l] eqn:E; [simpl in H; lia |].
      exists entity.
      apply (proj1 (filter_In
                      (fun entity => _matches_specification entity spec)
                      entity values)).
      rewrite E. left. reflexivity.
    + intros [entity Hin].
      apply (proj2 (filter_In
                      (fun entity => _matches_specification entity spec)
                      entity values)) in Hin.
      apply Z.ltb_lt.
      destruct (filter (fun entity => _matches_specification entity spec)
                  values); [contradiction Hin | simpl; lia].
  - unfold find_by_specification.
    apply (filter_const (fun entity => _matches_specification entity None)
             true). reflexivity.
Qed.

(** ** Pages *)

Lemma slice_nonneg {A : Type} (l : list A) (start size : Z) :
  0 <= start -> 0 <= size ->
  slice l start (start + size)
  = firstn (Z.to_nat size) (skipn (Z.to_nat start) l).
Proof.
  intros Hs Hz. unfold slice, slice_index.
  replace (start <? 0) with false by (symmetry; apply Z.ltb_ge; lia).
  replace (start + size <? 0) with false by (symmetry; apply Z.ltb_ge; lia).
  destruct (Z_le_gt_dec (Z.of_nat (List.length l)) start) as [Hbig | Hsmall].
  - rewrite !skipn_all2 by lia. rewrite !firstn_nil. reflexivity.
  - replace (Z.to_nat (Z.min start (Z.of_nat (List.length l))))
      with (Z.to_nat start) by lia.
    destruct (Z_le_gt_dec (start + size) (Z.of_nat (List.length l)))
      as [Hin | Hout].
    + f_equal. lia.
    + rewrite !firstn_all2; [reflexivity | |];
        rewrite length_skipn; lia.
Qed.

Lemma chunks {A : Type} (size n : nat) (l : list A) :
  (List.length l <= n * size)%nat ->
  concat (map (fun p => firstn size (skipn (p * size) l)) (seq 0 n)) = l.
Proof.
  revert l. induction n as [| n IH]; intros l Hl.
  - destruct l; [reflexivity | simpl in Hl; lia].
  - cbn [seq map concat]. rewrite <- seq_shift, map_map.
    cbn [Nat.mul Nat.add skipn].
    transitivity (firstn size l ++ skipn size l)%list;
      [| apply firstn_skipn].
    f_equal.
    etransitivity; [| apply (IH (skipn size l))].
    + f_equal. apply map_ext. intros p.
      rewrite skipn_skipn. f_equal. f_equal. lia.
    + rewrite length_skipn. simpl in Hl. lia.
Qed.

(** The pages of a query, for a positive page size: the total is the
    count of the matches whatever the page; page [p >= 0] holds the matches
    from index [p * page_size] on, at most [page_size] of them; the pages in
    order give every match once; and page -1 is empty. *)
Theorem pagination_covers (values : list candidate)
  (spec : option specification) (page_size : Z) :
  0 < page_size ->
  (forall page : Z,
      snd (find_paginated_by_specification values spec page page_size)
      = count_by_specification values spec)
  /\ (forall page : Z,
         0 <= page ->
         fst (find_paginated_by_specification values spec page page_size)
         = firstn (Z.to_nat page_size)
             (skipn (Z.to_nat (page * page_size))
                (find_by_specification values spec)))
  /\ (forall page : Z,
         0 <= page ->
         Z.of_nat
           (List.length
              (fst (find_paginated_by_specification values spec page
                      page_size))) <= page_size)
  /\ (forall n : nat,
         count_by_specification values spec <= Z.of_nat n * page_size ->
         concat
           (map (fun p =>
                   fst (find_paginated_by_specification values spec
                          (Z.of_nat p) page_size))
              (seq 0 n))
         = find_by_specification values spec)
  /\ fst (find_paginated_by_specification values spec (-1) page_size) = [].
Proof.
  intros Hsize.
  assert (Hpage : forall page : Z,
             0 <= page ->
             fst (find_paginated_by_specification values spec page page_size)
             = firstn (Z.to_nat page_size)
                 (skipn (Z.to_nat (page * page_size))
                    (find_by_specification values spec))).
  { intros page Hp. unfold find_paginated_by_specification. cbn [fst].
    apply slice_nonneg; lia. }
  split; [| split; [exact Hpage | split; [| split]]].
  - intros page. unfold find_paginated_by_specification. cbn [snd].
    symmetry. apply count_length.
  - intros page Hp. rewrite (Hpage page Hp).
    rewrite length_firstn. lia.
  - intros n Hn. rewrite count_length in Hn.
    etransitivity;
      [| apply (chunks (Z.to_nat page_size) n
                  (find_by_specification values spec)); nia].
    f_equal. apply map_ext. intros p.
    rewrite (Hpage (Z.of_nat p)) by lia.
    f_equal. f_equal. nia.
  - unfold find_paginated_by_specification, slice, slice_index. cbn [fst].
    replace (-1 * page_size <? 0) with true by (symmetry; apply Z.ltb_lt; lia).
    replace (-1 * page_size + page_size <? 0) with false
      by (symmetry; apply Z.ltb_ge; lia).
    replace (Z.to_nat
               (Z.min (-1 * page_size + page_size)
                  (Z.of_nat
                     (List.length (find_by_specification values spec)))))
      with O by lia.
    reflexivity.
Qed.

Lemma pagination_covers_witness :
  concat
    (map (fun p =>
            fst (find_paginated_by_specification
                   [py_object [("n", VInt 1)]; py_object [("n", VInt 2)];
                    py_object [("n", VInt 3)]; py_object [("n", VInt 4)];
                    py_object [("n", VInt 5)]]
                   (Some (Backbone
                            (Filter (GreaterThanSpecification "n" (VInt 1)))))
                   (Z.of_nat p) 3))
       (seq 0 2))
  = find_by_specification
      [py_object [("n", VInt 1)]; py_object [("n", VInt 2)];
       py_object [("n", VInt 3)]; py_object [("n", VInt 4)];
       py_object [("n", VInt 5)]]
      (Some (Backbone (Filter (GreaterThanSpecification "n" (VInt 1))))).
Proof.
  apply (pagination_covers
           [py_object [("n", VInt 1)]; py_object [("n", VInt 2)];
            py_object [("n", VInt 3)]; py_object [("n", VInt 4)];
            py_object [("n", VInt 5)]]
           (Some (Backbone (Filter (GreaterThanSpecification "n" (VInt 1)))))
           3).
  - lia.
  - vm_compute. discriminate.
Defined.

End MockQueries.

(** ** The query builder *)

Section Builder.

Import QueryBuilder.

Lemma calls_filters (l : list builder_call) (self : QueryBuilder.t) :
  forallb (fun c => negb (is_clear c)) l = true ->
  _filters (calls self l) = (_filters self ++ filtered l)%list
  /\ entity_type (calls self l) = entity_type self.
Proof.
  revert self. induction l as [| c l IH]; intros self H.
  - cbn. rewrite app_nil_r. split; reflexivity.
  - cbn [forallb] in H. apply andb_prop in H. destruct H as [Hc Hl].
    unfold calls. cbn [fold_left]. fold (calls (call self c) l).
    destruct (IH (call self c) Hl) as [Hf He]. rewrite Hf, He.
    destruct c; cbn; try (split; reflexivity).
    + rewrite <- app_assoc. split; reflexivity.
    + discriminate Hc.
Qed.

(** The filters of a query definition are the expressions of the
    specifications handed to [filter] since the last [clear], in the order
    of the calls, whatever other calls come between; [has_filters] tells
    whether there is one, and [clear] gives back the state of a new
    builder. *)
Theorem builder_filters_accumulate (e : string)
  (before after : list builder_call) :
  forallb (fun c => negb (is_clear c)) after = true ->
  def_filters
    (to_query_definition (calls (__init__ e) (before ++ CallClear :: after)))
  = map to_expression (filtered after)
  /\ def_filters (to_query_definition (calls (__init__ e) after))
     = map to_expression (filtered after)
  /\ has_filters (calls (__init__ e) (before ++ CallClear :: after))
     = negb (Nat.eqb (List.length (filtered after)) 0)
  /\ calls (__init__ e) (before ++ [CallClear]) = __init__ e.
Proof.
  intros H.
  assert (Hclear : forall l, calls (__init__ e) (l ++ [CallClear])
                             = __init__ e).
  { intros l. unfold calls. rewrite fold_left_app. cbn [fold_left call].
    fold (calls (__init__ e) l). unfold clear, __init__. f_equal.
    induction l as [| c l IH] using rev_ind; [reflexivity |].
    unfold calls. rewrite fold_left_app. cbn [fold_left].
    fold (calls (__init__ e) l).
    destruct c; cbn; exact IH. }
  assert (Hsplit : calls (__init__ e) (before ++ CallClear :: after)
                   = calls (__init__ e) after).
  { change (CallClear :: after) with ([CallClear] ++ after)%list.
    rewrite app_assoc. unfold calls at 1. rewrite fold_left_app.
    fold (calls (__init__ e) (before ++ [CallClear])). rewrite Hclear.
    reflexivity. }
  rewrite Hsplit.
  destruct (calls_filters after (__init__ e) H) as [Hf _].
  cbn [_filters __init__ app] in Hf.
  unfold to_query_definition, has_filters. cbn [def_filters]. rewrite Hf.
  repeat split.
  - destruct (filtered after); reflexivity.
  - apply Hclear.
Qed.

Lemma builder_filters_accumulate_witness :
  def_filters
    (to_query_definition
       (calls (__init__ "User")
          ([CallFilter (Filter (EqualSpecification "a" (VInt 1)));
            CallLimit 5]
           ++ CallClear
              :: [CallFilter (Filter (IsNullSpecification "b"));
                  CallPaginate 2 10;
                  CallFilter
                    (NotSpecification
                       (Filter (EqualSpecification "c" (VInt 3))))])))
  = [FilterExpr "b" "is_null" VNone;
     UnaryExpr "NOT" (FilterExpr "c" "eq" (VInt 3))].
Proof.
  apply (builder_filters_accumulate "User"
           [CallFilter (Filter (EqualSpecification "a" (VInt 1)));
            CallLimit 5]
           [CallFilter (Filter (IsNullSpecification "b"));
            CallPaginate 2 10;
            CallFilter
              (NotSpecification (Filter (EqualSpecification "c" (VInt 3))))]).
  reflexivity.
Defined.

(** [clone] gives a builder in the same state, but for one case: a
    selection of no field is not copied, and the clone selects nothing at
    all. The five flags are those of the original in every case, and the
    clone of a clone is the clone. *)
Theorem clone_copies (self : QueryBuilder.t) :
  (_select_fields self <> Some [] -> clone self = self)
  /\ (_select_fields self = Some [] ->
      def_select_fields (to_query_definition self) = Some []
      /\ def_select_fields (to_query_definition (clone self)) = None)
  /\ has_filters (clone self) = has_filters self
  /\ has_sorting (clone self) = has_sorting self
  /\ has_pagination (clone self) = has_pagination self
  /\ has_field_selection (clone self) = has_field_selection self
  /\ has_joins (clone self) = has_joins self
  /\ clone (clone self) = clone self.
Proof.
  destruct self as [e f s l o sel j].
  unfold clone, to_query_definition, has_filters, has_sorting, has_pagination,
    has_field_selection, has_joins. cbn.
  split.
  - intros H. destruct sel as [[| x fields] |];
      [contradiction H; reflexivity | reflexivity | reflexivity].
  - split.
    + intros ->. split; reflexivity.
    + destruct sel as [[| x fields] |]; repeat split.
Qed.

End Builder.
